(** * DataClaw: robust CSV ingestion, role detection and reporting

    A shallow embedding of [server.py].  Python strings are sequences of
    Unicode code points; a float64 cell is modelled by the rational it
    denotes and NaN by [None].  Where the program itself computes with
    floats, the fences of the outliers, the arithmetic is IEEE 754 binary64
    with its rounding ([F64]); the sums and means are pandas' and enter as
    library calls.  What pandas,
    [os], [re] and matplotlib do is not code of this repository: it enters
    through the classes [Lib] and [Plot], and every statement says which
    library facts it relies on.  The exceptions of the model are the
    instances of Python's [Exception]. *)

From Stdlib Require Import List Bool Arith ZArith NArith QArith Qround Lia.
From Stdlib Require Import Floats.SpecFloat.
From Stdlib Require Import Strings.String Strings.Ascii DecimalString.
From Stdlib Require Import Permutation Sorting.Sorted.
Import ListNotations.

Close Scope Q_scope.

Set Implicit Arguments.

(** ** Python strings *)

Module Py.

Definition char := N.
Definition str := list char.

(** An ASCII literal of the source, as code points. *)
Definition lit (s : string) : str :=
  List.map N_of_ascii (list_ascii_of_string s).

Definition str_eqb (a b : str) : bool :=
  if list_eq_dec N.eq_dec a b then true else false.

Fixpoint startswith (s k : str) : bool :=
  match k, s with
  | [], _ => true
  | _ :: _, [] => false
  | a :: k', b :: s' => N.eqb a b && startswith s' k'
  end.

(** [k in s] *)
Fixpoint contains (k s : str) : bool :=
  startswith s k ||
  match s with
  | [] => false
  | _ :: s' => contains k s'
  end.

(** [if col:] on an [Optional[str]]: [None] and the empty string are
    false; a true one is the column the branch works with. *)
Definition truthy (o : option str) : option str :=
  match o with
  | Some ((_ :: _) as c) => Some c
  | _ => None
  end.

Definition comma : char := 44%N.
Definition minus : char := 45%N.
Definition period : char := 46%N.

(** [str.lower] on ASCII text. *)
Definition ascii_lower (s : str) : str :=
  List.map (fun c => if N.leb 65 c && N.leb c 90 then (c + 32)%N else c) s.

Definition is_ascii (s : str) : Prop := Forall (fun c => (c < 128)%N) s.

(** Code points of the non-ASCII letters of the messages. *)
Definition a_tilde : char := 227%N.
Definition i_acute : char := 237%N.

End Py.

(** ** Exceptions and the error monad *)

Inductive exn_class :=
| FileNotFoundError
| ValueError
| TypeError
| NameError
| LibraryError.

Record exn := Exn { exn_kind : exn_class; exn_str : Py.str }.

Definition result (A : Type) : Type := (exn + A)%type.

Definition ret {A} (a : A) : result A := inr a.

Definition raise {A} (k : exn_class) (msg : Py.str) : result A := inl (Exn k msg).

Definition bind {A B} (m : result A) (k : A -> result B) : result B :=
  match m with
  | inl e => inl e
  | inr a => k a
  end.

Notation "x <- m ;; k" := (bind m (fun x => k))
  (at level 61, m at next level, right associativity).
Notation "' p <- m ;; k" := (bind m (fun x => match x with p => k end))
  (at level 61, p pattern, m at next level, right associativity).

(** [try: body  except Exception as e: handler(e)] *)
Definition try_except {A} (body : result A) (handler : exn -> result A) : result A :=
  match body with
  | inr a => inr a
  | inl e => handler e
  end.

Fixpoint mapM {A B} (f : A -> result B) (l : list A) : result (list B) :=
  match l with
  | [] => ret []
  | a :: t => b <- f a ;; bs <- mapM f t ;; ret (b :: bs)
  end.

(** ** Cells, columns and tables *)

(** A float64: [None] is NaN. *)
Definition float := option Q.

Definition notna {A} (x : option A) : bool :=
  match x with Some _ => true | None => false end.

(** *** float64 arithmetic

    IEEE 754 binary64 as [SpecFloat] of the Standard Library defines it:
    every operation rounds to the nearest double, ties to even, and knows
    the infinities and NaN.  A rational enters a computation as the double
    nearest to it, which is the number itself when it is a double. *)

Module F64.

Definition prec : Z := 53.
Definition emax : Z := 1024.

Definition of_Q (x : Q) : spec_float :=
  let r := Qred x in
  match Qnum r with
  | Z0 => S754_zero false
  | Zpos n => SFdiv prec emax (S754_finite false n 0) (S754_finite false (Qden r) 0)
  | Zneg n => SFdiv prec emax (S754_finite true n 0) (S754_finite false (Qden r) 0)
  end.

Definition of_float (x : float) : spec_float :=
  match x with
  | Some q => of_Q q
  | None => S754_nan
  end.

Definition add : spec_float -> spec_float -> spec_float := SFadd prec emax.
Definition sub : spec_float -> spec_float -> spec_float := SFsub prec emax.
Definition mul : spec_float -> spec_float -> spec_float := SFmul prec emax.

(** [a < b]: false as soon as one side is NaN. *)
Definition ltb : spec_float -> spec_float -> bool := SFltb.

End F64.

Record Timestamp := mkTimestamp {
  ts_year : Z; ts_month : Z; ts_day : Z; ts_time : Z
}.

Definition ts_eqb (a b : Timestamp) : bool :=
  Z.eqb (ts_year a) (ts_year b) && Z.eqb (ts_month a) (ts_month b)
  && Z.eqb (ts_day a) (ts_day b) && Z.eqb (ts_time a) (ts_time b).

(** A cell: text, a number, a timestamp, or the missing marker (NaN, NaT). *)
Inductive value :=
| VStr (s : Py.str)
| VNum (x : Q)
| VTime (t : Timestamp)
| VNaN.

Inductive dtype := object | number | datetime.

Definition dtype_eqb (a b : dtype) : bool :=
  match a, b with
  | object, object | number, number | datetime, datetime => true
  | _, _ => false
  end.

Record Series := mkSeries { s_dtype : dtype; s_values : list value }.

Definition of_float (x : float) : value :=
  match x with Some q => VNum q | None => VNaN end.

Definition of_time (x : option Timestamp) : value :=
  match x with Some t => VTime t | None => VNaN end.

Definition isna (v : value) : bool :=
  match v with VNaN => true | _ => false end.

(** Equality of cells as [duplicated] sees it: missing equals missing. *)
Definition value_eqb (a b : value) : bool :=
  match a, b with
  | VStr s, VStr t => Py.str_eqb s t
  | VNum x, VNum y => Qeq_bool x y
  | VTime s, VTime t => ts_eqb s t
  | VNaN, VNaN => true
  | _, _ => false
  end.

Definition row := list value.

Fixpoint row_eqb (r s : row) : bool :=
  match r, s with
  | [], [] => true
  | a :: r', b :: s' => value_eqb a b && row_eqb r' s'
  | _, _ => false
  end.

(** A table, row by row; a column has one dtype. *)
Record DataFrame := mkDF {
  columns : list Py.str;
  dtypes : list dtype;
  rows : list row
}.

Definition len (df : DataFrame) : nat := List.length (rows df).

Definition with_rows (df : DataFrame) (rs : list row) : DataFrame :=
  mkDF (columns df) (dtypes df) rs.

Fixpoint index_of (col : Py.str) (cols : list Py.str) : nat :=
  match cols with
  | [] => 0
  | c :: t => if Py.str_eqb c col then 0 else S (index_of col t)
  end.

Fixpoint set_nth {A} (n : nat) (x : A) (l : list A) : list A :=
  match n, l with
  | _, [] => []
  | O, _ :: t => x :: t
  | S n', h :: t => h :: set_nth n' x t
  end.

(** [df[col]] for a name of [df.columns] *)
Definition getitem (df : DataFrame) (col : Py.str) : Series :=
  let j := index_of col (columns df) in
  mkSeries (nth j (dtypes df) object) (List.map (fun r => nth j r VNaN) (rows df)).

(** [df[col] = series] for a name of [df.columns] and a series with one
    cell per row *)
Definition setitem (df : DataFrame) (col : Py.str) (s : Series) : DataFrame :=
  let j := index_of col (columns df) in
  mkDF (columns df) (set_nth j (s_dtype s) (dtypes df))
       (List.map (fun rv => set_nth j (snd rv) (fst rv)) (combine (rows df) (s_values s))).

(** [df.select_dtypes(include=t).columns] *)
Definition select_dtypes_columns (t : dtype) (df : DataFrame) : list Py.str :=
  List.map fst (filter (fun cd => dtype_eqb (snd cd) t) (combine (columns df) (dtypes df))).

(** [df[names]] *)
Definition take_columns (names : list Py.str) (df : DataFrame) : DataFrame :=
  mkDF names
       (List.map (fun c => nth (index_of c (columns df)) (dtypes df) object) names)
       (List.map (fun r => List.map (fun c => nth (index_of c (columns df)) r VNaN) names) (rows df)).

Definition select_dtypes (t : dtype) (df : DataFrame) : DataFrame :=
  take_columns (select_dtypes_columns t df) df.

(** [df.empty]: an axis of length 0 *)
Definition df_empty (df : DataFrame) : bool :=
  Nat.eqb (List.length (columns df)) 0 || Nat.eqb (len df) 0.

(** [drop_duplicates()]: of equal rows the first is kept. *)
Fixpoint drop_duplicates_from (seen : list row) (rs : list row) : list row :=
  match rs with
  | [] => []
  | r :: t =>
      if existsb (row_eqb r) seen then drop_duplicates_from seen t
      else r :: drop_duplicates_from (r :: seen) t
  end.

Definition drop_duplicates (df : DataFrame) : DataFrame :=
  with_rows df (drop_duplicates_from [] (rows df)).

(** [dropna(how="all")]: a row goes when every cell of it is missing. *)
Definition all_missing (r : row) : bool := forallb isna r.

Definition dropna_all (df : DataFrame) : DataFrame :=
  with_rows df (filter (fun r => negb (all_missing r)) (rows df)).

(** [reset_index(drop=True)]: rows carry no index here. *)
Definition reset_index (df : DataFrame) : DataFrame := df.

(** ** Tables of the report *)

(** A month as pandas numbers it: months since January 1970. *)
Definition period := Z.

Definition to_period_M (t : Timestamp) : period :=
  ((ts_year t - 1970) * 12 + (ts_month t - 1))%Z.

(** One row per month: the month, "Total R$" and "Qtd Vendas". *)
Definition monthly_table := list (period * (float * nat)).

Inductive ranking :=
| BySum (top : list (value * float))
| ByCount (top : list (value * nat)).

Inductive chart :=
| MonthlyBar (monthly : monthly_table) (value_col : Py.str)
| TopBarh (top : ranking) (cat_col value_col : Py.str)
| MeansBar (num_df : DataFrame).

(** What one [report += ...] (or one returned f-string) appends. *)
Inductive chunk :=
| Cabecalho (arquivo data : Py.str) (linhas colunas : nat)
| ResumoEstatistico (describe : list (list float)) (exibindo : option (nat * nat))
| Financeiro (value_col : Py.str) (total media maximo : float)
| DatasInvalidas (linhas : nat)
| TendenciaMensal (monthly : monthly_table)
| TopDez (cat_col : Py.str) (top : ranking)
| Outliers (n : nat) (faixa_normal : option (spec_float * spec_float))
| Pergunta (pergunta : Py.str)
| Grafico (chart_path : Py.str)
| GraficoNaoGerado (chart_err : Py.str)
| ErroAnalise (e : Py.str)
| CsvLimpo (output_path : Py.str) (linhas_antes linhas_depois removidas : nat)
| ErroLimpeza (e : Py.str)
| Diagnostico (arquivo : Py.str) (colunas : nat)
| LinhaDiagnostico (col : Py.str) (tipo : dtype) (pct_nulo : float) (exemplo : Py.str)
| ErroDiagnostico (e : Py.str).

Definition text := list chunk.

(** ** The libraries the program calls *)

Record read_options := mkOptions {
  sep : option Py.str;
  decimal : Py.str;
  encoding : Py.str;
  engine_python : bool;
  nrows : option nat
}.

Class Lib := {
  (** the file system and the clock *)
  World : Type;
  expanduser : Py.str -> Py.str;
  path_exists : World -> Py.str -> bool;
  abspath : Py.str -> Py.str;
  basename : Py.str -> Py.str;
  strftime_now : World -> Py.str -> Py.str;
  (** [\d] of [re] on a [str] pattern, and [str.lower] *)
  re_digit : Py.char -> bool;
  lower : Py.str -> Py.str;
  (** [str(x)] of a number and of a timestamp *)
  float_str : Q -> Py.str;
  timestamp_str : Timestamp -> Py.str;
  (** pandas: reading and writing, always with [on_bad_lines="skip"];
      writing always with [index=False, sep=";", decimal=",", encoding="utf-8"] *)
  read_csv : World -> Py.str -> read_options -> result DataFrame;
  to_csv : World -> Py.str -> DataFrame -> result World;
  (** pandas: what [to_numeric(..., errors="coerce")] makes of one string *)
  to_numeric : Py.str -> float;
  (** pandas: [to_datetime(..., errors="coerce")], [None] for NaT *)
  to_datetime : Series -> result (list (option Timestamp));
  (** pandas: reductions of a column *)
  series_sum : Series -> result float;
  series_mean : Series -> result float;
  series_max : Series -> result float;
  quantile : Series -> Q -> result float;
  (** pandas: the "sum" of [agg] over one group of a numeric column, from
      the numbers of the group in row order, its missing cells left out *)
  group_sum : list Q -> float;
  (** pandas: [describe().round(2)] *)
  describe : DataFrame -> result (list (list float));
  (** pandas: [groupby(cat)[val].sum().sort_values(ascending=False).head(10)]
      and [value_counts().head(10)] *)
  top_by_sum : DataFrame -> Py.str -> Py.str -> result (list (value * float));
  top_by_count : Series -> result (list (value * nat));
  (** [to_markdown] needs the package tabulate: the error of its import, if any *)
  tabulate : option exn
}.

(** matplotlib: the figure, the plot of the chosen shape, its labels and
    [savefig] to the path. *)
Class Plot (L : Lib) := {
  render_chart : World -> chart -> Py.str -> result World
}.

(** ** Numeric coercion with the 70% rule *)

Section Ingestion.

Context {L : Lib}.

(** [series.astype(str)], cell by cell: a missing cell reads "nan". *)
Definition astype_str (v : value) : Py.str :=
  match v with
  | VStr s => s
  | VNum x => float_str x
  | VTime t => timestamp_str t
  | VNaN => Py.lit "nan"
  end.

(** [.str.replace(r"[^\d.,\-]", "", regex=True)] *)
Definition numeric_char (c : Py.char) : bool :=
  re_digit c || N.eqb c Py.period || N.eqb c Py.comma || N.eqb c Py.minus.

Definition strip_non_numeric (s : Py.str) : Py.str := filter numeric_char s.

(** [.str.replace(",", ".")] *)
Definition comma_to_period (s : Py.str) : Py.str :=
  List.map (fun c => if N.eqb c Py.comma then Py.period else c) s.

(** One cell of [converted]. *)
Definition converted_cell (v : value) : float :=
  to_numeric (comma_to_period (strip_non_numeric (astype_str v))).

(** [converted.notna().sum()] *)
Definition notna_sum (converted : list float) : nat :=
  List.length (filter notna converted).

Definition default_threshold : Q := (7 # 10)%Q.

(** [converted.notna().sum() / max(len(series), 1)].  The quotient and its
    comparison with the threshold are exact here; at the threshold 0.7 the
    float64 quotient and comparison give the same verdict for every column
    of fewer than 10^15 cells. *)
Definition valid_ratio (series : Series) : Q :=
  (Z.of_nat (notna_sum (List.map converted_cell (s_values series)))
   # Pos.of_nat (Nat.max (List.length (s_values series)) 1))%Q.

Definition coerce_numeric_if_majority (series : Series) (threshold : Q) : Series :=
  let converted := List.map converted_cell (s_values series) in
  if Qle_bool threshold (valid_ratio series)
  then mkSeries number (List.map of_float converted)
  else series.

(** ** Loading a file *)

Definition semicolon_options (enc : Py.str) : read_options :=
  mkOptions (Some (Py.lit ";")) (Py.lit ",") enc false None.

Definition sniffing_options : read_options :=
  mkOptions None (Py.lit ".") (Py.lit "utf-8") true None.

Definition encodings : list Py.str :=
  [Py.lit "utf-8"; Py.lit "latin-1"; Py.lit "cp1252"].

(** The [for enc in ...] loop: the calls of [read_csv] it makes, and [df]
    when it ends. *)
Fixpoint try_encodings (w : World) (file_path : Py.str) (encs : list Py.str)
  : list read_options * option DataFrame :=
  match encs with
  | [] => ([], None)
  | enc :: rest =>
      match read_csv w file_path (semicolon_options enc) with
      | inr df => ([semicolon_options enc], Some df)
      | inl _ =>
          let (calls, df) := try_encodings w file_path rest in
          (semicolon_options enc :: calls, df)
      end
  end.

(** The loop over the text columns. *)
Definition coerce_object_columns (df : DataFrame) : DataFrame :=
  fold_left
    (fun df col => setitem df col (coerce_numeric_if_majority (getitem df col) default_threshold))
    (select_dtypes_columns object df) df.

Definition clean_and_coerce (df : DataFrame) : DataFrame :=
  coerce_object_columns (dropna_all (drop_duplicates df)).

Definition not_found_message (file_path : Py.str) : Py.str :=
  Py.lit "Arquivo n" ++ [Py.a_tilde] ++ Py.lit "o encontrado: " ++ file_path.

Definition unreadable_message (e : exn) : Py.str :=
  Py.lit "N" ++ [Py.a_tilde] ++ Py.lit "o foi poss" ++ [Py.i_acute]
  ++ Py.lit "vel ler o arquivo: " ++ exn_str e.

(** [load_csv_robust], with the calls of [read_csv] it made. *)
Definition load_csv_robust_run (w : World) (file_path : Py.str)
  : list read_options * result DataFrame :=
  let file_path := expanduser file_path in
  if negb (path_exists w file_path)
  then ([], raise FileNotFoundError (not_found_message file_path))
  else
    match try_encodings w file_path encodings with
    | (calls, Some df) => (calls, ret (clean_and_coerce df))
    | (calls, None) =>
        match read_csv w file_path sniffing_options with
        | inr df => (calls ++ [sniffing_options], ret (clean_and_coerce df))
        | inl e => (calls ++ [sniffing_options], raise ValueError (unreadable_message e))
        end
    end.

Definition load_csv_robust (w : World) (file_path : Py.str) : result DataFrame :=
  snd (load_csv_robust_run w file_path).

(** ** Column roles *)

Definition value_keywords : list Py.str :=
  List.map Py.lit ["total"; "valor"; "receita"; "faturamento"; "preco"; "price"]%string.

Definition date_keywords : list Py.str :=
  List.map Py.lit ["data"; "date"; "dt_"; "_dt"; "periodo"]%string.

Definition category_keywords : list Py.str :=
  List.map Py.lit ["categoria"; "produto"; "vendedor"; "status"; "cidade"]%string.

(** [any(k in c.lower() for k in keywords)] *)
Definition has_keyword (keywords : list Py.str) (c : Py.str) : bool :=
  existsb (fun k => Py.contains k (lower c)) keywords.

(** [next((c for c in cols if any(...)), None)] *)
Definition first_match (keywords : list Py.str) (cols : list Py.str) : option Py.str :=
  find (has_keyword keywords) cols.

Definition detectar_colunas (df : DataFrame)
  : option Py.str * option Py.str * option Py.str :=
  let value_col := first_match value_keywords (columns df) in
  let date_col := first_match date_keywords (columns df) in
  let cat_col := first_match category_keywords (columns df) in
  (value_col, date_col, cat_col).

End Ingestion.

(** ** The sections of the report *)

(** [.to_markdown()]: fails when tabulate cannot be imported. *)
Definition to_markdown {L : Lib} {A} (table : A) : result A :=
  match tabulate with
  | Some e => inl e
  | None => ret table
  end.

Definition count_true (mask : list bool) : nat :=
  List.length (filter (fun b => b) mask).

(** [l.tail(n)] *)
Definition tail {A} (n : nat) (l : list A) : list A :=
  skipn (List.length l - n) l.

(** *** Monthly trend: [groupby(...to_period("M"))[value_col].agg(["sum", "count"])] *)

(** [df[valid_dates]]: the month and the value of each row with a date. *)
Definition valid_rows (dates : list (option Timestamp)) (vals : list value)
  : list (period * value) :=
  flat_map
    (fun dv => match fst dv with
               | Some t => [(to_period_M t, snd dv)]
               | None => []
               end)
    (combine dates vals).

(** The group keys: each month once, ascending. *)
Fixpoint insert_key (k : period) (l : list period) : list period :=
  match l with
  | [] => [k]
  | h :: t =>
      if Z.ltb k h then k :: l
      else if Z.eqb k h then l
      else h :: insert_key k t
  end.

Definition group_keys (ks : list period) : list period :=
  fold_right insert_key [] ks.

Definition group (k : period) (rs : list (period * value)) : list value :=
  List.map snd (filter (fun r => Z.eqb (fst r) k) rs).

(** "sum" skips missing cells and leaves the addition to pandas.  On
    cells that are no numbers (text, timestamps) pandas raises or
    concatenates, according to the dtype and its version; here it raises. *)
Fixpoint group_numbers (vs : list value) : result (list Q) :=
  match vs with
  | [] => ret []
  | VNum x :: t => xs <- group_numbers t ;; ret (x :: xs)
  | VNaN :: t => group_numbers t
  | _ :: _ => raise TypeError (Py.lit "does not support sum operations")
  end.

Definition agg_sum {L : Lib} (vs : list value) : result float :=
  xs <- group_numbers vs ;; ret (group_sum xs).

(** "count" counts the cells that are not missing. *)
Definition agg_count (vs : list value) : nat :=
  List.length (filter (fun v => negb (isna v)) vs).

Definition groupby_month_agg {L : Lib} (rs : list (period * value)) : result monthly_table :=
  mapM (fun k => s <- agg_sum (group k rs) ;; ret (k, (s, agg_count (group k rs))))
       (group_keys (List.map fst rs)).

(** [monthly], from the parsed dates and the value column. *)
Definition monthly_trend {L : Lib} (dates : list (option Timestamp)) (vals : list value)
  : result monthly_table :=
  all_months <- groupby_month_agg (valid_rows dates vals) ;;
  ret (tail 12 all_months).

(** *** Outliers: comparisons of a column with a bound *)

Definition value_lt (v : value) (bound : spec_float) : result bool :=
  match v with
  | VNum x => ret (F64.ltb (F64.of_Q x) bound)
  | VNaN => ret false
  | _ => raise TypeError (Py.lit "'<' not supported between instances")
  end.

Definition value_gt (v : value) (bound : spec_float) : result bool :=
  match v with
  | VNum x => ret (F64.ltb bound (F64.of_Q x))
  | VNaN => ret false
  | _ => raise TypeError (Py.lit "'>' not supported between instances")
  end.

Definition series_lt (s : Series) (bound : spec_float) : result (list bool) :=
  mapM (fun v => value_lt v bound) (s_values s).

Definition series_gt (s : Series) (bound : spec_float) : result (list bool) :=
  mapM (fun v => value_gt v bound) (s_values s).

(** [mask1 | mask2] *)
Definition mask_or (a b : list bool) : list bool :=
  List.map (fun p => orb (fst p) (snd p)) (combine a b).

Definition one_and_a_half : spec_float := F64.of_Q (3 # 2).

(** [iqr = q3 - q1] *)
Definition iqr (q1 q3 : float) : spec_float :=
  F64.sub (F64.of_float q3) (F64.of_float q1).

(** [q1 - 1.5 * iqr] *)
Definition lower_fence (q1 q3 : float) : spec_float :=
  F64.sub (F64.of_float q1) (F64.mul one_and_a_half (iqr q1 q3)).

(** [q3 + 1.5 * iqr] *)
Definition upper_fence (q1 q3 : float) : spec_float :=
  F64.add (F64.of_float q3) (F64.mul one_and_a_half (iqr q1 q3)).

(** *** What the analysis knows when it reaches the chart *)

Record analysis := mkAnalysis {
  report : text;
  value_col : option Py.str;
  date_col : option Py.str;
  cat_col : option Py.str;
  num_df : DataFrame;
  valid_dates : option (list bool);
  monthly : option monthly_table;
  top : option ranking
}.

Definition undefined {A} (name : string) : result A :=
  raise NameError (Py.lit "name '" ++ Py.lit name ++ Py.lit "' is not defined").

(** The [elif] and [else] of the chart. *)
Definition choose_chart_without_trend (a : analysis) : result chart :=
  match Py.truthy (cat_col a), Py.truthy (value_col a) with
  | Some c, Some v =>
      match top a with
      | Some t => ret (TopBarh t c v)
      | None => undefined "top"
      end
  | _, _ => ret (MeansBar (num_df a))
  end.

(** The [if]/[elif]/[else] of the chart. *)
Definition choose_chart (a : analysis) : result chart :=
  match Py.truthy (date_col a), Py.truthy (value_col a) with
  | Some _, Some v =>
      match valid_dates a with
      | None => undefined "valid_dates"
      | Some valid =>
          if Nat.ltb 0 (count_true valid) then
            match monthly a with
            | Some m => ret (MonthlyBar m v)
            | None => undefined "monthly"
            end
          else choose_chart_without_trend a
      end
  | _, _ => choose_chart_without_trend a
  end.

Section Tools.

Context {L : Lib}.

(** Lines 119-127. *)
Definition resumo_estatistico (df : DataFrame) : result (DataFrame * text) :=
  let num_df := select_dtypes number df in
  if negb (df_empty num_df) then
    let cols_to_show := firstn 8 (columns num_df) in
    d <- describe (take_columns cols_to_show num_df) ;;
    md <- to_markdown d ;;
    ret (num_df,
         [ResumoEstatistico md
            (if Nat.ltb 8 (List.length (columns num_df))
             then Some (List.length cols_to_show, List.length (columns num_df))
             else None)])
  else ret (num_df, []).

(** Lines 129-137. *)
Definition financeiro (df : DataFrame) (value_col : option Py.str) : result text :=
  match Py.truthy value_col with
  | Some v =>
      total <- series_sum (getitem df v) ;;
      media <- series_mean (getitem df v) ;;
      maximo <- series_max (getitem df v) ;;
      ret [Financeiro v total media maximo]
  | None => ret []
  end.

(** Lines 139-153: the table with the parsed date column, [valid_dates],
    [monthly] and the text. *)
Definition tendencia_mensal (df : DataFrame) (value_col date_col : option Py.str)
  : result (DataFrame * option (list bool) * option monthly_table * text) :=
  match Py.truthy date_col, Py.truthy value_col with
  | Some d, Some v =>
      dates <- to_datetime (getitem df d) ;;
      let df := setitem df d (mkSeries datetime (List.map of_time dates)) in
      let valid_dates := List.map notna dates in
      let invalid := DatasInvalidas (count_true (List.map negb valid_dates)) in
      if Nat.ltb 0 (count_true valid_dates) then
        monthly <- monthly_trend dates (s_values (getitem df v)) ;;
        md <- to_markdown monthly ;;
        ret (df, Some valid_dates, Some monthly, [invalid; TendenciaMensal md])
      else ret (df, Some valid_dates, None, [invalid])
  | _, _ => ret (df, None, None, [])
  end.

(** Lines 155-163. *)
Definition top_categorias (df : DataFrame) (value_col cat_col : option Py.str)
  : result (option ranking * text) :=
  match Py.truthy cat_col with
  | Some c =>
      match Py.truthy value_col with
      | Some v =>
          top <- top_by_sum df c v ;;
          md <- to_markdown (BySum top) ;;
          ret (Some (BySum top), [TopDez c md])
      | None =>
          top <- top_by_count (getitem df c) ;;
          md <- to_markdown (ByCount top) ;;
          ret (Some (ByCount top), [TopDez c md])
      end
  | None => ret (None, [])
  end.

(** Lines 165-174. *)
Definition outliers_detectados (df : DataFrame) (value_col : option Py.str) : result text :=
  match Py.truthy value_col with
  | Some v =>
      q1 <- quantile (getitem df v) (1 # 4)%Q ;;
      q3 <- quantile (getitem df v) (3 # 4)%Q ;;
      below <- series_lt (getitem df v) (lower_fence q1 q3) ;;
      above <- series_gt (getitem df v) (upper_fence q1 q3) ;;
      let outliers := count_true (mask_or below above) in
      ret [Outliers outliers
             (if Nat.ltb 0 outliers
              then Some (lower_fence q1 q3, upper_fence q1 q3)
              else None)]
  | None => ret []
  end.

(** Lines 111-178: everything of [analyze_csv] before the chart. *)
Definition analyze_sections (w : World) (file_path pergunta : Py.str) : result analysis :=
  df <- load_csv_robust w file_path ;;
  let '(value_col, date_col, cat_col) := detectar_colunas df in
  let cabecalho :=
    Cabecalho (basename file_path) (strftime_now w (Py.lit "%d/%m/%Y %H:%M"))
              (len df) (List.length (columns df)) in
  '(num_df, resumo) <- resumo_estatistico df ;;
  fin <- financeiro df value_col ;;
  '(df, valid_dates, monthly, tendencia) <- tendencia_mensal df value_col date_col ;;
  '(top, ranking) <- top_categorias df value_col cat_col ;;
  out <- outliers_detectados df value_col ;;
  ret (mkAnalysis
         ([cabecalho] ++ resumo ++ fin ++ tendencia ++ ranking ++ out ++ [Pergunta pergunta])
         value_col date_col cat_col num_df valid_dates monthly top).

Context {P : Plot L}.

Definition chart_path (w : World) : Py.str :=
  let chart_name :=
    Py.lit "chart_" ++ strftime_now w (Py.lit "%Y%m%d_%H%M%S") ++ Py.lit ".png" in
  abspath (Py.lit "outputs/" ++ chart_name).

(** Lines 182-205: the inner [try]. *)
Definition grafico (w : World) (a : analysis) : World * text :=
  match (c <- choose_chart a ;;
         w' <- render_chart w c (chart_path w) ;;
         ret (w', chart_path w)) with
  | inr (w', path) => (w', [Grafico path])
  | inl chart_err => (w, [GraficoNaoGerado (exn_str chart_err)])
  end.

(** The outer [try] of [analyze_csv]. *)
Definition analyze_body (w : World) (file_path pergunta : Py.str) : result (World * text) :=
  a <- analyze_sections w file_path pergunta ;;
  let (w', g) := grafico w a in
  ret (w', report a ++ g).

(** A tool returns the world it leaves and the string it answers, or
    raises. *)
Definition analyze_csv (w : World) (file_path pergunta : Py.str) : result (World * text) :=
  try_except (analyze_body w file_path pergunta)
             (fun e => ret (w, [ErroAnalise (exn_str e)])).

(** ** The cleaner *)

Definition clean_rows (df_raw : DataFrame) : DataFrame :=
  reset_index (dropna_all (drop_duplicates df_raw)).

Definition output_path (output_name : Py.str) : Py.str :=
  abspath (Py.lit "outputs/" ++ output_name).

Definition clean_body (w : World) (file_path output_name : Py.str) : result (World * text) :=
  df_raw <- read_csv w file_path (semicolon_options (Py.lit "utf-8")) ;;
  let linhas_antes := len df_raw in
  let df_clean := clean_rows df_raw in
  let linhas_depois := len df_clean in
  w' <- to_csv w (output_path output_name) df_clean ;;
  ret (w', [CsvLimpo (output_path output_name) linhas_antes linhas_depois
                     (linhas_antes - linhas_depois)]).

Definition clean_csv (w : World) (file_path output_name : Py.str) : result (World * text) :=
  try_except (clean_body w file_path output_name)
             (fun e => ret (w, [ErroLimpeza (exn_str e)])).

(** ** The diagnosis *)

(** [round(x, 1)], half to even. *)
Definition round_half_even (x : Q) : Z :=
  let f := Qfloor x in
  match Qcompare (x - inject_Z f)%Q (1 # 2)%Q with
  | Lt => f
  | Gt => (f + 1)%Z
  | Eq => if Z.even f then f else (f + 1)%Z
  end.

Definition round1 (x : Q) : Q := (inject_Z (round_half_even (x * 10)) / 10)%Q.

(** [round(isna().sum() / len(df) * 100, 1)]: NaN over no rows. *)
Definition pct_nulo (df : DataFrame) (col : Py.str) : float :=
  let nulls := List.length (filter isna (s_values (getitem df col))) in
  match len df with
  | O => None
  | S _ => Some (round1 ((Z.of_nat nulls # Pos.of_nat (len df)) * 100)%Q)
  end.

Definition em_dash : Py.str := [8212%N].

Definition exemplo (df : DataFrame) (col : Py.str) : Py.str :=
  match find (fun v => negb (isna v)) (s_values (getitem df col)) with
  | Some v => astype_str v
  | None => em_dash
  end.

Definition sample_options : read_options :=
  mkOptions (Some (Py.lit ";")) (Py.lit ",") (Py.lit "utf-8") false (Some 1000).

Definition info_body (w : World) (file_path : Py.str) : result (World * text) :=
  let file_path := expanduser file_path in
  df <- read_csv w file_path sample_options ;;
  let info := [Diagnostico (basename file_path) (List.length (columns df))] in
  ret (w, info ++
          List.map (fun col =>
                      LinhaDiagnostico col (s_dtype (getitem df col)) (pct_nulo df col)
                                       (firstn 30 (exemplo df col)))
                   (columns df)).

Definition csv_info (w : World) (file_path : Py.str) : result (World * text) :=
  try_except (info_body w file_path)
             (fun e => ret (w, [ErroDiagnostico (exn_str e)])).

End Tools.

(** ** A reference library

    One instance of [Lib] and [Plot] to run the program on: a store of
    files that are already tables, a decimal parser, ISO dates, quantiles
    by linear interpolation.  The general statements below hold for every
    instance; this one serves the worked examples. *)

Module Ref.

Inductive file :=
| CsvFile (enc : Py.str) (df : DataFrame)
| Garbage
| PngFile (c : chart).

Definition store := list (Py.str * file).

Fixpoint lookup (w : store) (p : Py.str) : option file :=
  match w with
  | [] => None
  | (q, f) :: t => if Py.str_eqb q p then Some f else lookup t p
  end.

Definition ascii_digit (c : Py.char) : bool := N.leb 48 c && N.leb c 57.

(** The text after the last slash. *)
Fixpoint last_component (s acc : Py.str) : Py.str :=
  match s with
  | [] => acc
  | c :: t => if N.eqb c 47 then last_component t [] else last_component t (acc ++ [c])
  end.

(** Leading digits: their value, how many, and the rest. *)
Fixpoint read_digits (s : Py.str) (acc : Z) (n : nat) : Z * nat * Py.str :=
  match s with
  | c :: t =>
      if ascii_digit c then read_digits t (acc * 10 + (Z.of_N c - 48))%Z (S n)
      else (acc, n, s)
  | [] => (acc, n, [])
  end.

Definition parse_unsigned (s : Py.str) : float :=
  let '(i, ni, rest) := read_digits s 0%Z 0 in
  match rest with
  | [] => if Nat.ltb 0 ni then Some (inject_Z i) else None
  | c :: frac =>
      if N.eqb c Py.period then
        let '(f, nf, rest') := read_digits frac 0%Z 0 in
        match rest' with
        | [] =>
            if Nat.ltb 0 (ni + nf)
            then Some (inject_Z i + (f # Pos.of_nat (10 ^ nf)))%Q
            else None
        | _ :: _ => None
        end
      else None
  end.

Definition parse_decimal (s : Py.str) : float :=
  match s with
  | c :: t => if N.eqb c Py.minus then option_map Qopp (parse_unsigned t) else parse_unsigned s
  | [] => None
  end.

(** [YYYY-MM-DD] *)
Definition parse_iso_date (s : Py.str) : option Timestamp :=
  match read_digits s 0%Z 0 with
  | (y, 4, c1 :: s1) =>
      match read_digits s1 0%Z 0 with
      | (m, 2, c2 :: s2) =>
          match read_digits s2 0%Z 0 with
          | (d, 2, []) =>
              if N.eqb c1 Py.minus && N.eqb c2 Py.minus
                 && Z.leb 1 m && Z.leb m 12 && Z.leb 1 d && Z.leb d 31
              then Some (mkTimestamp y m d 0)
              else None
          | _ => None
          end
      | _ => None
      end
  | _ => None
  end.

(** The day that lies [z] days after 1970-01-01 in the Gregorian
    calendar. *)
Definition civil_from_days (z : Z) : Z * Z * Z :=
  let z := (z + 719468)%Z in
  let era := (z / 146097)%Z in
  let doe := (z - era * 146097)%Z in
  let yoe := ((doe - doe / 1460 + doe / 36524 - doe / 146096) / 365)%Z in
  let doy := (doe - (365 * yoe + yoe / 4 - yoe / 100))%Z in
  let mp := ((5 * doy + 2) / 153)%Z in
  let d := (doy - (153 * mp + 2) / 5 + 1)%Z in
  let m := if Z.ltb mp 10 then (mp + 3)%Z else (mp - 9)%Z in
  ((yoe + era * 400 + (if Z.leb m 2 then 1 else 0))%Z, m, d).

Definition day_ns : Z := (86400 * 10 ^ 9)%Z.

(** A number is a count of nanoseconds since 1970-01-01 00:00, and NaT
    outside the 64 bits of a timestamp. *)
Definition of_epoch_ns (x : Q) : option Timestamp :=
  let ns := Qfloor x in
  if Z.ltb (- 2 ^ 63) ns && Z.ltb ns (2 ^ 63) then
    let '(y, m, d) := civil_from_days (ns / day_ns) in
    Some (mkTimestamp y m d (ns mod day_ns))
  else None.

Definition datetime_of (v : value) : option Timestamp :=
  match v with
  | VStr s => parse_iso_date s
  | VTime t => Some t
  | VNum x => of_epoch_ns x
  | VNaN => None
  end.

(** The numbers of a column; text makes a reduction fail. *)
Fixpoint numbers (vs : list value) : result (list Q) :=
  match vs with
  | [] => ret []
  | VNum x :: t => xs <- numbers t ;; ret (x :: xs)
  | VNaN :: t => numbers t
  | _ :: _ => raise TypeError (Py.lit "could not convert to numeric")
  end.

Definition qsum (xs : list Q) : Q := fold_right Qplus 0%Q xs.

Fixpoint qinsert (x : Q) (l : list Q) : list Q :=
  match l with
  | [] => [x]
  | h :: t => if Qle_bool x h then x :: l else h :: qinsert x t
  end.

Definition qsort (xs : list Q) : list Q := fold_right qinsert [] xs.

Definition qmax (xs : list Q) : float :=
  match qsort xs with
  | [] => None
  | h :: t => Some (last t h)
  end.

(** Linear interpolation between the two closest ranks. *)
Definition interpolate (q : Q) (xs : list Q) : float :=
  match qsort xs with
  | [] => None
  | h :: t =>
      let pos := (inject_Z (Z.of_nat (List.length t)) * q)%Q in
      let i := Z.to_nat (Qfloor pos) in
      let lo := nth i (h :: t) h in
      let hi := nth (S i) (h :: t) lo in
      Some (Qred (lo + (pos - inject_Z (Qfloor pos)) * (hi - lo)))%Q
  end.

Definition truncate (n : option nat) (df : DataFrame) : DataFrame :=
  match n with
  | Some k => with_rows df (firstn k (rows df))
  | None => df
  end.

Definition read (w : store) (p : Py.str) (o : read_options) : result DataFrame :=
  match lookup w p with
  | Some (CsvFile enc df) =>
      if Py.str_eqb enc (encoding o) then ret (truncate (nrows o) df)
      else raise LibraryError (Py.lit "codec can't decode byte")
  | Some _ => raise LibraryError (Py.lit "Error tokenizing data")
  | None => raise FileNotFoundError (Py.lit "No such file or directory")
  end.

(** Rows per distinct cell of a column, the most frequent first. *)
Fixpoint count_value (v : value) (acc : list (value * nat)) : list (value * nat) :=
  match acc with
  | [] => [(v, 1)]
  | (u, n) :: t => if value_eqb u v then (u, S n) :: t else (u, n) :: count_value v t
  end.

Fixpoint insert_by_count (x : value * nat) (l : list (value * nat)) : list (value * nat) :=
  match l with
  | [] => [x]
  | h :: t => if Nat.leb (snd h) (snd x) then x :: l else h :: insert_by_count x t
  end.

Definition value_counts (s : Series) : list (value * nat) :=
  fold_right insert_by_count []
    (fold_left (fun acc v => if isna v then acc else count_value v acc) (s_values s) []).

#[export] Instance lib : Lib := {|
  World := store;
  expanduser := fun p => p;
  path_exists := fun w p => notna (lookup w p);
  abspath := fun p => Py.lit "/srv/" ++ p;
  basename := fun p => last_component p [];
  strftime_now := fun _ _ => Py.lit "20240101_120000";
  re_digit := ascii_digit;
  lower := Py.ascii_lower;
  float_str := fun _ => Py.lit "0.0";
  timestamp_str := fun _ => Py.lit "1970-01-01";
  read_csv := read;
  to_csv := fun w p df => ret ((p, CsvFile (Py.lit "utf-8") df) :: w);
  to_numeric := parse_decimal;
  to_datetime := fun s => ret (List.map datetime_of (s_values s));
  series_sum := fun s => xs <- numbers (s_values s) ;; ret (Some (qsum xs));
  series_mean := fun s =>
    xs <- numbers (s_values s) ;;
    ret (match xs with
         | [] => None
         | _ :: _ => Some (qsum xs / inject_Z (Z.of_nat (List.length xs)))%Q
         end);
  series_max := fun s => xs <- numbers (s_values s) ;; ret (qmax xs);
  quantile := fun s q => xs <- numbers (s_values s) ;; ret (interpolate q xs);
  group_sum := fun xs => Some (qsum xs);
  describe := fun _ => ret [];
  top_by_sum := fun _ _ _ => ret [];
  top_by_count := fun s => ret (firstn 10 (value_counts s));
  tabulate := None
|}.

#[export] Instance plot : Plot lib := {|
  render_chart := fun w c p => ret ((p, PngFile c) :: w)
|}.

End Ref.

(** ** A library that reads in chunks

    [read_csv] with its default [low_memory=True] parses a large file
    chunk by chunk and infers the type of each column in each chunk apart:
    a cell of digits becomes a number in a chunk where the whole column
    parses, and stays text in a chunk where some cell of the column does
    not.  This second instance of [Lib] reads files of text cells that way,
    [chunk_rows] lines at a time; its three lines stand for the megabyte of
    text that pandas takes.  It knows whole numbers only, and writes a
    number as its digits. *)

Module Chunked.

Definition chunk_rows : nat := 3.

(** A file: the header and the lines, cell by cell. *)
Record csv := mkCsv { header : list Py.str; lines : list (list Py.str) }.

Definition store := list (Py.str * csv).

Fixpoint lookup (w : store) (p : Py.str) : option csv :=
  match w with
  | [] => None
  | (q, f) :: t => if Py.str_eqb q p then Some f else lookup t p
  end.

(** Digits, with or without a minus sign before them. *)
Definition parse_int (s : Py.str) : option Z :=
  let digits := fun t =>
    match Ref.read_digits t 0%Z 0 with
    | (i, S _, []) => Some i
    | _ => None
    end in
  match s with
  | c :: t => if N.eqb c Py.minus then option_map Z.opp (digits t) else digits s
  | [] => None
  end.

Definition print_int (z : Z) : Py.str :=
  Py.lit (NilZero.string_of_int (Z.to_int z)).

(** The lines [chunk_rows] at a time. *)
Fixpoint chunks (fuel : nat) (ls : list (list Py.str)) : list (list (list Py.str)) :=
  match fuel, ls with
  | S fuel', _ :: _ => firstn chunk_rows ls :: chunks fuel' (skipn chunk_rows ls)
  | _, _ => []
  end.

(** Column [j] parses in a chunk when each of its cells there is empty or
    a whole number. *)
Definition parses (j : nat) (chunk : list (list Py.str)) : bool :=
  forallb (fun l => match nth j l [] with
                    | [] => true
                    | c :: t => notna (parse_int (c :: t))
                    end) chunk.

Definition cell (numeric : bool) (s : Py.str) : value :=
  match s with
  | [] => VNaN
  | _ :: _ =>
      match (if numeric then parse_int s else None) with
      | Some z => VNum (inject_Z z)
      | None => VStr s
      end
  end.

Definition parse_chunk (chunk : list (list Py.str)) : list row :=
  List.map (fun l => List.map (fun js => cell (parses (fst js) chunk) (snd js))
                              (combine (seq 0 (List.length l)) l))
           chunk.

Definition read (w : store) (p : Py.str) (o : read_options) : result DataFrame :=
  match lookup w p with
  | Some f =>
      let cs := chunks (List.length (lines f)) (lines f) in
      ret (Ref.truncate (nrows o)
             (mkDF (header f)
                   (List.map (fun j => if forallb (parses j) cs then number else object)
                             (seq 0 (List.length (header f))))
                   (flat_map parse_chunk cs)))
  | None => raise FileNotFoundError (Py.lit "No such file or directory")
  end.

Definition print_cell (v : value) : result Py.str :=
  match v with
  | VStr s => ret s
  | VNaN => ret []
  | VNum x =>
      if Qeq_bool x (inject_Z (Qfloor x)) then ret (print_int (Qfloor x))
      else raise LibraryError (Py.lit "not a whole number")
  | VTime _ => raise LibraryError (Py.lit "not a whole number")
  end.

Definition write (w : store) (p : Py.str) (df : DataFrame) : result store :=
  ls <- mapM (mapM print_cell) (rows df) ;;
  ret ((p, mkCsv (columns df) ls) :: w).

Definition lib : Lib := {|
  World := store;
  expanduser := fun p => p;
  path_exists := fun w p => notna (lookup w p);
  abspath := @abspath Ref.lib;
  basename := @basename Ref.lib;
  strftime_now := fun _ _ => Py.lit "20240101_120000";
  re_digit := Ref.ascii_digit;
  lower := Py.ascii_lower;
  float_str := @float_str Ref.lib;
  timestamp_str := @timestamp_str Ref.lib;
  read_csv := read;
  to_csv := write;
  to_numeric := Ref.parse_decimal;
  to_datetime := @to_datetime Ref.lib;
  series_sum := @series_sum Ref.lib;
  series_mean := @series_mean Ref.lib;
  series_max := @series_max Ref.lib;
  quantile := @quantile Ref.lib;
  group_sum := @group_sum Ref.lib;
  describe := @describe Ref.lib;
  top_by_sum := @top_by_sum Ref.lib;
  top_by_count := @top_by_count Ref.lib;
  tabulate := None
|}.

End Chunked.

(** ** Vocabulary of the statements *)

(** The cells of a column that parse as numbers after the clean-up. *)
Definition parsed_cells {L : Lib} (series : Series) : nat :=
  List.length (filter (fun v => notna (converted_cell v)) (s_values series)).

(** The clean-up, character by character: [t] is [s] with a period (46) in
    the place of every comma (44), with its digits, periods and minus signs
    (45) kept, and with every other character dropped. *)
Inductive cleaned {L : Lib} : Py.str -> Py.str -> Prop :=
| cleaned_nil : cleaned [] []
| cleaned_comma s t : cleaned s t -> cleaned (44%N :: s) (46%N :: t)
| cleaned_kept c s t :
    c <> 44%N -> re_digit c = true \/ c = 46%N \/ c = 45%N ->
    cleaned s t -> cleaned (c :: s) (c :: t)
| cleaned_dropped c s t :
    c <> 44%N -> re_digit c = false -> c <> 46%N -> c <> 45%N ->
    cleaned s t -> cleaned (c :: s) t.


(** [k] occurs in [s]. *)
Definition substring (k s : Py.str) : Prop :=
  exists pre post, s = pre ++ k ++ post.

(** The lowercased name contains a keyword of the set. *)
Definition names_keyword {L : Lib} (keywords : list Py.str) (c : Py.str) : Prop :=
  exists k, In k keywords /\ substring k (lower c).

(** [r] is the first of [cols], left to right, with property [p], and
    nothing when no column has it. *)
Definition first_such (p : Py.str -> Prop) (cols : list Py.str) (r : option Py.str) : Prop :=
  match r with
  | Some c =>
      exists before after,
        cols = before ++ c :: after /\ p c /\ forall b, In b before -> ~ p b
  | None => forall c, In c cols -> ~ p c
  end.

Definition sales_columns : list Py.str :=
  List.map Py.lit ["ID_Venda"; "Data"; "Total_Venda"; "Categoria"]%string.

(** The reads [load_csv_robust] may make, in order: semicolon and decimal
    comma with utf-8, with latin-1 and with cp1252, then the python engine
    sniffing the separator, with decimal period and utf-8. *)
Definition attempts : list read_options :=
  [mkOptions (Some (Py.lit ";")) (Py.lit ",") (Py.lit "utf-8") false None;
   mkOptions (Some (Py.lit ";")) (Py.lit ",") (Py.lit "latin-1") false None;
   mkOptions (Some (Py.lit ";")) (Py.lit ",") (Py.lit "cp1252") false None;
   mkOptions None (Py.lit ".") (Py.lit "utf-8") true None].

(** "Arquivo não encontrado: " and "Não foi possível ler o arquivo: ", the
    openings of the two failure texts (227 is a-tilde, 237 i-acute). *)
Definition arquivo_nao_encontrado : Py.str :=
  Py.lit "Arquivo n" ++ [227%N] ++ Py.lit "o encontrado: ".

Definition nao_foi_possivel_ler : Py.str :=
  Py.lit "N" ++ [227%N] ++ Py.lit "o foi poss" ++ [237%N] ++ Py.lit "vel ler o arquivo: ".

(** A cell of a numeric column: a number or the missing marker. *)
Definition numeric (v : value) : Prop :=
  match v with
  | VNum _ | VNaN => True
  | _ => False
  end.

(** The numbers among some cells, in their order. *)
Fixpoint numbers_of (vs : list value) : list Q :=
  match vs with
  | [] => []
  | VNum x :: t => x :: numbers_of t
  | _ :: t => numbers_of t
  end.

(** Month by month, ascending: the sum and the count of the values of the
    rows dated in the month. *)
Definition month_table {L : Lib} (rs : list (period * value)) : monthly_table :=
  List.map (fun k => (k, (group_sum (numbers_of (group k rs)), agg_count (group k rs))))
           (group_keys (List.map fst rs)).

(** The values of the rows whose date falls in the month [p], in the order
    of the rows. *)
Fixpoint month_values (p : period) (dates : list (option Timestamp)) (vals : list value)
  : list value :=
  match dates, vals with
  | Some t :: ds, x :: xs =>
      if Z.eqb (to_period_M t) p then x :: month_values p ds xs else month_values p ds xs
  | None :: ds, _ :: xs => month_values p ds xs
  | _, _ => []
  end.

(** No row of [l] equals a row of [seen] or an earlier row of [l]. *)
Fixpoint distinct_from (seen l : list row) : Prop :=
  match l with
  | [] => True
  | r :: t => existsb (row_eqb r) seen = false /\ distinct_from (r :: seen) t
  end.

(** ** Worked examples *)

Module Sample.

(** A shop without a value column. *)
Definition loja : DataFrame :=
  mkDF [Py.lit "Categoria"; Py.lit "Quantidade"] [object; number]
       [[VStr (Py.lit "Perifericos"); VNum 1];
        [VStr (Py.lit "Acessorios"); VNum 2];
        [VStr (Py.lit "Perifericos"); VNum 3]].

Definition loja_store : Ref.store :=
  [(Py.lit "loja.csv", Ref.CsvFile (Py.lit "utf-8") loja)].

(** Sales with a category and a value column, the values still text. *)
Definition vendas : DataFrame :=
  mkDF [Py.lit "Categoria"; Py.lit "Total"] [object; object]
       [[VStr (Py.lit "Perifericos"); VStr (Py.lit "R$ 1,50")];
        [VStr (Py.lit "Acessorios"); VStr (Py.lit "2")];
        [VStr (Py.lit "Perifericos"); VStr (Py.lit "3")]].

Definition vendas_store : Ref.store :=
  [(Py.lit "vendas.csv", Ref.CsvFile (Py.lit "utf-8") vendas)].

Definition no_analysis : analysis :=
  mkAnalysis [] None None None (mkDF [] [] []) None None None.

Definition vendas_analysis : analysis :=
  Eval vm_compute in
    match @analyze_sections Ref.lib vendas_store (Py.lit "vendas.csv") (Py.lit "?") with
    | inr a => a
    | inl _ => no_analysis
    end.

(** Billing dates, day first, under a name that holds a date keyword and
    a value keyword, before the column of the values. *)
Definition faturamento : DataFrame :=
  mkDF [Py.lit "Data_Faturamento"; Py.lit "Valor"] [object; number]
       [[VStr (Py.lit "05/01/2024"); VNum 100];
        [VStr (Py.lit "20/02/2024"); VNum 250]].

Definition faturamento_store : Ref.store :=
  [(Py.lit "faturamento.csv", Ref.CsvFile (Py.lit "utf-8") faturamento)].



(** A file with a repeated row and an empty row. *)
Definition sujo : DataFrame :=
  mkDF [Py.lit "Produto"; Py.lit "Total"] [object; number]
       [[VStr (Py.lit "Mouse"); VNum 10];
        [VNaN; VNaN];
        [VStr (Py.lit "Mouse"); VNum 10];
        [VStr (Py.lit "Teclado"); VNaN]].

Definition sujo_store : Ref.store :=
  [(Py.lit "sujo.csv", Ref.CsvFile (Py.lit "utf-8") sujo)].

End Sample.

(** ** Vocabulary of the further properties *)

(** A table as [read_csv] gives it: names that differ, one dtype per
    column, one cell per column in every row. *)
Definition well_formed (df : DataFrame) : Prop :=
  NoDup (columns df)
  /\ List.length (dtypes df) = List.length (columns df)
  /\ Forall (fun r : row => List.length r = List.length (columns df)) (rows df).

(** [l'] is [l] with some elements left out, the order kept. *)
Inductive subsequence {A : Type} : list A -> list A -> Prop :=
| subsequence_nil : subsequence [] []
| subsequence_keep (x : A) (l' l : list A) :
    subsequence l' l -> subsequence (x :: l') (x :: l)
| subsequence_drop (x : A) (l' l : list A) :
    subsequence l' l -> subsequence l' (x :: l).

(** One turn of the loop over the text columns. *)
Definition coerce_column {L : Lib} (df : DataFrame) (col : Py.str) : DataFrame :=
  setitem df col (coerce_numeric_if_majority (getitem df col) default_threshold).

(** The heading a piece of the answer stands under. *)
Inductive heading :=
| HCabecalho | HResumo | HFinanceiro | HDatasInvalidas | HTendencia | HTopDez
| HOutliers | HPergunta | HGrafico | HGraficoNaoGerado | HErro | HCsvLimpo
| HDiagnostico | HLinha.

Definition heading_of (c : chunk) : heading :=
  match c with
  | Cabecalho _ _ _ _ => HCabecalho
  | ResumoEstatistico _ _ => HResumo
  | Financeiro _ _ _ _ => HFinanceiro
  | DatasInvalidas _ => HDatasInvalidas
  | TendenciaMensal _ => HTendencia
  | TopDez _ _ => HTopDez
  | Outliers _ _ => HOutliers
  | Pergunta _ => HPergunta
  | Grafico _ => HGrafico
  | GraficoNaoGerado _ => HGraficoNaoGerado
  | ErroAnalise _ | ErroLimpeza _ | ErroDiagnostico _ => HErro
  | CsvLimpo _ _ _ _ => HCsvLimpo
  | Diagnostico _ _ => HDiagnostico
  | LinhaDiagnostico _ _ _ _ => HLinha
  end.

Definition when (b : bool) (h : heading) : list heading :=
  if b then [h] else [].

(** ** The generator of the test file

    [generate_hard_test_csv.py] builds a table of [n] sales from seeded
    random draws, damages it with six edits and writes it to
    [testes/vendas_sujos_20k.csv].  The draws are a parameter here: one
    value per row and column, of the type the source draws.  Assignments
    through [.loc] follow pandas up to 2.x, where a text set into a numeric
    column turns the column into an object column. *)

Module Gen.

Definition n : nat := 20 * 1000.

Record draws := mkDraws {
  data : nat -> Py.str;
  cliente : nat -> Py.str;
  produto : nat -> Py.str;
  categoria : nat -> Py.str;
  valor_unitario : nat -> Q;
  quantidade : nat -> Z;
  total_venda : nat -> Q;
  desconto_pct : nat -> Q;
  status : nat -> Py.str;
  cidade : nat -> Py.str;
  vendedor : nat -> Py.str
}.

Definition column_names : list Py.str :=
  [Py.lit "ID_Venda"; Py.lit "Data"; Py.lit "Cliente"; Py.lit "Produto";
   Py.lit "Categoria"; Py.lit "Valor_Unitario"; Py.lit "Quantidade";
   Py.lit "Total_Venda"; Py.lit "Desconto_Pct"; Py.lit "Status";
   Py.lit "Cidade"; Py.lit "Vendedor"].

(** Row [i] of [pd.DataFrame(data)]; [range(1, n + 1)] gives it the
    identifier [i + 1]. *)
Definition base_row (d : draws) (i : nat) : row :=
  [VNum (inject_Z (Z.of_nat (i + 1)));
   VStr (data d i); VStr (cliente d i); VStr (produto d i); VStr (categoria d i);
   VNum (valor_unitario d i); VNum (inject_Z (quantidade d i));
   VNum (total_venda d i); VNum (desconto_pct d i);
   VStr (status d i); VStr (cidade d i); VStr (vendedor d i)].

Definition frame (d : draws) : DataFrame :=
  mkDF column_names
       [number; object; object; object; object; number; number; number; number;
        object; object; object]
       (List.map (base_row d) (seq 0 n)).

(** The dtype of a column of dtype [t] once [v] is set into it. *)
Definition dtype_with (t : dtype) (v : value) : dtype :=
  match v, t with
  | VNaN, _ => t
  | VNum _, number => number
  | VTime _, datetime => datetime
  | _, _ => object
  end.

(** [df.loc[sel, col] = v]: the cell of [col] is set in the rows whose
    label is selected; the labels are the positions. *)
Definition loc_assign (sel : nat -> bool) (col : Py.str) (v : value) (df : DataFrame)
  : DataFrame :=
  let j := index_of col (columns df) in
  mkDF (columns df)
       (set_nth j (dtype_with (nth j (dtypes df) object) v) (dtypes df))
       (List.map (fun ir => if sel (fst ir) then set_nth j v (snd ir) else snd ir)
                 (combine (seq 0 (len df)) (rows df))).

(** The slice [::step]. *)
Definition every (step : nat) (i : nat) : bool := Nat.eqb (i mod step) 0.

(** The label slice [lo:hi] of [.loc], both ends included. *)
Definition between (lo hi : nat) (i : nat) : bool := Nat.leb lo i && Nat.leb i hi.

Definition head (k : nat) (df : DataFrame) : DataFrame :=
  with_rows df (firstn k (rows df)).

(** [pd.concat([a, b], ignore_index=True)] of tables with the same columns *)
Definition concat (a b : DataFrame) : DataFrame :=
  with_rows a (rows a ++ rows b).

Definition a_acute : Py.char := 225%N.

Definition invalida : Py.str := Py.lit "inv" ++ [a_acute] ++ Py.lit "lida".

Definition sao_paulo : Py.str := Py.lit "s" ++ [Py.a_tilde] ++ Py.lit "o paulo".

(** The table the script writes. *)
Definition generate (d : draws) : DataFrame :=
  let df := frame d in
  let df := loc_assign (every 7) (Py.lit "Data") (VStr invalida) df in
  let df := loc_assign (every 13) (Py.lit "Valor_Unitario") VNaN df in
  let df := concat df (head 500 df) in
  let df := loc_assign (every 19) (Py.lit "Quantidade") (VStr (Py.lit "dez")) df in
  let df := loc_assign (between 500 550) (Py.lit "Cidade") (VStr sao_paulo) df in
  loc_assign (every 31) (Py.lit "Status") (VStr []) df.

End Gen.

(** Row [j] of the generated table comes from the draws of row [source j]. *)
Definition source (j : nat) : nat := if Nat.ltb j Gen.n then j else j - Gen.n.

(** The generated row [j], cell by cell. *)
Definition generated_row (d : Gen.draws) (j : nat) : row :=
  let i := source j in
  [VNum (inject_Z (Z.of_nat (i + 1)));
   (if Gen.every 7 i then VStr Gen.invalida else VStr (Gen.data d i));
   VStr (Gen.cliente d i); VStr (Gen.produto d i); VStr (Gen.categoria d i);
   (if Gen.every 13 i then VNaN else VNum (Gen.valor_unitario d i));
   (if Gen.every 19 j then VStr (Py.lit "dez") else VNum (inject_Z (Gen.quantidade d i)));
   VNum (Gen.total_venda d i); VNum (Gen.desconto_pct d i);
   (if Gen.every 31 j then VStr [] else VStr (Gen.status d i));
   (if Gen.between 500 550 j then VStr Gen.sao_paulo else VStr (Gen.cidade d i));
   VStr (Gen.vendedor d i)].

(** Row [n + i] of the generated table, appended as a copy of row [i], is
    still equal to it. *)
Definition still_a_copy (d : Gen.draws) (i : nat) : bool :=
  let rs := rows (Gen.generate d) in
  row_eqb (nth (Gen.n + i) rs []) (nth i rs []).

(** * Properties *)

(** ** The numeric coercion filter *)

Section CoercionFacts.

Context {L : Lib}.

Lemma notna_sum_map (vs : list value) :
  notna_sum (List.map converted_cell vs)
  = List.length (filter (fun v => notna (converted_cell v)) vs).
Proof.
  unfold notna_sum.
  induction vs as [|v vs IH]; simpl; [reflexivity|].
  destruct (notna (converted_cell v)); simpl; congruence.
Qed.

Lemma Zpos_of_nat_max (n : nat) :
  Zpos (Pos.of_nat (Nat.max n 1)) = Z.of_nat (Nat.max n 1).
Proof.
  rewrite <- positive_nat_Z, Nat2Pos.id; [reflexivity | lia].
Qed.

Lemma valid_ratio_num_den (series : Series) :
  valid_ratio series
  = (Z.of_nat (parsed_cells series) # Pos.of_nat (Nat.max (List.length (s_values series)) 1))%Q.
Proof. unfold valid_ratio, parsed_cells. now rewrite notna_sum_map. Qed.

Lemma majority_iff (series : Series) :
  Qle_bool default_threshold (valid_ratio series) = true
  <-> 7 * Nat.max (List.length (s_values series)) 1 <= 10 * parsed_cells series.
Proof.
  rewrite valid_ratio_num_den. unfold Qle_bool, default_threshold. cbn [Qnum Qden].
  rewrite Zpos_of_nat_max, Z.leb_le. lia.
Qed.

Lemma nth_error_map_of_float (vs : list value) (i : nat) (v : value) :
  nth_error vs i = Some v ->
  nth_error (List.map of_float (List.map converted_cell vs)) i
  = Some (of_float (converted_cell v)).
Proof.
  intros H. rewrite List.map_map.
  now rewrite nth_error_map, H.
Qed.

Lemma of_float_missing (x : float) : of_float x = VNaN <-> x = None.
Proof. destruct x; simpl; split; congruence. Qed.

Lemma cleaned_functional (s t t' : Py.str) : cleaned s t -> cleaned s t' -> t = t'.
Proof.
  intros H. revert t'. induction H as [|s t H IH|c s t Hc Hk H IH|c s t Hc Hd Hp Hm H IH];
    intros t' H'; inversion H'; subst; try congruence;
      try (f_equal; now apply IH); try (now apply IH).
  all: match goal with Hx : _ \/ _ |- _ => destruct Hx as [Hx|[Hx|Hx]]; congruence end.
Qed.

Lemma cleaned_clean_up (s : Py.str) : cleaned s (comma_to_period (strip_non_numeric s)).
Proof.
  unfold comma_to_period, strip_non_numeric.
  induction s as [|c s IH]; [constructor|]. cbn [filter]. unfold numeric_char at 1.
  destruct (N.eqb_spec c Py.comma) as [->|Hc].
  - rewrite orb_true_r. cbn [orb List.map]. change (N.eqb Py.comma Py.comma) with true.
    cbv iota. now apply cleaned_comma.
  - rewrite orb_false_r.
    destruct (re_digit c) eqn:Ed; cbn [orb].
    + cbn [List.map]. destruct (N.eqb_spec c Py.comma); [contradiction|].
      apply cleaned_kept; auto.
    + destruct (N.eqb_spec c Py.period) as [->|Hp]; cbn [orb].
      * cbn [List.map]. change (N.eqb Py.period Py.comma) with false. cbv iota.
        apply cleaned_kept; auto.
      * destruct (N.eqb_spec c Py.minus) as [->|Hm]; cbn [orb].
        -- cbn [List.map]. change (N.eqb Py.minus Py.comma) with false. cbv iota.
           apply cleaned_kept; auto.
        -- now apply cleaned_dropped.
Qed.

Lemma cleaned_texts (vs : list value) (texts : list Py.str) :
  Forall2 (fun v t => cleaned (astype_str v) t) vs texts ->
  List.map converted_cell vs = List.map to_numeric texts.
Proof.
  induction 1 as [|v t vs texts H _ IH]; [reflexivity|]. cbn [List.map]. f_equal; [|exact IH].
  unfold converted_cell. f_equal. exact (cleaned_functional (cleaned_clean_up _) H).
Qed.

Lemma parsed_cells_texts (series : Series) (texts : list Py.str) :
  Forall2 (fun v t => cleaned (astype_str v) t) (s_values series) texts ->
  parsed_cells series = List.length (filter (fun t => notna (to_numeric t)) texts).
Proof.
  intros H. unfold parsed_cells.
  rewrite <- (length_map converted_cell), <- (length_map to_numeric (filter _ texts)).
  rewrite <- filter_map_swap, <- (filter_map_swap notna to_numeric).
  now rewrite (cleaned_texts H).
Qed.

(** C1. Let [texts] be the cells of a column, a text cell being its own
    text, after the clean-up: all characters but digits, ".", "," and "-"
    dropped and "," turned into ".".
    With the threshold 0.70 the conversion is committed exactly when the
    cleaned cells that parse as numbers are at least 70% of the cells (the
    ratio the code computes, with the cell count clamped to 1 for the empty
    column).  When committed, the result is a numeric column of the same
    length whose i-th cell is the number parsed from the i-th cleaned cell,
    and is the missing marker exactly where that text does not parse;
    otherwise the result is the column that came in. *)
Theorem coerce_commits_exactly_at_majority (series : Series) (texts : list Py.str) :
  Forall2 (fun v t => cleaned (astype_str v) t) (s_values series) texts ->
  let n := List.length (s_values series) in
  let k := List.length (filter (fun t => notna (to_numeric t)) texts) in
  let r := coerce_numeric_if_majority series default_threshold in
  (forall s, astype_str (VStr s) = s)
  /\ ((7 # 10 <= valid_ratio series)%Q <-> 7 * Nat.max n 1 <= 10 * k)
  /\ (7 * Nat.max n 1 <= 10 * k ->
      s_dtype r = number
      /\ List.length (s_values r) = n
      /\ forall i t, nth_error texts i = Some t ->
           nth_error (s_values r) i = Some (of_float (to_numeric t))
           /\ (nth_error (s_values r) i = Some VNaN <-> to_numeric t = None))
  /\ (10 * k < 7 * Nat.max n 1 -> r = series).
Proof.
  intros Htexts n k r.
  assert (Hk : parsed_cells series = k) by exact (parsed_cells_texts _ Htexts).
  split; [reflexivity|]. split; [|split].
  - rewrite <- Qle_bool_iff, <- Hk. apply majority_iff.
  - intros Hmaj. rewrite <- Hk in Hmaj. apply majority_iff in Hmaj.
    subst r. unfold coerce_numeric_if_majority. rewrite Hmaj. cbn [s_dtype s_values].
    split; [reflexivity|]. split.
    + now rewrite !length_map.
    + intros i t Ht. rewrite (cleaned_texts Htexts), nth_error_map, nth_error_map, Ht.
      cbn [option_map]. split; [reflexivity|]. split.
      * intros E. injection E as E. now apply of_float_missing.
      * intros E. rewrite E. reflexivity.
  - intros Hmin. subst r. unfold coerce_numeric_if_majority.
    destruct (Qle_bool default_threshold (valid_ratio series)) eqn:E; [|reflexivity].
    apply majority_iff in E. rewrite Hk in E. fold n in E. lia.
Qed.

End CoercionFacts.

Section EmptyColumn.

Context {L : Lib}.

(** C9. The denominator of the ratio is positive for every column; for a
    column without cells it is 1, the ratio is 0, and the column comes back
    unchanged: under the default threshold, and under every positive one. *)
Theorem coerce_empty_column_unchanged (t : dtype) :
  let series := mkSeries t [] in
  (forall s : Series, 0 < Nat.max (List.length (s_values s)) 1)
  /\ Nat.max (List.length (s_values series)) 1 = 1
  /\ valid_ratio series = (0 # 1)%Q
  /\ coerce_numeric_if_majority series default_threshold = series
  /\ forall threshold : Q, (0 < threshold)%Q ->
       coerce_numeric_if_majority series threshold = series.
Proof.
  intros series. split; [intros s; lia|]. split; [reflexivity|]. split; [reflexivity|].
  assert (H : forall threshold : Q, (0 < threshold)%Q ->
            coerce_numeric_if_majority series threshold = series).
  { intros th Hth. unfold coerce_numeric_if_majority.
    destruct (Qle_bool th (valid_ratio series)) eqn:E; [|reflexivity].
    apply Qle_bool_iff in E. change (valid_ratio series) with (0 # 1)%Q in E.
    exfalso. apply (Qlt_not_le _ _ Hth). exact E. }
  split; [apply H; reflexivity | exact H].
Qed.

End EmptyColumn.

(** The quantity column of the end-to-end scenario: "5", "10", "dez" stays
    text (2 of 3), and with a fourth cell "7" becomes numeric with "dez"
    missing (3 of 4). *)
Example quantidade_scenario :
  let q3 := List.map (fun s => VStr (Py.lit s)) ["5"; "10"; "dez"]%string in
  let q4 := q3 ++ [VStr (Py.lit "7")] in
  @coerce_numeric_if_majority Ref.lib (mkSeries object q3) default_threshold
  = mkSeries object q3
  /\ @coerce_numeric_if_majority Ref.lib (mkSeries object q4) default_threshold
     = mkSeries number [VNum 5; VNum 10; VNaN; VNum 7].
Proof. split; reflexivity. Qed.

Ltac clean_up_text :=
  repeat first
    [ apply cleaned_nil
    | apply cleaned_comma
    | apply cleaned_kept;
      [ discriminate
      | first [left; reflexivity | right; left; reflexivity | right; right; reflexivity]
      | ]
    | apply cleaned_dropped; [discriminate | reflexivity | discriminate | discriminate | ] ].

(** A price with its currency and a decimal comma, a number, a word and a
    quantity with its unit: three of the four cleaned cells parse, and the
    column becomes numeric with the word missing. *)
Lemma coerce_majority_witness :
  let cells := List.map (fun s => VStr (Py.lit s)) ["R$ 5,50"; "10"; "dez"; "7 un"]%string in
  let r := @coerce_numeric_if_majority Ref.lib (mkSeries object cells) default_threshold in
  s_dtype r = number
  /\ nth_error (s_values r) 0 = Some (VNum (550 # 100))
  /\ nth_error (s_values r) 2 = Some VNaN
  /\ nth_error (s_values r) 3 = Some (VNum 7).
Proof.
  intros cells r.
  destruct (@coerce_commits_exactly_at_majority Ref.lib (mkSeries object cells)
              (List.map Py.lit ["5.50"; "10"; ""; "7"]%string))
    as (_ & _ & Hcommit & _).
  - cbv [cells s_values List.map astype_str Py.lit list_ascii_of_string N_of_ascii N_of_digits].
    cbn.
    repeat (apply Forall2_cons; [clean_up_text|]). apply Forall2_nil.
  - destruct Hcommit as (Hd & _ & Hcells); [vm_compute; lia|].
    split; [exact Hd|]. split; [|split].
    + exact (proj1 (Hcells 0 (Py.lit "5.50") eq_refl)).
    + exact (proj1 (Hcells 2 [] eq_refl)).
    + exact (proj1 (Hcells 3 (Py.lit "7") eq_refl)).
Defined.

(** ** The column role detector *)

Lemma startswith_spec (s k : Py.str) :
  Py.startswith s k = true <-> exists post, s = k ++ post.
Proof.
  revert s. induction k as [|a k IH]; intros s.
  - split; [intros _; now exists s | intros _; now destruct s].
  - destruct s as [|b s]; cbn [Py.startswith].
    + split; [discriminate | intros (post & E); discriminate].
    + rewrite andb_true_iff, N.eqb_eq, IH. split.
      * intros (-> & post & ->). now exists post.
      * intros (post & E). injection E as -> ->. split; [reflexivity | now exists post].
Qed.

Lemma contains_spec (k s : Py.str) :
  Py.contains k s = true <-> substring k s.
Proof.
  unfold substring. induction s as [|b s IH].
  - cbn [Py.contains]. rewrite orb_false_r, startswith_spec. split.
    + intros (post & E). now exists [], post.
    + intros (pre & post & E). symmetry in E.
      apply app_eq_nil in E as (-> & E). now exists post.
  - cbn [Py.contains]. rewrite orb_true_iff, startswith_spec, IH. split.
    + intros [(post & E) | (pre & post & E)].
      * now exists [], post.
      * exists (b :: pre), post. now rewrite E.
    + intros (pre & post & E). destruct pre as [|c pre].
      * left. now exists post.
      * right. injection E as _ E. now exists pre, post.
Qed.

Lemma find_first_such {A} (f : A -> bool) (l : list A) :
  match find f l with
  | Some c =>
      exists before after,
        l = before ++ c :: after /\ f c = true /\ forall b, In b before -> f b = false
  | None => forall c, In c l -> f c = false
  end.
Proof.
  induction l as [|a l IH]; simpl.
  - intros c [].
  - destruct (f a) eqn:Ea.
    + exists [], l. repeat split; [exact Ea | intros b []].
    + destruct (find f l) as [c|].
      * destruct IH as (before & after & -> & Hc & Hb).
        exists (a :: before), after. repeat split; [exact Hc|].
        intros b [<- | Hin]; [exact Ea | now apply Hb].
      * intros c [<- | Hin]; [exact Ea | now apply IH].
Qed.

Lemma find_filter {A} (f : A -> bool) (l : list A) :
  find f l = hd_error (filter f l).
Proof.
  induction l as [|a l IH]; simpl; [reflexivity|].
  destruct (f a); [reflexivity | exact IH].
Qed.

Lemma filter_permutation {A} (f : A -> bool) (l l' : list A) :
  Permutation l l' -> Permutation (filter f l) (filter f l').
Proof.
  induction 1 as [| x l l' _ IH | x y l | l l' l'' _ IH1 _ IH2]; simpl.
  - constructor.
  - destruct (f x); [now constructor | exact IH].
  - destruct (f x), (f y); try apply Permutation_refl. apply perm_swap.
  - now transitivity (filter f l').
Qed.

(** A property that singles out one element finds it in whatever order. *)
Lemma find_unique_permutation {A} (f : A -> bool) (l l' : list A) (x : A) :
  filter f l = [x] -> Permutation l l' -> find f l' = Some x.
Proof.
  intros Hx Hp. apply (filter_permutation f) in Hp. rewrite Hx in Hp.
  apply Permutation_length_1_inv in Hp. now rewrite find_filter, Hp.
Qed.

Section RoleFacts.

Context {L : Lib}.

Lemma has_keyword_spec (keywords : list Py.str) (c : Py.str) :
  has_keyword keywords c = true <-> names_keyword keywords c.
Proof.
  unfold has_keyword, names_keyword. rewrite existsb_exists.
  split; intros (k & Hin & Hk); exists k; (split; [exact Hin|]); now apply contains_spec.
Qed.

Lemma first_match_spec (keywords cols : list Py.str) :
  first_such (names_keyword keywords) cols (first_match keywords cols).
Proof.
  unfold first_match, first_such.
  pose proof (find_first_such (has_keyword keywords) cols) as H.
  destruct (find (has_keyword keywords) cols) as [c|].
  - destruct H as (before & after & E & Hc & Hb).
    exists before, after. split; [exact E|]. split; [now apply has_keyword_spec|].
    intros b Hin Hk. apply has_keyword_spec in Hk. rewrite (Hb b Hin) in Hk. discriminate.
  - intros c Hin Hk. apply has_keyword_spec in Hk. rewrite (H c Hin) in Hk. discriminate.
Qed.

Lemma sales_columns_ascii : Forall Py.is_ascii sales_columns.
Proof. repeat constructor. Qed.

Lemma filter_sales_columns (keywords : list Py.str) :
  (forall s, Py.is_ascii s -> lower s = Py.ascii_lower s) ->
  filter (has_keyword keywords) sales_columns
  = filter (fun c => existsb (fun k => Py.contains k (Py.ascii_lower c)) keywords)
           sales_columns.
Proof.
  intros Hlower. apply filter_ext_in. intros c Hin. unfold has_keyword.
  rewrite Hlower; [reflexivity|].
  now apply (proj1 (Forall_forall _ _) sales_columns_ascii).
Qed.

(** C2. Each role goes to the first column, left to right, whose
    lowercased name contains a keyword of the role's set, and to no column
    when none does; and in whatever order the columns ID_Venda, Data,
    Total_Venda, Categoria stand, the value role is Total_Venda, the date
    role Data and the category role Categoria ([lower] being Python's, which
    on ASCII text lowers the letters A to Z). *)
Theorem detectar_colunas_first_match (df : DataFrame) :
  (let '(value_col, date_col, cat_col) := detectar_colunas df in
   first_such (names_keyword value_keywords) (columns df) value_col
   /\ first_such (names_keyword date_keywords) (columns df) date_col
   /\ first_such (names_keyword category_keywords) (columns df) cat_col)
  /\ forall cols dts rs,
       (forall s, Py.is_ascii s -> lower s = Py.ascii_lower s) ->
       Permutation sales_columns cols ->
       detectar_colunas (mkDF cols dts rs)
       = (Some (Py.lit "Total_Venda"), Some (Py.lit "Data"), Some (Py.lit "Categoria")).
Proof.
  split.
  - unfold detectar_colunas. repeat split; apply first_match_spec.
  - intros cols dts rs Hlower Hperm. unfold detectar_colunas, first_match. cbn [columns].
    rewrite (find_unique_permutation (has_keyword value_keywords)
               (x := Py.lit "Total_Venda") (l := sales_columns));
      [| rewrite (filter_sales_columns _ Hlower); reflexivity | exact Hperm].
    rewrite (find_unique_permutation (has_keyword date_keywords)
               (x := Py.lit "Data") (l := sales_columns));
      [| rewrite (filter_sales_columns _ Hlower); reflexivity | exact Hperm].
    rewrite (find_unique_permutation (has_keyword category_keywords)
               (x := Py.lit "Categoria") (l := sales_columns));
      [| rewrite (filter_sales_columns _ Hlower); reflexivity | exact Hperm].
    reflexivity.
Qed.

(** C10. Tables with the same column names get the same roles, whatever
    their cells, row counts and dtypes. *)
Theorem detectar_colunas_names_only (df1 df2 : DataFrame) :
  columns df1 = columns df2 -> detectar_colunas df1 = detectar_colunas df2.
Proof. intros E. unfold detectar_colunas. now rewrite E. Qed.

End RoleFacts.

Lemma ref_lower_ascii (s : Py.str) : Py.is_ascii s -> @lower Ref.lib s = Py.ascii_lower s.
Proof. reflexivity. Qed.

Lemma detectar_colunas_witness :
  @detectar_colunas Ref.lib
    (mkDF (List.map Py.lit ["Categoria"; "Total_Venda"; "ID_Venda"; "Data"]%string) [] [])
  = (Some (Py.lit "Total_Venda"), Some (Py.lit "Data"), Some (Py.lit "Categoria")).
Proof.
  apply (proj2 (@detectar_colunas_first_match Ref.lib (mkDF [] [] []))).
  - exact ref_lower_ascii.
  - unfold sales_columns. cbn [List.map].
    apply Permutation_sym.
    apply (perm_trans (l' := Py.lit "Total_Venda" :: Py.lit "ID_Venda" :: Py.lit "Data"
                              :: [Py.lit "Categoria"])).
    + apply (Permutation_cons_append
               [Py.lit "Total_Venda"; Py.lit "ID_Venda"; Py.lit "Data"] (Py.lit "Categoria")).
    + apply (perm_trans (l' := Py.lit "ID_Venda" :: Py.lit "Total_Venda" :: Py.lit "Data"
                                :: [Py.lit "Categoria"])); [apply perm_swap|].
      apply perm_skip. apply perm_swap.
Defined.

Lemma detectar_colunas_names_only_witness :
  @detectar_colunas Ref.lib
    (mkDF [Py.lit "Total"; Py.lit "Data"] [number; object]
          [[VNum 1; VStr (Py.lit "2024-01-01")]])
  = @detectar_colunas Ref.lib
      (mkDF [Py.lit "Total"; Py.lit "Data"] [object; datetime]
            [[VStr (Py.lit "x"); VNaN]; [VNaN; VNaN]; []]).
Proof. apply detectar_colunas_names_only. reflexivity. Defined.
(** ** The encoding and delimiter resolver *)

Section LoadFacts.

Context {L : Lib}.

Ltac read_cases w p :=
  unfold encodings; cbn [try_encodings];
  destruct (read_csv w p (semicolon_options (Py.lit "utf-8"))) as [e1|d1] eqn:R1;
  [ destruct (read_csv w p (semicolon_options (Py.lit "latin-1"))) as [e2|d2] eqn:R2;
    [ destruct (read_csv w p (semicolon_options (Py.lit "cp1252"))) as [e3|d3] eqn:R3;
      [ destruct (read_csv w p sniffing_options) as [e4|d4] eqn:R4 | ] | ] | ];
  cbn [fst snd app ret raise].

(** C3. [FileNotFoundError] is raised exactly when the expanded path does
    not exist, before any read, with the text "Arquivo não encontrado: "
    and the expanded path.  [ValueError] (the unreadable file) is raised
    exactly when the path exists and the semicolon reads with utf-8, with
    latin-1 and with cp1252 and then the delimiter-sniffing read all fail;
    its text is "Não foi possível ler o arquivo: " followed by the text of
    the failure of that last read.  In every other case a table is
    returned.  The reads made are an initial part of that sequence of
    four, in that order. *)
Theorem load_csv_robust_failures (w : World) (file_path : Py.str) :
  let p := expanduser file_path in
  let semicolon := fun enc => mkOptions (Some (Py.lit ";")) (Py.lit ",") enc false None in
  let sniffing := mkOptions None (Py.lit ".") (Py.lit "utf-8") true None in
  let fails := fun o => exists e, read_csv w p o = inl e in
  let exhausted :=
    fails (semicolon (Py.lit "utf-8")) /\ fails (semicolon (Py.lit "latin-1")) /\ fails (semicolon (Py.lit "cp1252"))
    /\ fails sniffing in
  ((exists msg, load_csv_robust w file_path = inl (Exn FileNotFoundError msg))
   <-> path_exists w p = false)
  /\ (path_exists w p = false ->
      load_csv_robust_run w file_path
      = ([], inl (Exn FileNotFoundError (arquivo_nao_encontrado ++ p))))
  /\ ((exists msg, load_csv_robust w file_path = inl (Exn ValueError msg))
      <-> path_exists w p = true /\ exhausted)
  /\ (forall e, path_exists w p = true ->
        fails (semicolon (Py.lit "utf-8")) -> fails (semicolon (Py.lit "latin-1")) ->
        fails (semicolon (Py.lit "cp1252")) ->
        read_csv w p sniffing = inl e ->
        load_csv_robust_run w file_path
        = ([semicolon (Py.lit "utf-8"); semicolon (Py.lit "latin-1"); semicolon (Py.lit "cp1252"); sniffing],
           inl (Exn ValueError (nao_foi_possivel_ler ++ exn_str e))))
  /\ (path_exists w p = true -> ~ exhausted ->
      exists df, load_csv_robust w file_path = inr df)
  /\ exists n,
       fst (load_csv_robust_run w file_path)
       = firstn n [semicolon (Py.lit "utf-8"); semicolon (Py.lit "latin-1"); semicolon (Py.lit "cp1252"); sniffing].
Proof.
  intros p semicolon sniffing fails exhausted. subst exhausted fails.
  change (semicolon (Py.lit "utf-8")) with (semicolon_options (Py.lit "utf-8")).
  change (semicolon (Py.lit "latin-1")) with (semicolon_options (Py.lit "latin-1")).
  change (semicolon (Py.lit "cp1252")) with (semicolon_options (Py.lit "cp1252")).
  change sniffing with sniffing_options. clear semicolon sniffing.
  unfold load_csv_robust, load_csv_robust_run. fold p.
  destruct (path_exists w p) eqn:Hex; cbn [negb].
  - read_cases w p.
    + (* all four reads fail *)
      split; [split; [intros (msg & E); discriminate | discriminate]|].
      split; [discriminate|].
      split.
      { split; [intros _|intros _; eexists; reflexivity].
        split; [reflexivity|]. repeat split; eexists; reflexivity. }
      split.
      { intros e _ _ _ _ E. injection E as ->.
        unfold unreadable_message, nao_foi_possivel_ler, Py.a_tilde, Py.i_acute.
        now rewrite <- !app_assoc. }
      split.
      { intros _ Hn. exfalso. apply Hn. repeat split; eexists; reflexivity. }
      now exists 4.
    + (* the sniffing read succeeds *)
      split; [split; [intros (msg & E); discriminate | discriminate]|].
      split; [discriminate|].
      split.
      { split; [intros (msg & E); discriminate|].
        intros (_ & _ & _ & _ & e & E). discriminate. }
      split; [intros e _ _ _ _ E; discriminate|].
      split; [intros _ _; eexists; reflexivity|].
      now exists 4.
    + (* cp1252 succeeds *)
      split; [split; [intros (msg & E); discriminate | discriminate]|].
      split; [discriminate|].
      split.
      { split; [intros (msg & E); discriminate|].
        intros (_ & _ & _ & (e & E) & _). discriminate. }
      split.
      { intros e _ _ _ (e' & E) _. discriminate. }
      split; [intros _ _; eexists; reflexivity|].
      now exists 3.
    + (* latin-1 succeeds *)
      split; [split; [intros (msg & E); discriminate | discriminate]|].
      split; [discriminate|].
      split.
      { split; [intros (msg & E); discriminate|].
        intros (_ & _ & (e & E) & _). discriminate. }
      split.
      { intros e _ _ (e' & E) _ _. discriminate. }
      split; [intros _ _; eexists; reflexivity|].
      now exists 2.
    + (* utf-8 succeeds *)
      split; [split; [intros (msg & E); discriminate | discriminate]|].
      split; [discriminate|].
      split.
      { split; [intros (msg & E); discriminate|].
        intros (_ & (e & E) & _). discriminate. }
      split.
      { intros e _ (e' & E) _ _ _. discriminate. }
      split; [intros _ _; eexists; reflexivity|].
      now exists 1.
  - cbn [fst snd].
    split; [split; [reflexivity | intros _; eexists; reflexivity]|].
    split.
    { intros _. unfold not_found_message, arquivo_nao_encontrado, Py.a_tilde.
      now rewrite <- !app_assoc. }
    split; [split; [intros (msg & E); discriminate | intros (E & _); discriminate]|].
    split; [discriminate|].
    split; [discriminate|].
    now exists 0.
Qed.

End LoadFacts.

(** A file in latin-1 is read on the second attempt. *)
Example latin1_file_is_loaded :
  let df := mkDF [Py.lit "Total"] [number] [[VNum 1]] in
  let w := [(Py.lit "vendas.csv", Ref.CsvFile (Py.lit "latin-1") df)] in
  @load_csv_robust_run Ref.lib w (Py.lit "vendas.csv")
  = ([semicolon_options (Py.lit "utf-8"); semicolon_options (Py.lit "latin-1")],
     inr df).
Proof. vm_compute. reflexivity. Qed.

Example garbage_is_unreadable :
  let w := [(Py.lit "vendas.csv", Ref.Garbage)] in
  @load_csv_robust_run Ref.lib w (Py.lit "vendas.csv")
  = (attempts,
     inl (Exn ValueError (nao_foi_possivel_ler ++ Py.lit "Error tokenizing data"))).
Proof. vm_compute. reflexivity. Qed.
(** ** The boundary of the tools *)

Lemma try_except_returns {A} (body : result A) (handler : exn -> A) :
  exists a, try_except body (fun e => ret (handler e)) = inr a.
Proof. destruct body as [e|a]; [now exists (handler e) | now exists a]. Qed.

Lemma try_except_converts {A} (body : result A) (handler : exn -> A) (e : exn) :
  body = inl e -> try_except body (fun e => ret (handler e)) = inr (handler e).
Proof. now intros ->. Qed.

Lemma try_except_passes {A} (body : result A) (handler : exn -> result A) (a : A) :
  body = inr a -> try_except body handler = inr a.
Proof. now intros ->. Qed.

Section BoundaryFacts.

Context {L : Lib} {P : Plot L}.

(** C4. Each of the three tools returns a string on every input and
    raises nothing: what its body returns is returned, and an exception of
    its body becomes the failure message, the world left as it was. *)
Theorem tools_never_raise (w : World) (file_path arg : Py.str) :
  ((exists w' s, analyze_csv w file_path arg = inr (w', s))
   /\ (forall e, analyze_body w file_path arg = inl e ->
         analyze_csv w file_path arg = inr (w, [ErroAnalise (exn_str e)]))
   /\ (forall r, analyze_body w file_path arg = inr r ->
         analyze_csv w file_path arg = inr r))
  /\ ((exists w' s, clean_csv w file_path arg = inr (w', s))
      /\ (forall e, clean_body w file_path arg = inl e ->
            clean_csv w file_path arg = inr (w, [ErroLimpeza (exn_str e)]))
      /\ (forall r, clean_body w file_path arg = inr r ->
            clean_csv w file_path arg = inr r))
  /\ ((exists w' s, csv_info w file_path = inr (w', s))
      /\ (forall e, info_body w file_path = inl e ->
            csv_info w file_path = inr (w, [ErroDiagnostico (exn_str e)]))
      /\ (forall r, info_body w file_path = inr r ->
            csv_info w file_path = inr r)).
Proof.
  unfold analyze_csv, clean_csv, csv_info.
  split; [|split]; (split; [|split]).
  - destruct (try_except_returns (analyze_body w file_path arg)
                (fun e => (w, [ErroAnalise (exn_str e)]))) as ((w', s) & E).
    now exists w', s.
  - intros e He. exact (try_except_converts (fun e => (w, _)) He).
  - intros r Hr. now apply try_except_passes.
  - destruct (try_except_returns (clean_body w file_path arg)
                (fun e => (w, [ErroLimpeza (exn_str e)]))) as ((w', s) & E).
    now exists w', s.
  - intros e He. exact (try_except_converts (fun e => (w, _)) He).
  - intros r Hr. now apply try_except_passes.
  - destruct (try_except_returns (info_body w file_path)
                (fun e => (w, [ErroDiagnostico (exn_str e)]))) as ((w', s) & E).
    now exists w', s.
  - intros e He. exact (try_except_converts (fun e => (w, _)) He).
  - intros r Hr. now apply try_except_passes.
Qed.

End BoundaryFacts.

(** A missing file: each tool answers with its failure line. *)
Example tools_on_missing_file :
  @analyze_csv Ref.lib Ref.plot [] (Py.lit "nada.csv") []
  = inr ([], [ErroAnalise (arquivo_nao_encontrado ++ Py.lit "nada.csv")])
  /\ @clean_csv Ref.lib [] (Py.lit "nada.csv") (Py.lit "cleaned.csv")
     = inr ([], [ErroLimpeza (Py.lit "No such file or directory")])
  /\ @csv_info Ref.lib [] (Py.lit "nada.csv")
     = inr ([], [ErroDiagnostico (Py.lit "No such file or directory")]).
Proof. vm_compute. repeat split. Qed.
(** ** Outliers *)

Lemma truthy_nonempty (c : Py.str) : c <> [] -> Py.truthy (Some c) = Some c.
Proof. destruct c; [congruence | reflexivity]. Qed.

Lemma mapM_total {A B} (f : A -> result B) (g : A -> B) (l : list A) :
  (forall a, In a l -> f a = inr (g a)) -> mapM f l = inr (List.map g l).
Proof.
  induction l as [|a l IH]; intros H; simpl; [reflexivity|].
  rewrite (H a (or_introl eq_refl)). cbn [bind].
  rewrite IH; [reflexivity|]. intros b Hb. apply H. now right.
Qed.

Lemma count_true_mask_or {A} (f g : A -> bool) (l : list A) :
  count_true (mask_or (List.map f l) (List.map g l))
  = List.length (filter (fun a => f a || g a) l).
Proof.
  unfold count_true, mask_or.
  induction l as [|a l IH]; simpl; [reflexivity|].
  destruct (f a || g a); simpl; now rewrite IH.
Qed.

Lemma of_Q_Qeq (x y : Q) : (x == y)%Q -> F64.of_Q x = F64.of_Q y.
Proof. intros E. unfold F64.of_Q. now rewrite (Qred_complete _ _ E). Qed.

Lemma series_lt_numeric (s : Series) (bound : spec_float) :
  Forall numeric (s_values s) ->
  series_lt s bound
  = inr (List.map (fun v => match v with
                            | VNum x => F64.ltb (F64.of_Q x) bound
                            | _ => false
                            end) (s_values s)).
Proof.
  intros H. apply mapM_total. intros v Hv.
  apply (proj1 (Forall_forall _ _) H) in Hv. now destruct v.
Qed.

Lemma series_gt_numeric (s : Series) (bound : spec_float) :
  Forall numeric (s_values s) ->
  series_gt s bound
  = inr (List.map (fun v => match v with
                            | VNum x => F64.ltb bound (F64.of_Q x)
                            | _ => false
                            end) (s_values s)).
Proof.
  intros H. apply mapM_total. intros v Hv.
  apply (proj1 (Forall_forall _ _) H) in Hv. now destruct v.
Qed.

Section OutlierFacts.

Context {L : Lib}.

(** C5. On a value column of numbers whose quartiles are [q1] and [q3],
    the outlier section counts exactly the cells strictly below
    Q1 - 1.5 IQR or strictly above Q3 + 1.5 IQR, fences and comparisons
    computed in float64 as the code computes them (a missing cell is never
    counted), and reports these two fences when the count is positive.
    With Q1 = 100 and Q3 = 300 the fences are -200 and 600, the value 600 is
    not flagged and 600.01 is.  With Q1 = 0.1 and Q3 = 0.3 the upper fence
    rounds to the double 0.6, and the cell 0.6 is not flagged. *)
Theorem outliers_strictly_beyond_fences (df : DataFrame) (v : Py.str) (q1 q3 : Q) :
  v <> [] ->
  Forall numeric (s_values (getitem df v)) ->
  quantile (getitem df v) (1 # 4)%Q = inr (Some q1) ->
  quantile (getitem df v) (3 # 4)%Q = inr (Some q3) ->
  let Q1 := F64.of_Q q1 in
  let Q3 := F64.of_Q q3 in
  let lo := F64.sub Q1 (F64.mul (F64.of_Q (3 # 2)) (F64.sub Q3 Q1)) in
  let hi := F64.add Q3 (F64.mul (F64.of_Q (3 # 2)) (F64.sub Q3 Q1)) in
  let beyond := fun x => F64.ltb (F64.of_Q x) lo || F64.ltb hi (F64.of_Q x) in
  let outliers :=
    filter (fun c => match c with VNum x => beyond x | _ => false end)
           (s_values (getitem df v)) in
  outliers_detectados df (Some v)
  = inr [Outliers (List.length outliers)
           (if Nat.ltb 0 (List.length outliers) then Some (lo, hi) else None)]
  /\ (forall x, In (VNum x) outliers
                <-> In (VNum x) (s_values (getitem df v)) /\ beyond x = true)
  /\ ~ In VNaN outliers
  /\ ((q1 == 100)%Q -> (q3 == 300)%Q ->
      lo = F64.of_Q (-200) /\ hi = F64.of_Q 600
      /\ beyond 600%Q = false /\ beyond (60001 # 100)%Q = true)
  /\ ((q1 == 1 # 10)%Q -> (q3 == 3 # 10)%Q ->
      hi = F64.of_Q (6 # 10) /\ beyond (6 # 10)%Q = false).
Proof.
  intros Hv Hnum Hq1 Hq3 Q1 Q3 lo hi beyond outliers.
  split; [|split; [|split; [|split]]].
  - unfold outliers_detectados. rewrite (truthy_nonempty Hv), Hq1, Hq3. cbn [bind].
    change (lower_fence (Some q1) (Some q3)) with lo.
    change (upper_fence (Some q1) (Some q3)) with hi.
    rewrite (series_lt_numeric _ lo Hnum), (series_gt_numeric _ hi Hnum). cbn [bind].
    rewrite count_true_mask_or.
    replace (filter _ (s_values (getitem df v))) with outliers; [reflexivity|].
    subst outliers. apply filter_ext. intros a. now destruct a.
  - intros x. subst outliers. now rewrite filter_In.
  - subst outliers. rewrite filter_In. intros (_ & H). discriminate.
  - intros E1 E3. subst beyond lo hi Q1 Q3.
    rewrite (of_Q_Qeq E1), (of_Q_Qeq E3). vm_compute. auto.
  - intros E1 E3. subst beyond lo hi Q1 Q3.
    rewrite (of_Q_Qeq E1), (of_Q_Qeq E3). vm_compute. auto.
Qed.

End OutlierFacts.

(** Nine sales with the quartiles 100 and 300: only 600.01 is beyond the
    fences -200 = -7036874417766400 * 2^-45 and 600 = 5277655813324800 *
    2^-43. *)
Lemma outliers_witness :
  let df := mkDF [Py.lit "Total_Venda"] [number]
              (List.map (fun x => [VNum x])
                        [50; 100; 100; 200; 200; 300; 300; 600; 60001 # 100]%Q) in
  @outliers_detectados Ref.lib df (Some (Py.lit "Total_Venda"))
  = inr [Outliers 1 (Some (S754_finite true 7036874417766400 (-45),
                           S754_finite false 5277655813324800 (-43)))].
Proof.
  intros df.
  destruct (@outliers_strictly_beyond_fences Ref.lib df (Py.lit "Total_Venda")
              100%Q 300%Q) as (E & _ & _ & Hex & _).
  - discriminate.
  - repeat constructor.
  - reflexivity.
  - reflexivity.
  - destruct (Hex (Qeq_refl _) (Qeq_refl _)) as (Hlo & Hhi & _).
    rewrite E, Hlo, Hhi. reflexivity.
Defined.

(** ** Columns read and written by name *)

Lemma set_nth_length {A} (n : nat) (x : A) (l : list A) :
  List.length (set_nth n x l) = List.length l.
Proof.
  revert n. induction l as [|h t IH]; intros [|n]; simpl; auto.
Qed.

Lemma nth_set_nth_same {A} (n : nat) (x d : A) (l : list A) :
  n < List.length l -> nth n (set_nth n x l) d = x.
Proof.
  revert n. induction l as [|h t IH]; intros [|n] H; simpl in *; try lia; auto.
  apply IH. lia.
Qed.

Lemma nth_set_nth_other {A} (n m : nat) (x d : A) (l : list A) :
  m <> n -> nth m (set_nth n x l) d = nth m l d.
Proof.
  revert n m. induction l as [|h t IH]; intros [|n] [|m] H; simpl; auto; try congruence.
Qed.

Lemma index_of_lt (c : Py.str) (cols : list Py.str) :
  In c cols -> index_of c cols < List.length cols.
Proof.
  induction cols as [|h t IH]; simpl; [intros []|].
  intros Hin. unfold Py.str_eqb. destruct (list_eq_dec N.eq_dec h c) as [E|E]; [lia|].
  destruct Hin as [->|Hin]; [congruence|]. apply IH in Hin. lia.
Qed.

Lemma index_of_nth (c : Py.str) (cols : list Py.str) :
  In c cols -> nth_error cols (index_of c cols) = Some c.
Proof.
  induction cols as [|h t IH]; simpl; [intros []|].
  intros Hin. unfold Py.str_eqb. destruct (list_eq_dec N.eq_dec h c) as [E|E].
  - now rewrite E.
  - destruct Hin as [->|Hin]; [congruence | now apply IH].
Qed.

Lemma index_of_inj (c c' : Py.str) (cols : list Py.str) :
  In c cols -> index_of c cols = index_of c' cols -> c = c'.
Proof.
  induction cols as [|h t IH]; simpl; [intros []|].
  unfold Py.str_eqb.
  destruct (list_eq_dec N.eq_dec h c) as [E|E], (list_eq_dec N.eq_dec h c') as [E'|E'];
    intros Hin H; try congruence; try discriminate.
  destruct Hin as [->|Hin]; [congruence|]. injection H as H. now apply IH.
Qed.

Lemma getitem_length (df : DataFrame) (c : Py.str) :
  List.length (s_values (getitem df c)) = len df.
Proof. unfold getitem, len. cbn [s_values]. apply length_map. Qed.

Lemma setitem_columns (df : DataFrame) (c : Py.str) (s : Series) :
  columns (setitem df c s) = columns df.
Proof. reflexivity. Qed.

Lemma setitem_len (df : DataFrame) (c : Py.str) (s : Series) :
  List.length (s_values s) = len df -> len (setitem df c s) = len df.
Proof.
  unfold len, setitem. cbn [rows]. intros H. rewrite length_map, length_combine. lia.
Qed.

Lemma setitem_dtypes_length (df : DataFrame) (c : Py.str) (s : Series) :
  List.length (dtypes (setitem df c s)) = List.length (dtypes df).
Proof. unfold setitem. cbn [dtypes]. apply set_nth_length. Qed.

Lemma map_set_same (j : nat) (rs : list row) (vs : list value) :
  List.length vs = List.length rs ->
  Forall (fun r : row => j < List.length r) rs ->
  List.map (fun r => nth j r VNaN)
           (List.map (fun rv => set_nth j (snd rv) (fst rv)) (combine rs vs))
  = vs.
Proof.
  revert vs. induction rs as [|r rs IH]; intros [|v vs] Hlen Hall; simpl in *;
    try discriminate; [reflexivity|].
  inversion Hall; subst. rewrite nth_set_nth_same by assumption.
  f_equal. apply IH; [lia | assumption].
Qed.

Lemma map_set_other (j j' : nat) (rs : list row) (vs : list value) :
  j' <> j -> List.length vs = List.length rs ->
  List.map (fun r => nth j' r VNaN)
           (List.map (fun rv => set_nth j (snd rv) (fst rv)) (combine rs vs))
  = List.map (fun r => nth j' r VNaN) rs.
Proof.
  intros Hne. revert vs. induction rs as [|r rs IH]; intros [|v vs] Hlen; simpl in *;
    try discriminate; [reflexivity|].
  rewrite nth_set_nth_other by assumption. f_equal. apply IH. lia.
Qed.

(** [df[col] = s] followed by [df[col]] gives [s]. *)
Lemma getitem_setitem_same (df : DataFrame) (c : Py.str) (s : Series) :
  well_formed df -> In c (columns df) -> List.length (s_values s) = len df ->
  getitem (setitem df c s) c = s.
Proof.
  intros (_ & Hd & Hr) Hin Hlen. pose proof (index_of_lt _ _ Hin) as Hj.
  unfold getitem, setitem. cbn [columns dtypes rows]. destruct s as [t vs]. cbn [s_dtype s_values] in *.
  f_equal.
  - apply nth_set_nth_same. lia.
  - apply map_set_same; [exact Hlen|].
    eapply Forall_impl; [|exact Hr]. cbn beta. intros r Hrl. lia.
Qed.

(** [df[col] = s] leaves every other column as it was. *)
Lemma getitem_setitem_other (df : DataFrame) (c c' : Py.str) (s : Series) :
  In c (columns df) -> c' <> c -> List.length (s_values s) = len df ->
  getitem (setitem df c s) c' = getitem df c'.
Proof.
  intros Hin Hne Hlen.
  assert (Hj : index_of c' (columns df) <> index_of c (columns df)).
  { intros E. apply Hne. symmetry. now apply (index_of_inj _ _ _ Hin). }
  unfold getitem, setitem. cbn [columns dtypes rows]. f_equal.
  - now apply nth_set_nth_other.
  - now apply map_set_other.
Qed.

Lemma setitem_well_formed (df : DataFrame) (c : Py.str) (s : Series) :
  well_formed df -> well_formed (setitem df c s).
Proof.
  intros (Hn & Hd & Hr). unfold well_formed, setitem. cbn [columns dtypes rows].
  split; [exact Hn|]. split; [now rewrite set_nth_length|].
  apply Forall_forall. intros r Hin. apply in_map_iff in Hin as ((r0, v) & <- & Hin).
  cbn [fst snd]. rewrite set_nth_length. apply in_combine_l in Hin.
  now apply (proj1 (Forall_forall _ _) Hr).
Qed.

(** ** The monthly trend *)

Lemma insert_key_In (k x : period) (l : list period) :
  In x (insert_key k l) <-> x = k \/ In x l.
Proof.
  induction l as [|h t IH]; simpl.
  - intuition.
  - destruct (Z.ltb_spec k h); [simpl; intuition|].
    destruct (Z.eqb_spec k h) as [->|Hne]; simpl; [intuition | rewrite IH; intuition].
Qed.

Lemma insert_key_sorted (k : period) (l : list period) :
  StronglySorted Z.lt l -> StronglySorted Z.lt (insert_key k l).
Proof.
  induction 1 as [|h t Hs IH Hh]; simpl.
  - repeat constructor.
  - destruct (Z.ltb_spec k h) as [Hlt|Hge].
    + constructor; [now constructor|].
      constructor; [exact Hlt|].
      apply Forall_forall. intros x Hx.
      apply (proj1 (Forall_forall _ _) Hh) in Hx. lia.
    + destruct (Z.eqb_spec k h) as [->|Hne]; [now constructor|].
      constructor; [exact IH|].
      apply Forall_forall. intros x Hx. apply insert_key_In in Hx as [->|Hx]; [lia|].
      now apply (proj1 (Forall_forall _ _) Hh).
Qed.

Lemma group_keys_In (x : period) (ks : list period) : In x (group_keys ks) <-> In x ks.
Proof.
  unfold group_keys. induction ks as [|k ks IH]; simpl; [reflexivity|].
  rewrite insert_key_In, IH. intuition.
Qed.

Lemma group_keys_sorted (ks : list period) : StronglySorted Z.lt (group_keys ks).
Proof.
  unfold group_keys. induction ks as [|k ks IH]; simpl; [constructor|].
  now apply insert_key_sorted.
Qed.

Lemma sorted_app_lt (a b : list Z) :
  StronglySorted Z.lt (a ++ b) -> forall x y, In x a -> In y b -> (x < y)%Z.
Proof.
  induction a as [|h a IH]; simpl; intros Hs x y Hx Hy; [contradiction|].
  inversion Hs as [|? ? Hs' Hall]; subst.
  destruct Hx as [<-|Hx]; [|now apply IH].
  apply (proj1 (Forall_forall _ _) Hall). apply in_or_app. now right.
Qed.

Lemma sorted_app_r (a b : list Z) :
  StronglySorted Z.lt (a ++ b) -> StronglySorted Z.lt b.
Proof.
  induction a as [|h a IH]; simpl; intros Hs; [exact Hs|].
  inversion Hs; subst. now apply IH.
Qed.

Lemma tail_split {A} (n : nat) (l : list A) :
  l = firstn (List.length l - n) l ++ tail n l.
Proof. unfold tail. symmetry. apply firstn_skipn. Qed.

Lemma tail_length {A} (n : nat) (l : list A) :
  List.length (tail n l) = Nat.min n (List.length l).
Proof. unfold tail. rewrite length_skipn. lia. Qed.

Lemma tail_map {A B} (f : A -> B) (n : nat) (l : list A) :
  List.map f (tail n l) = tail n (List.map f l).
Proof. unfold tail. now rewrite length_map, skipn_map. Qed.

(** The last [n] of an ascending list: ascending, and everything left out
    comes before everything kept. *)
Lemma tail_most_recent (n : nat) (l : list Z) :
  StronglySorted Z.lt l ->
  StronglySorted Z.lt (tail n l)
  /\ forall x, In x l ->
       In x (tail n l)
       \/ (List.length (tail n l) = n /\ forall y, In y (tail n l) -> (x < y)%Z).
Proof.
  intros Hs. pose proof (tail_split n l) as E. rewrite E in Hs. split.
  - now apply sorted_app_r in Hs.
  - intros x Hx. rewrite E in Hx. apply in_app_or in Hx as [Hx|Hx]; [right | now left].
    split.
    + rewrite tail_length. destruct (Nat.le_gt_cases (List.length l) n) as [Hle|Hgt]; [|lia].
      replace (List.length l - n) with 0 in Hx by lia. destruct Hx.
    + intros y Hy. now apply (sorted_app_lt _ _ Hs).
Qed.

Section TrendLemmas.

Context {L : Lib}.

Lemma group_numbers_numeric (vs : list value) :
  Forall numeric vs -> group_numbers vs = inr (numbers_of vs).
Proof.
  induction 1 as [|v vs Hv _ IH]; [reflexivity|].
  destruct v; try contradiction; cbn [group_numbers numbers_of]; rewrite IH; reflexivity.
Qed.

Lemma agg_sum_numeric (vs : list value) :
  Forall numeric vs -> agg_sum vs = inr (group_sum (numbers_of vs)).
Proof. intros H. unfold agg_sum. now rewrite (group_numbers_numeric H). Qed.

Lemma valid_rows_values (dates : list (option Timestamp)) (vals : list value) (r : period * value) :
  In r (valid_rows dates vals) -> In (snd r) vals.
Proof.
  unfold valid_rows. rewrite in_flat_map. intros ((d, v) & Hin & Hr).
  apply in_combine_r in Hin. destruct d as [t|]; [|destruct Hr].
  destruct Hr as [<-|[]]. exact Hin.
Qed.

Lemma group_numeric (k : period) (dates : list (option Timestamp)) (vals : list value) :
  Forall numeric vals -> Forall numeric (group k (valid_rows dates vals)).
Proof.
  intros H. apply Forall_forall. intros v Hv. unfold group in Hv.
  apply in_map_iff in Hv as (r & <- & Hr). apply filter_In in Hr as (Hr & _).
  apply valid_rows_values in Hr. now apply (proj1 (Forall_forall _ _) H).
Qed.

Lemma monthly_trend_numeric (dates : list (option Timestamp)) (vals : list value) :
  Forall numeric vals ->
  monthly_trend dates vals = inr (tail 12 (month_table (valid_rows dates vals))).
Proof.
  intros H. unfold monthly_trend, groupby_month_agg, month_table.
  rewrite (mapM_total _
             (fun k => (k, (group_sum (numbers_of (group k (valid_rows dates vals))),
                            agg_count (group k (valid_rows dates vals)))))).
  - reflexivity.
  - intros k _. now rewrite (agg_sum_numeric (group_numeric k dates H)).
Qed.

Lemma month_table_keys (rs : list (period * value)) :
  List.map fst (month_table rs) = group_keys (List.map fst rs).
Proof.
  unfold month_table. rewrite List.map_map. cbn [fst]. apply map_id.
Qed.

(** The group of a month is the values of its rows, in row order. *)
Lemma group_month_values (p : period) (dates : list (option Timestamp)) (vals : list value) :
  group p (valid_rows dates vals) = month_values p dates vals.
Proof.
  unfold group, valid_rows. revert vals.
  induction dates as [|d ds IH]; intros vals; [reflexivity|].
  destruct vals as [|x xs]; [now destruct d|].
  cbn [combine flat_map fst snd]. rewrite filter_app, map_app, IH.
  destruct d as [t|]; [|reflexivity].
  cbn [filter fst month_values]. unfold period in *.
  destruct (Z.eqb (to_period_M t) p); reflexivity.
Qed.

(** When the date column is also the value column, the values summed are
    the parsed dates. *)
Lemma group_numbers_of_dates (p : period) (dates : list (option Timestamp)) :
  In p (List.map fst (valid_rows dates (List.map of_time dates))) ->
  group_numbers (group p (valid_rows dates (List.map of_time dates)))
  = raise TypeError (Py.lit "does not support sum operations").
Proof.
  rewrite group_month_values.
  induction dates as [|[t|] ds IH]; cbn [List.map valid_rows combine flat_map fst snd app];
    unfold valid_rows in *; cbn [List.map combine flat_map fst snd app In of_time month_values].
  - intros [].
  - unfold period in *. destruct (Z.eqb_spec (to_period_M t) p) as [E|Hne]; [reflexivity|].
    intros [E|H]; [contradiction|]. now apply IH.
  - exact IH.
Qed.

Lemma mapM_first_fails {A B} (f : A -> result B) (l : list A) (e : exn) :
  l <> [] -> (forall a, In a l -> f a = inl e) -> mapM f l = inl e.
Proof.
  destruct l as [|a l]; [congruence|]. intros _ H. cbn [mapM].
  now rewrite (H a (or_introl eq_refl)).
Qed.

Lemma valid_rows_nonempty (dates : list (option Timestamp)) (vals : list value) :
  List.length vals = List.length dates ->
  0 < count_true (List.map notna dates) -> valid_rows dates vals <> [].
Proof.
  unfold valid_rows, count_true. revert vals.
  induction dates as [|[t|] ds IH]; intros [|x xs] Hlen; cbn in *; try lia; try discriminate.
  intros H. apply IH; [lia | exact H].
Qed.

Lemma group_keys_nonempty (ks : list period) : ks <> [] -> group_keys ks <> [].
Proof.
  destruct ks as [|k ks]; [congruence|]. intros _ E.
  assert (H : In k (group_keys (k :: ks))) by (apply group_keys_In; now left).
  rewrite E in H. destruct H.
Qed.

Lemma monthly_trend_of_dates (dates : list (option Timestamp)) :
  0 < count_true (List.map notna dates) ->
  monthly_trend dates (List.map of_time dates)
  = raise TypeError (Py.lit "does not support sum operations").
Proof.
  intros Hvalid. unfold monthly_trend, groupby_month_agg.
  rewrite (@mapM_first_fails _ _ _ _ (Exn TypeError (Py.lit "does not support sum operations"))).
  - reflexivity.
  - apply group_keys_nonempty. intros E. apply map_eq_nil in E.
    revert E. apply valid_rows_nonempty; [now rewrite length_map | exact Hvalid].
  - intros k Hk. apply (proj1 (group_keys_In _ _)) in Hk. unfold agg_sum.
    now rewrite (group_numbers_of_dates _ _ Hk).
Qed.

End TrendLemmas.

Lemma count_valid_invalid {A} (dates : list (option A)) :
  count_true (List.map negb (List.map notna dates)) + count_true (List.map notna dates)
  = List.length dates.
Proof.
  unfold count_true. induction dates as [|[t|] ds IH]; simpl; lia.
Qed.

Lemma valid_rows_spec (dates : list (option Timestamp)) (vals : list value)
      (p : period) (x : value) :
  In (p, x) (valid_rows dates vals)
  <-> exists i t, nth_error dates i = Some (Some t) /\ nth_error vals i = Some x
                  /\ p = to_period_M t.
Proof.
  unfold valid_rows. revert vals.
  induction dates as [|d ds IH]; intros vals.
  - simpl. split; [intros [] | intros (i & t & H & _)]. now destruct i.
  - destruct vals as [|y ys].
    + simpl. split; [intros [] | intros (i & t & _ & H & _)]. now destruct i.
    + cbn [combine flat_map fst snd]. rewrite in_app_iff, IH. split.
      * intros [H | (i & t & Hd & Hv & Hp)].
        -- destruct d as [t|]; [|destruct H]. destruct H as [E|[]].
           injection E as <- <-. now exists 0, t.
        -- now exists (S i), t.
      * intros (i & t & Hd & Hv & Hp). destruct i as [|i].
        -- left. simpl in Hd, Hv. injection Hd as ->. injection Hv as ->.
           simpl. left. now rewrite Hp.
        -- right. now exists i, t.
Qed.

Lemma to_period_M_calendar (t1 t2 : Timestamp) :
  (1 <= ts_month t1 <= 12)%Z -> (1 <= ts_month t2 <= 12)%Z ->
  (to_period_M t1 = to_period_M t2
   <-> ts_year t1 = ts_year t2 /\ ts_month t1 = ts_month t2)
  /\ ((to_period_M t1 < to_period_M t2)%Z
      <-> (ts_year t1 < ts_year t2)%Z
          \/ (ts_year t1 = ts_year t2 /\ (ts_month t1 < ts_month t2)%Z)).
Proof. unfold to_period_M. lia. Qed.

(** The months of the dated rows are the months of the valid dates. *)
Lemma valid_rows_months (dates : list (option Timestamp)) (vals : list value) (p : period) :
  List.length vals = List.length dates ->
  (In p (List.map fst (valid_rows dates vals))
   <-> exists i t, nth_error dates i = Some (Some t) /\ p = to_period_M t).
Proof.
  intros Hlen. rewrite in_map_iff. split.
  - intros ((p', x) & <- & Hin). apply valid_rows_spec in Hin as (i & t & Hd & _ & Hp).
    now exists i, t.
  - intros (i & t & Hd & Hp).
    destruct (nth_error vals i) as [x|] eqn:Ex.
    + exists (p, x). split; [reflexivity|]. apply valid_rows_spec. now exists i, t.
    + apply nth_error_None in Ex.
      assert (i < List.length dates) by (apply nth_error_Some; congruence). lia.
Qed.

Section TrendFacts.

Context {L : Lib}.

(** C7. Take a date column [d] and a value column [v], both non-empty
    names, the dates parsed one per row, tabulate installed.

    When [v] is another column than [d] and its cells are numbers, the
    section reports how many rows have no valid date and, when some row has
    one, the table [monthly]: strictly ascending in the month, at most 12
    rows, leaving out only months older than all it shows (and then showing
    12); each row is a month of some valid date and gives the sum pandas
    makes of the non-missing values of the rows dated in that month, taken
    in row order, and the number of those non-missing values.  Two dates
    fall in one month exactly when year and month agree, and the order of
    the months is that of the calendar.

    When [v] is [d] itself, the values are overwritten by the parsed dates,
    and as soon as one date is valid the section raises instead of
    reporting. *)
Theorem monthly_trend_section (df : DataFrame) (v d : Py.str)
        (dates : list (option Timestamp)) :
  v <> [] -> d <> [] ->
  In d (columns df) ->
  tabulate = None ->
  to_datetime (getitem df d) = inr dates ->
  List.length dates = len df ->
  let df' := setitem df d (mkSeries datetime (List.map of_time dates)) in
  let valid := List.length (filter (fun t => notna t) dates) in
  let excluded := List.length (filter (fun t => negb (notna t)) dates) in
  excluded + valid = List.length dates
  /\ (v <> d -> Forall numeric (s_values (getitem df v)) ->
      let vals := s_values (getitem df v) in
      exists m,
        tendencia_mensal df (Some v) (Some d)
        = inr (df', Some (List.map notna dates),
               (if Nat.ltb 0 valid then Some m else None),
               DatasInvalidas excluded
               :: (if Nat.ltb 0 valid then [TendenciaMensal m] else []))
        /\ StronglySorted Z.lt (List.map fst m)
        /\ List.length m <= 12
        /\ (forall i t, nth_error dates i = Some (Some t) ->
              In (to_period_M t) (List.map fst m)
              \/ (List.length m = 12
                  /\ forall p', In p' (List.map fst m) -> (to_period_M t < p')%Z))
        /\ (forall p s c, In (p, (s, c)) m ->
              (exists i t, nth_error dates i = Some (Some t) /\ p = to_period_M t)
              /\ s = group_sum (numbers_of (month_values p dates vals))
              /\ c = List.length (filter (fun x => negb (isna x)) (month_values p dates vals))))
  /\ (v = d -> well_formed df -> 0 < valid ->
      exists msg, tendencia_mensal df (Some v) (Some d) = inl (Exn TypeError msg))
  /\ (forall t1 t2, (1 <= ts_month t1 <= 12)%Z -> (1 <= ts_month t2 <= 12)%Z ->
        (to_period_M t1 = to_period_M t2
         <-> ts_year t1 = ts_year t2 /\ ts_month t1 = ts_month t2)
        /\ ((to_period_M t1 < to_period_M t2)%Z
            <-> (ts_year t1 < ts_year t2)%Z
                \/ (ts_year t1 = ts_year t2 /\ (ts_month t1 < ts_month t2)%Z))).
Proof.
  intros Hv Hd Hin Htab Hdates Hlen df' valid excluded.
  assert (Hvalid : count_true (List.map notna dates) = valid).
  { subst valid. unfold count_true. clear.
    induction dates as [|[t|] ds IH]; simpl; congruence. }
  assert (Hexcluded : count_true (List.map negb (List.map notna dates)) = excluded).
  { subst excluded. unfold count_true. clear.
    induction dates as [|[t|] ds IH]; simpl; congruence. }
  assert (Hlen' : List.length (s_values (mkSeries datetime (List.map of_time dates))) = len df).
  { cbn [s_values]. now rewrite length_map. }
  split; [|split; [|split; [|apply to_period_M_calendar]]].
  - rewrite <- Hvalid, <- Hexcluded. apply count_valid_invalid.
  - intros Hne Hnum vals.
    set (rs := valid_rows dates vals).
    exists (tail 12 (month_table rs)).
    assert (Hvals : s_values (getitem df' v) = vals).
    { subst df' vals. now rewrite (@getitem_setitem_other _ _ _ _ Hin Hne Hlen'). }
    assert (Hlv : List.length vals = List.length dates).
    { subst vals. now rewrite getitem_length. }
    assert (Hkeys : List.map fst (tail 12 (month_table rs))
                    = tail 12 (group_keys (List.map fst rs))).
    { now rewrite tail_map, month_table_keys. }
    destruct (tail_most_recent 12 (group_keys_sorted (List.map fst rs)))
      as (Hsorted & Hrecent).
    split; [|split; [|split; [|split]]].
    + unfold tendencia_mensal. rewrite (truthy_nonempty Hv), (truthy_nonempty Hd), Hdates.
      cbn [bind]. fold df'. rewrite Hvals, Hvalid, Hexcluded.
      destruct (Nat.ltb 0 valid); [|reflexivity].
      rewrite (monthly_trend_numeric dates Hnum). cbn [bind]. fold rs.
      unfold to_markdown. rewrite Htab. reflexivity.
    + now rewrite Hkeys.
    + rewrite tail_length. lia.
    + intros i t Hi. rewrite Hkeys. rewrite <- (length_map fst (tail 12 _)), Hkeys.
      apply Hrecent. apply group_keys_In. subst rs.
      apply (proj2 (@valid_rows_months dates vals _ Hlv)). now exists i, t.
    + intros p s c Hm.
      assert (Hall : In (p, (s, c)) (month_table rs)).
      { rewrite (tail_split 12 (month_table rs)). apply in_or_app. now right. }
      unfold month_table in Hall. apply in_map_iff in Hall as (k & E & Hk).
      injection E as -> <- <-. subst rs. rewrite group_month_values. split.
      * apply (proj1 (group_keys_In _ _)) in Hk.
        now apply (proj1 (@valid_rows_months dates vals _ Hlv)).
      * split; reflexivity.
  - intros E Hwf Hpos. subst v.
    exists (Py.lit "does not support sum operations").
    unfold tendencia_mensal. rewrite (truthy_nonempty Hd), Hdates. cbn [bind]. fold df'.
    rewrite Hvalid. apply Nat.ltb_lt in Hpos. rewrite Hpos.
    subst df'. rewrite (@getitem_setitem_same _ _ _ Hwf Hin Hlen'). cbn [s_values].
    rewrite monthly_trend_of_dates; [reflexivity|]. rewrite Hvalid. now apply Nat.ltb_lt.
Qed.

End TrendFacts.

(** Fourteen months of sales and one bad date: the oldest two months are
    left out, the rest stands in order; the month with a missing value
    counts the two values it has. *)
Lemma monthly_trend_witness :
  let date := fun s => VStr (Py.lit s) in
  let df := mkDF [Py.lit "Data"; Py.lit "Total_Venda"] [object; number]
              [[date "2023-01-10"; VNum 1]; [date "2024-02-05"; VNum 14];
               [date "2023-02-10"; VNum 2]; [date "2023-03-10"; VNum 3];
               [date "2023-04-10"; VNum 4]; [date "2023-05-10"; VNum 5];
               [date "2023-06-10"; VNum 6]; [date "2023-07-10"; VNum 7];
               [date "invalida"; VNum 100]; [date "2023-08-10"; VNum 8];
               [date "2023-09-10"; VNum 9]; [date "2023-10-10"; VNum 10];
               [date "2023-11-10"; VNum 11]; [date "2023-12-10"; VNum 12];
               [date "2024-01-10"; VNum 13]; [date "2024-02-20"; VNaN];
               [date "2024-02-25"; VNum 6]]%string in
  snd (match @tendencia_mensal Ref.lib df (Some (Py.lit "Total_Venda")) (Some (Py.lit "Data")) with
       | inr r => r
       | inl _ => (df, None, None, [])
       end)
  = [DatasInvalidas 1;
     TendenciaMensal
       (List.map (fun r : Z * Q * nat => (fst (fst r), (Some (snd (fst r)), snd r)))
          [(638%Z, 3%Q, 1); (639%Z, 4%Q, 1); (640%Z, 5%Q, 1); (641%Z, 6%Q, 1);
           (642%Z, 7%Q, 1); (643%Z, 8%Q, 1); (644%Z, 9%Q, 1); (645%Z, 10%Q, 1);
           (646%Z, 11%Q, 1); (647%Z, 12%Q, 1); (648%Z, 13%Q, 1);
           (649%Z, (14 + (6 + 0))%Q, 2)])].
Proof.
  intros date df.
  destruct (@monthly_trend_section Ref.lib df (Py.lit "Total_Venda") (Py.lit "Data")
              (List.map Ref.datetime_of (s_values (getitem df (Py.lit "Data")))))
    as (_ & Htable & _).
  - discriminate.
  - discriminate.
  - simpl. auto.
  - reflexivity.
  - reflexivity.
  - reflexivity.
  - destruct Htable as (m & E & _).
    + discriminate.
    + repeat constructor.
    + assert (E0 : @tendencia_mensal Ref.lib df (Some (Py.lit "Total_Venda"))
                     (Some (Py.lit "Data"))
                   = inr (setitem df (Py.lit "Data")
                            (mkSeries datetime
                               (List.map of_time
                                  (List.map Ref.datetime_of
                                     (s_values (getitem df (Py.lit "Data")))))),
                          Some (List.map notna
                                  (List.map Ref.datetime_of
                                     (s_values (getitem df (Py.lit "Data"))))),
                          Some (List.map
                                  (fun r : Z * Q * nat =>
                                     (fst (fst r), (Some (snd (fst r)), snd r)))
                                  [(638%Z, 3%Q, 1); (639%Z, 4%Q, 1); (640%Z, 5%Q, 1);
                                   (641%Z, 6%Q, 1); (642%Z, 7%Q, 1); (643%Z, 8%Q, 1);
                                   (644%Z, 9%Q, 1); (645%Z, 10%Q, 1); (646%Z, 11%Q, 1);
                                   (647%Z, 12%Q, 1); (648%Z, 13%Q, 1);
                                   (649%Z, (14 + (6 + 0))%Q, 2)]),
                          [DatasInvalidas 1;
                           TendenciaMensal
                             (List.map
                                (fun r : Z * Q * nat =>
                                   (fst (fst r), (Some (snd (fst r)), snd r)))
                                [(638%Z, 3%Q, 1); (639%Z, 4%Q, 1); (640%Z, 5%Q, 1);
                                 (641%Z, 6%Q, 1); (642%Z, 7%Q, 1); (643%Z, 8%Q, 1);
                                 (644%Z, 9%Q, 1); (645%Z, 10%Q, 1); (646%Z, 11%Q, 1);
                                 (647%Z, 12%Q, 1); (648%Z, 13%Q, 1);
                                 (649%Z, (14 + (6 + 0))%Q, 2)])]))
        by reflexivity.
      rewrite E0. reflexivity.
Defined.

(** The file of the billing dates: the clean-up turns "05/01/2024" into the
    number 5012024, the column takes the value role and the date role, the
    date parsing overwrites its numbers with timestamps, and the sum of the
    month fails: the answer is the error line, without any report. *)
Lemma one_column_in_both_roles :
  exists df,
    @load_csv_robust Ref.lib Sample.faturamento_store (Py.lit "faturamento.csv") = inr df
    /\ getitem df (Py.lit "Data_Faturamento") = mkSeries number [VNum 5012024; VNum 20022024]
    /\ @detectar_colunas Ref.lib df
       = (Some (Py.lit "Data_Faturamento"), Some (Py.lit "Data_Faturamento"), None)
    /\ @to_datetime Ref.lib (getitem df (Py.lit "Data_Faturamento"))
       = inr [Some (mkTimestamp 1970 1 1 5012024); Some (mkTimestamp 1970 1 1 20022024)]
    /\ @tendencia_mensal Ref.lib df (Some (Py.lit "Data_Faturamento"))
                         (Some (Py.lit "Data_Faturamento"))
       = inl (Exn TypeError (Py.lit "does not support sum operations"))
    /\ @analyze_csv Ref.lib Ref.plot Sample.faturamento_store (Py.lit "faturamento.csv") []
       = inr (Sample.faturamento_store,
              [ErroAnalise (Py.lit "does not support sum operations")]).
Proof.
  eexists. split; [vm_compute; reflexivity|]. repeat split; vm_compute; reflexivity.
Qed.

(** ** The chart *)

Lemma truthy_Some (o : option Py.str) (c : Py.str) : Py.truthy o = Some c -> o = Some c.
Proof. destruct o as [[|x s]|]; simpl; congruence. Qed.

Section ChartFacts.

Context {L : Lib}.

Lemma to_markdown_inv {A} (t md : A) : to_markdown t = inr md -> md = t.
Proof. unfold to_markdown. destruct tabulate; [discriminate | now injection 1]. Qed.

Lemma tendencia_mensal_inv (df df' : DataFrame) (v d : option Py.str)
      (vd : option (list bool)) (mo : option monthly_table) (t : text) :
  tendencia_mensal df v d = inr (df', vd, mo, t) ->
  match mo with
  | Some m =>
      exists d' v' valid,
        Py.truthy d = Some d' /\ Py.truthy v = Some v' /\ vd = Some valid
        /\ Nat.ltb 0 (count_true valid) = true /\ In (TendenciaMensal m) t
  | None =>
      ((Py.truthy d = None \/ Py.truthy v = None) /\ vd = None)
      \/ exists valid, vd = Some valid /\ Nat.ltb 0 (count_true valid) = false
  end.
Proof.
  unfold tendencia_mensal.
  destruct (Py.truthy d) as [d'|] eqn:Ed;
    [destruct (Py.truthy v) as [v'|] eqn:Ev|].
  - destruct (to_datetime (getitem df d')) as [e|dates]; [discriminate|]. cbn [bind].
    destruct (Nat.ltb 0 (count_true (List.map notna dates))) eqn:Hvalid.
    + destruct (monthly_trend dates _) as [e|m]; [discriminate|]. cbn [bind].
      destruct (to_markdown m) as [e|md] eqn:Emd; [discriminate|]. cbn [bind].
      apply to_markdown_inv in Emd as ->.
      intros E. injection E as <- <- <- <-.
      exists d', v', (List.map notna dates). repeat split; [exact Hvalid|].
      simpl. auto.
    + intros E. injection E as <- <- <- <-. right. now exists (List.map notna dates).
  - intros E. injection E as <- <- <- <-. left. auto.
  - intros E. injection E as <- <- <- <-. left. auto.
Qed.

Lemma top_categorias_inv (df : DataFrame) (v c : option Py.str)
      (tp : option ranking) (r : text) :
  top_categorias df v c = inr (tp, r) ->
  match tp with
  | Some (BySum t) =>
      exists c' v', Py.truthy c = Some c' /\ Py.truthy v = Some v'
                    /\ r = [TopDez c' (BySum t)]
  | Some (ByCount t) =>
      exists c', Py.truthy c = Some c' /\ Py.truthy v = None
                 /\ r = [TopDez c' (ByCount t)]
  | None => Py.truthy c = None /\ r = []
  end.
Proof.
  unfold top_categorias.
  destruct (Py.truthy c) as [c'|]; [destruct (Py.truthy v) as [v'|]|].
  - destruct (top_by_sum df c' v') as [e|t]; [discriminate|]. cbn [bind].
    destruct (to_markdown (BySum t)) as [e|md] eqn:Emd; [discriminate|]. cbn [bind].
    apply to_markdown_inv in Emd as ->.
    intros E. injection E as <- <-. now exists c', v'.
  - destruct (top_by_count (getitem df c')) as [e|t]; [discriminate|]. cbn [bind].
    destruct (to_markdown (ByCount t)) as [e|md] eqn:Emd; [discriminate|]. cbn [bind].
    apply to_markdown_inv in Emd as ->.
    intros E. injection E as <- <-. now exists c'.
  - intros E. injection E as <- <-. now split.
Qed.

(** What the sections leave behind for the chart. *)
Lemma analyze_sections_inv (w : World) (file_path pergunta : Py.str) (a : analysis) :
  analyze_sections w file_path pergunta = inr a ->
  match monthly a with
  | Some m =>
      exists d' v' valid,
        Py.truthy (date_col a) = Some d' /\ Py.truthy (value_col a) = Some v'
        /\ valid_dates a = Some valid /\ Nat.ltb 0 (count_true valid) = true
        /\ In (TendenciaMensal m) (report a)
  | None =>
      ((Py.truthy (date_col a) = None \/ Py.truthy (value_col a) = None)
       /\ valid_dates a = None)
      \/ exists valid, valid_dates a = Some valid /\ Nat.ltb 0 (count_true valid) = false
  end
  /\ match top a with
     | Some (BySum t) =>
         exists c' v', Py.truthy (cat_col a) = Some c' /\ Py.truthy (value_col a) = Some v'
                       /\ In (TopDez c' (BySum t)) (report a)
     | Some (ByCount t) =>
         exists c', Py.truthy (cat_col a) = Some c' /\ Py.truthy (value_col a) = None
                    /\ In (TopDez c' (ByCount t)) (report a)
     | None => Py.truthy (cat_col a) = None
     end.
Proof.
  unfold analyze_sections.
  destruct (load_csv_robust w file_path) as [e|df]; [discriminate|]. cbn [bind].
  destruct (detectar_colunas df) as ((v, d), c).
  destruct (resumo_estatistico df) as [e|(nd, resumo)]; [discriminate|]. cbn [bind].
  destruct (financeiro df v) as [e|fin]; [discriminate|]. cbn [bind].
  destruct (tendencia_mensal df v d) as [e|(((df', vd), mo), t)] eqn:Et; [discriminate|].
  cbn [bind].
  destruct (top_categorias df' v c) as [e|(tp, r)] eqn:Etop; [discriminate|]. cbn [bind].
  destruct (outliers_detectados df' v) as [e|out]; [discriminate|]. cbn [bind].
  intros E. injection E as <-. cbn [monthly top date_col value_col cat_col valid_dates report].
  apply tendencia_mensal_inv in Et. apply top_categorias_inv in Etop.
  split.
  - destruct mo as [m|]; [|exact Et].
    destruct Et as (d' & v' & valid & Hd & Hv & Hvd & Hlt & Hin).
    exists d', v', valid. repeat split; try assumption.
    simpl. right. rewrite !in_app_iff. auto.
  - destruct tp as [[t'|t']|].
    + destruct Etop as (c' & v' & Hc & Hv & ->). exists c', v'. repeat split; try assumption.
      simpl. right. rewrite !in_app_iff. simpl. auto.
    + destruct Etop as (c' & Hc & Hv & ->). exists c'. repeat split; try assumption.
      simpl. right. rewrite !in_app_iff. simpl. auto.
    + apply Etop.
Qed.

Context {P : Plot L}.

(** C8, as the code has it. After the sections of the report, exactly one
    shape is chosen: the monthly bar chart when the monthly table exists;
    otherwise the horizontal bar of the top categories when a ranking by
    summed value exists, that is when a category and a value column were
    both found; otherwise the bar of the column means.  When the chart is
    rendered the report ends in its path, and when rendering fails the
    report ends in the warning instead: the sections before are the same. *)
Theorem chart_choice_and_fallback (w : World) (file_path pergunta : Py.str) (a : analysis) :
  analyze_sections w file_path pergunta = inr a ->
  exists c,
    choose_chart a = inr c
    /\ match monthly a, top a with
       | Some m, _ => exists v, value_col a = Some v /\ c = MonthlyBar m v
       | None, Some (BySum t) =>
           exists cat v, cat_col a = Some cat /\ value_col a = Some v
                         /\ c = TopBarh (BySum t) cat v
       | None, _ => c = MeansBar (num_df a)
       end
    /\ (forall m, monthly a = Some m -> In (TendenciaMensal m) (report a))
    /\ (forall t, top a = Some t -> exists cat, In (TopDez cat t) (report a))
    /\ (forall w', render_chart w c (chart_path w) = inr w' ->
          analyze_csv w file_path pergunta
          = inr (w', report a ++ [Grafico (chart_path w)]))
    /\ (forall e, render_chart w c (chart_path w) = inl e ->
          analyze_csv w file_path pergunta
          = inr (w, report a ++ [GraficoNaoGerado (exn_str e)])).
Proof.
  intros Ha. destruct (analyze_sections_inv _ _ _ Ha) as (Hm & Ht).
  assert (Hchoice : exists c,
             choose_chart a = inr c
             /\ match monthly a, top a with
                | Some m, _ => exists v, value_col a = Some v /\ c = MonthlyBar m v
                | None, Some (BySum t) =>
                    exists cat v, cat_col a = Some cat /\ value_col a = Some v
                                  /\ c = TopBarh (BySum t) cat v
                | None, _ => c = MeansBar (num_df a)
                end).
  { assert (Hwithout : exists c,
               choose_chart_without_trend a = inr c
               /\ match top a with
                  | Some (BySum t) =>
                      exists cat v, cat_col a = Some cat /\ value_col a = Some v
                                    /\ c = TopBarh (BySum t) cat v
                  | _ => c = MeansBar (num_df a)
                  end).
    { unfold choose_chart_without_trend.
      destruct (top a) as [[t|t]|].
      - destruct Ht as (c' & v' & Hc & Hv & _). rewrite Hc, Hv.
        eexists. split; [reflexivity|].
        exists c', v'. repeat split; now apply truthy_Some.
      - destruct Ht as (c' & Hc & Hv & _). rewrite Hc, Hv. now eexists.
      - rewrite Ht. now eexists. }
    unfold choose_chart. destruct (monthly a) as [m|].
    - destruct Hm as (d' & v' & valid & Hd & Hv & Hvd & Hlt & _).
      rewrite Hd, Hv, Hvd, Hlt. eexists. split; [reflexivity|].
      exists v'. split; [now apply truthy_Some | reflexivity].
    - destruct Hm as [([Hd|Hv] & Hvd) | (valid & Hvd & Hlt)].
      + rewrite Hd. exact Hwithout.
      + rewrite Hv. destruct (Py.truthy (date_col a)); exact Hwithout.
      + rewrite Hvd, Hlt.
        destruct (Py.truthy (date_col a)); [|exact Hwithout].
        destruct (Py.truthy (value_col a)); exact Hwithout. }
  destruct Hchoice as (c & Hc & Hshape). exists c.
  split; [exact Hc|]. split; [exact Hshape|].
  split; [|split; [|split]].
  - intros m Em. rewrite Em in Hm. now destruct Hm as (_ & _ & _ & _ & _ & _ & _ & H).
  - intros t Et. rewrite Et in Ht. destruct t as [t|t].
    + destruct Ht as (c' & _ & _ & _ & H). now exists c'.
    + destruct Ht as (c' & _ & _ & H). now exists c'.
  - intros w' Hr. unfold analyze_csv, analyze_body, grafico.
    rewrite Ha. cbn [bind]. rewrite Hc. cbn [bind]. rewrite Hr. reflexivity.
  - intros e Hr. unfold analyze_csv, analyze_body, grafico.
    rewrite Ha. cbn [bind]. rewrite Hc. cbn [bind]. rewrite Hr. reflexivity.
Qed.

End ChartFacts.

(** A shop with a category but no value column: the ranking by count is in
    the report, there is no monthly table, and the chart is the bar of the
    column means, not the bar of the top categories. *)
Lemma count_ranking_draws_means :
  exists a ranking,
    @analyze_sections Ref.lib Sample.loja_store (Py.lit "loja.csv") (Py.lit "?") = inr a
    /\ monthly a = None
    /\ top a = Some ranking
    /\ In (TopDez (Py.lit "Categoria") ranking) (report a)
    /\ choose_chart a = inr (MeansBar (num_df a)).
Proof.
  eexists. eexists. split; [vm_compute; reflexivity|].
  split; [reflexivity|]. split; [reflexivity|].
  split; [|reflexivity]. simpl. auto.
Qed.

Lemma chart_choice_witness :
  exists t, choose_chart Sample.vendas_analysis
            = inr (TopBarh (BySum t) (Py.lit "Categoria") (Py.lit "Total")).
Proof.
  destruct (@chart_choice_and_fallback Ref.lib Ref.plot Sample.vendas_store
              (Py.lit "vendas.csv") (Py.lit "?") Sample.vendas_analysis)
    as (c & Hc & Hshape & _).
  - vm_compute. reflexivity.
  - exists []. rewrite Hc. vm_compute in Hshape.
    destruct Hshape as (cat & v & Ecat & Ev & ->).
    injection Ecat as <-. injection Ev as <-. reflexivity.
Defined.
(** ** The cleaner *)

Lemma drop_duplicates_distinct (seen l : list row) :
  distinct_from seen (drop_duplicates_from seen l).
Proof.
  revert seen. induction l as [|r t IH]; intros seen; simpl; [exact I|].
  destruct (existsb (row_eqb r) seen) eqn:E; [apply IH|].
  simpl. split; [exact E | apply IH].
Qed.

Lemma distinct_is_fixed (seen l : list row) :
  distinct_from seen l -> drop_duplicates_from seen l = l.
Proof.
  revert seen. induction l as [|r t IH]; intros seen; simpl; [reflexivity|].
  intros (E & H). rewrite E. f_equal. now apply IH.
Qed.

Lemma distinct_weaken (seen seen' l : list row) :
  (forall r, existsb (row_eqb r) seen' = true -> existsb (row_eqb r) seen = true) ->
  distinct_from seen l -> distinct_from seen' l.
Proof.
  revert seen seen'. induction l as [|r t IH]; intros seen seen' Hsub; simpl; [auto|].
  intros (E & H). split.
  - destruct (existsb (row_eqb r) seen') eqn:E'; [|reflexivity].
    apply Hsub in E'. congruence.
  - apply (IH (r :: seen)); [|exact H].
    intros x. simpl. rewrite !orb_true_iff. intros [Hx|Hx]; [now left | right; now apply Hsub].
Qed.

Lemma distinct_filter (p : row -> bool) (seen l : list row) :
  distinct_from seen l -> distinct_from seen (filter p l).
Proof.
  revert seen. induction l as [|r t IH]; intros seen; simpl; [auto|].
  intros (E & H). destruct (p r); simpl.
  - split; [exact E | now apply IH].
  - apply (distinct_weaken (r :: seen)); [|now apply IH].
    intros x Hx. simpl. now rewrite Hx, orb_true_r.
Qed.



Section CleanerFacts.

Context {L : Lib}.


End CleanerFacts.



(** ** Further worked examples *)

(** Digits inside text count as a number once the other characters are
    stripped: a column of client codes parses cell for cell and is
    converted. *)
Example client_codes_are_coerced :
  let clientes := List.map (fun s => VStr (Py.lit s))
                           ["Cliente_1234"; "Cliente_5678"; "Cliente_9012"]%string in
  @coerce_numeric_if_majority Ref.lib (mkSeries object clientes) default_threshold
  = mkSeries number [VNum 1234; VNum 5678; VNum 9012].
Proof. reflexivity. Qed.

(** A table followed by its own first rows loses exactly those rows. *)
Example appended_rows_are_removed :
  let df := mkDF [Py.lit "Produto"; Py.lit "Total"] [object; number]
              [[VStr (Py.lit "Mouse"); VNum 10];
               [VStr (Py.lit "Teclado"); VNum 20];
               [VStr (Py.lit "Monitor"); VNum 30]] in
  let doubled := with_rows df (rows df ++ firstn 2 (rows df)) in
  len doubled - len (clean_rows doubled) = 2.
Proof. reflexivity. Qed.

(** * Further properties *)

(** ** Loading: which read is used, and what the clean-up keeps *)

Section LoadMore.

Context {L : Lib}.

(** X1. When [load_csv_robust] returns a table, it is the cleaned and
    coerced table of the first read that succeeds among, in this order, the
    semicolon reads with utf-8, with latin-1 and with cp1252 and the
    delimiter-sniffing read: every earlier read failed and no later read
    was made. *)
Theorem load_returns_first_readable (w : World) (file_path : Py.str) (df : DataFrame) :
  load_csv_robust w file_path = inr df ->
  let semicolon := fun enc => mkOptions (Some (Py.lit ";")) (Py.lit ",") enc false None in
  let reads := [semicolon (Py.lit "utf-8"); semicolon (Py.lit "latin-1");
                semicolon (Py.lit "cp1252");
                mkOptions None (Py.lit ".") (Py.lit "utf-8") true None] in
  exists n o raw,
    nth_error reads n = Some o
    /\ read_csv w (expanduser file_path) o = inr raw
    /\ (forall j o', j < n -> nth_error reads j = Some o' ->
          exists e, read_csv w (expanduser file_path) o' = inl e)
    /\ df = clean_and_coerce raw
    /\ fst (load_csv_robust_run w file_path) = firstn (S n) reads.
Proof.
  intros Hload semicolon reads. revert Hload.
  change reads with [semicolon_options (Py.lit "utf-8"); semicolon_options (Py.lit "latin-1");
                     semicolon_options (Py.lit "cp1252"); sniffing_options].
  clear reads semicolon.
  unfold load_csv_robust, load_csv_robust_run.
  set (p := expanduser file_path).
  destruct (path_exists w p); cbn [negb]; [|discriminate].
  unfold encodings. cbn [try_encodings].
  destruct (read_csv w p (semicolon_options (Py.lit "utf-8"))) as [e1|d1] eqn:R1;
    [destruct (read_csv w p (semicolon_options (Py.lit "latin-1"))) as [e2|d2] eqn:R2;
     [destruct (read_csv w p (semicolon_options (Py.lit "cp1252"))) as [e3|d3] eqn:R3;
      [destruct (read_csv w p sniffing_options) as [e4|d4] eqn:R4 | ] | ] | ];
    cbn [fst snd app ret raise]; intros E; try discriminate; injection E as <-.
  - exists 3, sniffing_options, d4. repeat split; try reflexivity; try assumption.
    intros j o' Hj Ho'.
    destruct j as [|[|[|j]]]; [| | |lia]; injection Ho' as <-; eexists; eassumption.
  - exists 2, (semicolon_options (Py.lit "cp1252")), d3.
    repeat split; try reflexivity; try assumption.
    intros j o' Hj Ho'.
    destruct j as [|[|j]]; [| |lia]; injection Ho' as <-; eexists; eassumption.
  - exists 1, (semicolon_options (Py.lit "latin-1")), d2.
    repeat split; try reflexivity; try assumption.
    intros j o' Hj Ho'.
    destruct j as [|j]; [|lia]; injection Ho' as <-; eexists; eassumption.
  - exists 0, (semicolon_options (Py.lit "utf-8")), d1.
    repeat split; try reflexivity; try assumption.
    intros j o' Hj. lia.
Qed.

End LoadMore.

(** A file in latin-1: the utf-8 read fails, the latin-1 read gives the
    table, and no third read is made. *)
Lemma load_returns_first_readable_witness :
  let df := mkDF [Py.lit "Total"] [number] [[VNum 1]] in
  let w := [(Py.lit "vendas.csv", Ref.CsvFile (Py.lit "latin-1") df)] in
  let semicolon := fun enc => mkOptions (Some (Py.lit ";")) (Py.lit ",") enc false None in
  @load_csv_robust Ref.lib w (Py.lit "vendas.csv") = inr df
  /\ exists n raw,
       n = 1
       /\ @read_csv Ref.lib w (Py.lit "vendas.csv") (semicolon (Py.lit "latin-1")) = inr raw
       /\ (exists e, @read_csv Ref.lib w (Py.lit "vendas.csv") (semicolon (Py.lit "utf-8")) = inl e)
       /\ df = @clean_and_coerce Ref.lib raw
       /\ List.length (fst (@load_csv_robust_run Ref.lib w (Py.lit "vendas.csv"))) = S n.
Proof.
  intros df w semicolon. split; [reflexivity|].
  destruct (@load_returns_first_readable Ref.lib w (Py.lit "vendas.csv") df eq_refl)
    as (n & o & raw & Ho & Hread & Hbefore & Hdf & Hcalls).
  assert (Hn : n = 1).
  { destruct n as [|[|[|[|n]]]]; try discriminate Hcalls; reflexivity. }
  subst n. injection Ho as <-.
  exists 1, raw. split; [reflexivity|]. split; [exact Hread|]. split.
  - apply (Hbefore 0); [lia | reflexivity].
  - split; [exact Hdf|]. now rewrite Hcalls.
Defined.

(** ** What the clean-up keeps *)

Lemma drop_duplicates_subsequence (seen l : list row) :
  subsequence (drop_duplicates_from seen l) l.
Proof.
  revert seen. induction l as [|r t IH]; intros seen; simpl; [constructor|].
  destruct (existsb (row_eqb r) seen); constructor; apply IH.
Qed.

Lemma filter_subsequence {A} (p : A -> bool) (l : list A) : subsequence (filter p l) l.
Proof.
  induction l as [|a l IH]; simpl; [constructor|]. destruct (p a); now constructor.
Qed.

Lemma subsequence_trans {A} (l1 l2 l3 : list A) :
  subsequence l1 l2 -> subsequence l2 l3 -> subsequence l1 l3.
Proof.
  intros H12 H23. revert l1 H12.
  induction H23 as [| x l2 l3 _ IH | x l2 l3 _ IH]; intros l1 H12.
  - exact H12.
  - inversion H12; subst; constructor; now apply IH.
  - constructor. now apply IH.
Qed.

Lemma subsequence_In {A} (l' l : list A) (x : A) : subsequence l' l -> In x l' -> In x l.
Proof.
  induction 1 as [| y l' l _ IH | y l' l _ IH]; simpl; intuition.
Qed.

Lemma subsequence_length {A} (l' l : list A) :
  subsequence l' l -> List.length l' <= List.length l.
Proof. induction 1; simpl; lia. Qed.

Lemma clean_rows_subsequence (df : DataFrame) :
  subsequence (rows (clean_rows df)) (rows df).
Proof.
  unfold clean_rows, reset_index, dropna_all, drop_duplicates, with_rows. cbn [rows].
  eapply subsequence_trans; [apply filter_subsequence | apply drop_duplicates_subsequence].
Qed.

Lemma clean_rows_well_formed (df : DataFrame) : well_formed df -> well_formed (clean_rows df).
Proof.
  intros (Hn & Hd & Hr). split; [exact Hn|]. split; [exact Hd|].
  apply Forall_forall. intros r Hin.
  apply (subsequence_In r (clean_rows_subsequence df)) in Hin.
  now apply (proj1 (Forall_forall _ _) Hr).
Qed.

Section CoerceColumns.

Context {L : Lib}.

Lemma coerce_length (s : Series) (threshold : Q) :
  List.length (s_values (coerce_numeric_if_majority s threshold)) = List.length (s_values s).
Proof.
  unfold coerce_numeric_if_majority.
  destruct (Qle_bool threshold (valid_ratio s)); [|reflexivity].
  cbn [s_values]. now rewrite !length_map.
Qed.

Lemma coerce_column_shape (df : DataFrame) (col : Py.str) :
  columns (coerce_column df col) = columns df
  /\ len (coerce_column df col) = len df
  /\ List.length (dtypes (coerce_column df col)) = List.length (dtypes df).
Proof.
  unfold coerce_column. split; [reflexivity|]. split.
  - apply setitem_len. now rewrite coerce_length, getitem_length.
  - apply setitem_dtypes_length.
Qed.

Lemma fold_coerce_shape (cols : list Py.str) (df : DataFrame) :
  let r := fold_left coerce_column cols df in
  columns r = columns df /\ len r = len df
  /\ List.length (dtypes r) = List.length (dtypes df).
Proof.
  revert df. induction cols as [|c cols IH]; intros df; simpl; [auto|].
  destruct (IH (coerce_column df c)) as (H1 & H2 & H3).
  destruct (coerce_column_shape df c) as (G1 & G2 & G3).
  repeat split; congruence.
Qed.

(** X2. Cleaning and coercing a table that was read keeps its column names
    and their order and the number of dtypes; its rows are as many as are
    left after dropping repeated and empty rows, never more than were read:
    the coercion of the text columns neither adds nor drops a row. *)
Theorem clean_and_coerce_keeps_shape (df : DataFrame) :
  columns (clean_and_coerce df) = columns df
  /\ List.length (dtypes (clean_and_coerce df)) = List.length (dtypes df)
  /\ len (clean_and_coerce df) = len (clean_rows df)
  /\ len (clean_and_coerce df) <= len df.
Proof.
  unfold clean_and_coerce, coerce_object_columns.
  change (fun (df0 : DataFrame) (col : Py.str) =>
            setitem df0 col (coerce_numeric_if_majority (getitem df0 col) default_threshold))
    with coerce_column.
  destruct (fold_coerce_shape (select_dtypes_columns object (dropna_all (drop_duplicates df)))
              (dropna_all (drop_duplicates df))) as (H1 & H2 & H3).
  split; [exact H1|]. split; [exact H3|]. split; [exact H2|].
  rewrite H2. apply (subsequence_length (clean_rows_subsequence df)).
Qed.

End CoerceColumns.

Lemma dtype_eqb_eq (a b : dtype) : dtype_eqb a b = true <-> a = b.
Proof. destruct a, b; simpl; split; congruence. Qed.

Lemma map_fst_combine {A B} (l : list A) (l' : list B) :
  List.length l' = List.length l -> List.map fst (combine l l') = l.
Proof.
  revert l'. induction l as [|a l IH]; intros [|b l'] H; simpl in *; try discriminate;
    [reflexivity|]. f_equal. apply IH. lia.
Qed.

Lemma NoDup_map_fst_filter {A B} (f : A * B -> bool) (l : list (A * B)) :
  NoDup (List.map fst l) -> NoDup (List.map fst (filter f l)).
Proof.
  induction l as [|x l IH]; simpl; intros H; [constructor|].
  inversion H as [|? ? Hx Hl]; subst. destruct (f x); simpl; [|now apply IH].
  constructor; [|now apply IH].
  intros Hin. apply Hx. apply in_map_iff in Hin as (y & E & Hy).
  apply filter_In in Hy as (Hy & _). apply in_map_iff. now exists y.
Qed.

Lemma in_combine_index (cols : list Py.str) (dts : list dtype) (c : Py.str) (d : dtype) :
  NoDup cols -> List.length dts = List.length cols ->
  (In (c, d) (combine cols dts)
   <-> In c cols /\ nth (index_of c cols) dts object = d).
Proof.
  revert dts. induction cols as [|h t IH]; intros [|d0 dts] Hn Hlen; simpl in *;
    try discriminate; [intuition|].
  inversion Hn as [|? ? Hh Ht]; subst. unfold Py.str_eqb.
  destruct (list_eq_dec N.eq_dec h c) as [E|E].
  - subst h. split.
    + intros [H|H]; [injection H as <-; auto|].
      apply in_combine_l in H. contradiction.
    + intros (_ & <-). now left.
  - rewrite (IH dts Ht) by lia. split.
    + intros [H|(Hin & H)]; [congruence | auto].
    + intros ([H0|Hin] & H); [congruence | auto].
Qed.

Lemma select_dtypes_columns_spec (t : dtype) (df : DataFrame) (c : Py.str) :
  well_formed df ->
  (In c (select_dtypes_columns t df)
   <-> In c (columns df) /\ s_dtype (getitem df c) = t).
Proof.
  intros (Hn & Hd & _). unfold select_dtypes_columns. rewrite in_map_iff. split.
  - intros ((c0, d) & E & Hin). cbn [fst] in E. subst c0.
    apply filter_In in Hin as (Hin & Hdt). cbn [snd] in Hdt. apply dtype_eqb_eq in Hdt.
    apply (proj1 (@in_combine_index (columns df) (dtypes df) c d Hn Hd)) in Hin
      as (Hin & Hnth).
    split; [exact Hin|]. unfold getitem. cbn [s_dtype]. congruence.
  - intros (Hin & Hdt). exists (c, t). split; [reflexivity|].
    apply filter_In. split; [|now apply dtype_eqb_eq].
    apply (proj2 (@in_combine_index (columns df) (dtypes df) c t Hn Hd)).
    split; [exact Hin|exact Hdt].
Qed.

Lemma select_dtypes_columns_NoDup (t : dtype) (df : DataFrame) :
  well_formed df -> NoDup (select_dtypes_columns t df).
Proof.
  intros (Hn & Hd & _). unfold select_dtypes_columns.
  apply NoDup_map_fst_filter. now rewrite map_fst_combine.
Qed.

Section CoercePerColumn.

Context {L : Lib}.

Lemma coerce_column_well_formed (df : DataFrame) (col : Py.str) :
  well_formed df -> well_formed (coerce_column df col).
Proof. apply setitem_well_formed. Qed.

Lemma fold_coerce_getitem (cols : list Py.str) (df : DataFrame) (c : Py.str) :
  well_formed df -> NoDup cols -> incl cols (columns df) ->
  getitem (fold_left coerce_column cols df) c
  = if in_dec (list_eq_dec N.eq_dec) c cols
    then coerce_numeric_if_majority (getitem df c) default_threshold
    else getitem df c.
Proof.
  revert df. induction cols as [|c1 rest IH]; intros df Hwf Hn Hincl; [reflexivity|].
  cbn [fold_left]. inversion Hn as [|? ? Hc1 Hrest]; subst.
  assert (Hin1 : In c1 (columns df)) by (apply Hincl; now left).
  assert (Hlen : List.length
                   (s_values (coerce_numeric_if_majority (getitem df c1) default_threshold))
                 = len df) by (now rewrite coerce_length, getitem_length).
  rewrite IH; [| now apply coerce_column_well_formed | exact Hrest
               | intros x Hx; apply Hincl; now right].
  destruct (list_eq_dec N.eq_dec c c1) as [->|Hne].
  - destruct (in_dec (list_eq_dec N.eq_dec) c1 rest) as [Hin|_]; [contradiction|].
    destruct (in_dec (list_eq_dec N.eq_dec) c1 (c1 :: rest)) as [_|Hout];
      [|exfalso; apply Hout; now left].
    unfold coerce_column. now apply getitem_setitem_same.
  - assert (Hother : getitem (coerce_column df c1) c = getitem df c).
    { unfold coerce_column. now apply getitem_setitem_other. }
    rewrite Hother.
    destruct (in_dec (list_eq_dec N.eq_dec) c rest) as [Hin|Hout],
             (in_dec (list_eq_dec N.eq_dec) c (c1 :: rest)) as [Hin'|Hout'];
      try reflexivity.
    + exfalso. apply Hout'. now right.
    + destruct Hin' as [E|Hin']; [congruence | contradiction].
Qed.

(** X3. In a table with distinct column names, every text column that
    [load_csv_robust] returns is the coercion of that column of the cleaned
    table, decided on that column alone, and every column that is not text
    is returned cell for cell as it was: the loop over the text columns
    touches a column once and no other column with it. *)
Theorem coercion_is_per_text_column (df : DataFrame) (c : Py.str) :
  well_formed df -> In c (columns df) ->
  getitem (clean_and_coerce df) c
  = match s_dtype (getitem (clean_rows df) c) with
    | object => coerce_numeric_if_majority (getitem (clean_rows df) c) default_threshold
    | _ => getitem (clean_rows df) c
    end.
Proof.
  intros Hwf Hin. apply clean_rows_well_formed in Hwf.
  unfold clean_and_coerce, coerce_object_columns.
  change (fun (df0 : DataFrame) (col : Py.str) =>
            setitem df0 col (coerce_numeric_if_majority (getitem df0 col) default_threshold))
    with coerce_column.
  change (dropna_all (drop_duplicates df)) with (clean_rows df).
  rewrite fold_coerce_getitem;
    [| exact Hwf | now apply select_dtypes_columns_NoDup
     | intros x Hx; now apply (proj1 (@select_dtypes_columns_spec object _ x Hwf)) in Hx].
  destruct (in_dec (list_eq_dec N.eq_dec) c (select_dtypes_columns object (clean_rows df)))
    as [Hobj|Hnot].
  - apply (proj1 (@select_dtypes_columns_spec object _ c Hwf)) in Hobj as (_ & ->).
    reflexivity.
  - destruct (s_dtype (getitem (clean_rows df) c)) eqn:E; try reflexivity.
    exfalso. apply Hnot. apply (proj2 (@select_dtypes_columns_spec object _ c Hwf)).
    now split.
Qed.

End CoercePerColumn.

(** Prices that are text become numbers, the product names stay text, and
    the quantities stay as they are. *)
Lemma coercion_is_per_text_column_witness :
  let df := mkDF [Py.lit "Produto"; Py.lit "Preco"; Py.lit "Quantidade"]
                 [object; object; number]
                 [[VStr (Py.lit "Mouse"); VStr (Py.lit "R$ 10,50"); VNum 2];
                  [VStr (Py.lit "iPhone 15"); VStr (Py.lit "R$ 20"); VNaN];
                  [VStr (Py.lit "Teclado"); VStr (Py.lit "gratis"); VNum 1];
                  [VStr (Py.lit "Monitor"); VStr (Py.lit "30"); VNum 4]] in
  getitem (@clean_and_coerce Ref.lib df) (Py.lit "Preco")
  = mkSeries number [VNum (10 + (50 # 100)); VNum 20; VNaN; VNum 30].
Proof.
  intros df.
  rewrite (@coercion_is_per_text_column Ref.lib df (Py.lit "Preco")).
  - reflexivity.
  - split; [|split].
    + repeat constructor; simpl; intuition discriminate.
    + reflexivity.
    + repeat constructor.
  - simpl. auto.
Defined.

(** ** The threshold of the coercion *)

Section ThresholdFacts.

Context {L : Lib}.

Lemma notna_sum_le (l : list float) : notna_sum l <= List.length l.
Proof. unfold notna_sum. apply filter_length_le. Qed.

Lemma valid_ratio_bounds (series : Series) :
  (0 <= valid_ratio series)%Q /\ (valid_ratio series <= 1)%Q.
Proof.
  unfold valid_ratio.
  pose proof (notna_sum_le (List.map converted_cell (s_values series))) as H.
  rewrite length_map in H.
  set (k := notna_sum (List.map converted_cell (s_values series))) in *.
  set (n := List.length (s_values series)) in *.
  unfold Qle. cbn [Qnum Qden].
  rewrite <- positive_nat_Z, Nat2Pos.id by lia. split; lia.
Qed.

(** X4. The ratio of parsed cells lies between 0 and 1 for every column.
    So a threshold above 1 never converts a column, a threshold of 0 or
    less always does, and a column converted at one threshold is converted
    at every lower one; whichever way, the column keeps its length. *)
Theorem coerce_threshold_behaviour (series : Series) :
  ((0 <= valid_ratio series)%Q /\ (valid_ratio series <= 1)%Q)
  /\ (forall threshold, (1 < threshold)%Q ->
        coerce_numeric_if_majority series threshold = series)
  /\ (forall threshold, (threshold <= 0)%Q ->
        coerce_numeric_if_majority series threshold
        = mkSeries number (List.map of_float (List.map converted_cell (s_values series))))
  /\ (forall t1 t2, (t1 <= t2)%Q -> (t2 <= valid_ratio series)%Q ->
        coerce_numeric_if_majority series t1
        = mkSeries number (List.map of_float (List.map converted_cell (s_values series)))
        /\ coerce_numeric_if_majority series t2 = coerce_numeric_if_majority series t1)
  /\ (forall threshold,
        List.length (s_values (coerce_numeric_if_majority series threshold))
        = List.length (s_values series)).
Proof.
  destruct (valid_ratio_bounds series) as (H0 & H1).
  split; [now split|]. split; [|split; [|split]].
  - intros th Hth. unfold coerce_numeric_if_majority.
    destruct (Qle_bool th (valid_ratio series)) eqn:E; [|reflexivity].
    apply Qle_bool_iff in E. exfalso.
    apply (Qlt_not_le _ _ Hth). now apply (Qle_trans _ (valid_ratio series)).
  - intros th Hth. unfold coerce_numeric_if_majority.
    destruct (Qle_bool th (valid_ratio series)) eqn:E; [reflexivity|].
    assert (Hle : (th <= valid_ratio series)%Q) by now apply (Qle_trans _ 0).
    apply Qle_bool_iff in Hle. congruence.
  - intros t1 t2 Hle H2. unfold coerce_numeric_if_majority.
    assert (H : (t1 <= valid_ratio series)%Q) by now apply (Qle_trans _ t2).
    apply Qle_bool_iff in H. apply Qle_bool_iff in H2. now rewrite H, H2.
  - intros th. apply coerce_length.
Qed.

(** X5. The number parser receives the text of the cell cleaned up: every
    comma has become a period, the digits, periods and minus signs stand as
    they were and in their order, and every other character is gone.  That
    text is determined by the cell, holds nothing but digits, periods and
    minus signs, and is no longer than the text of the cell.  The
    clean-up works character by character, and "R$ 1,5" is parsed as
    "1.5". *)
Theorem parser_input_alphabet (v : value) :
  let s := comma_to_period (strip_non_numeric (astype_str v)) in
  converted_cell v = to_numeric s
  /\ cleaned (astype_str v) s
  /\ (forall t, cleaned (astype_str v) t -> t = s)
  /\ Forall (fun c => re_digit c = true \/ c = 46%N \/ c = 45%N) s
  /\ ~ In 44%N s
  /\ List.length s <= List.length (astype_str v)
  /\ (forall a b, comma_to_period (strip_non_numeric (a ++ b))
                  = comma_to_period (strip_non_numeric a)
                    ++ comma_to_period (strip_non_numeric b))
  /\ comma_to_period (strip_non_numeric [44%N]) = [46%N]
  /\ (re_digit 36%N = false -> re_digit 82%N = false -> re_digit 32%N = false ->
      re_digit 49%N = true -> re_digit 53%N = true ->
      comma_to_period (strip_non_numeric (Py.lit "R$ 1,5")) = Py.lit "1.5").
Proof.
  cbn zeta. split; [reflexivity|]. split; [apply cleaned_clean_up|].
  split; [intros t Ht; exact (cleaned_functional Ht (cleaned_clean_up _))|].
  unfold comma_to_period, strip_non_numeric, Py.comma, Py.period, Py.minus.
  split; [|split; [|split; [|split; [|split]]]].
  - apply Forall_forall. intros c Hc. apply in_map_iff in Hc as (c0 & Ec & Hc0).
    apply filter_In in Hc0 as (_ & Hn). unfold numeric_char in Hn.
    unfold Py.comma, Py.period, Py.minus in Hn.
    destruct (N.eqb c0 44) eqn:E; subst c; [auto|].
    apply N.eqb_neq in E.
    apply orb_true_iff in Hn as [Hn|Hn]; [|apply N.eqb_eq in Hn; auto].
    apply orb_true_iff in Hn as [Hn|Hn]; [|congruence].
    apply orb_true_iff in Hn as [Hn|Hn]; [auto|apply N.eqb_eq in Hn; auto].
  - intros Hin. apply in_map_iff in Hin as (c0 & Ec & _).
    destruct (N.eqb c0 44) eqn:E; [discriminate Ec|].
    apply N.eqb_neq in E. congruence.
  - rewrite length_map. apply filter_length_le.
  - intros a b. now rewrite filter_app, map_app.
  - cbn [filter]. unfold numeric_char, Py.comma. change (N.eqb 44 44) with true.
    now rewrite orb_true_r.
  - intros H36 H82 H32 H49 H53.
    assert (N82 : numeric_char 82%N = false) by (unfold numeric_char; now rewrite H82).
    assert (N36 : numeric_char 36%N = false) by (unfold numeric_char; now rewrite H36).
    assert (N32 : numeric_char 32%N = false) by (unfold numeric_char; now rewrite H32).
    assert (N49 : numeric_char 49%N = true) by (unfold numeric_char; now rewrite H49).
    assert (N53 : numeric_char 53%N = true) by (unfold numeric_char; now rewrite H53).
    assert (N44 : numeric_char 44%N = true).
    { unfold numeric_char. apply orb_true_iff. left. apply orb_true_iff. now right. }
    change (Py.lit "R$ 1,5") with [82; 36; 32; 49; 44; 53]%N.
    cbn [filter]. rewrite N82, N36, N32, N49, N44, N53. reflexivity.
Qed.

End ThresholdFacts.

(** ** More on the roles *)

Lemma contains_in_empty (k : Py.str) : Py.contains k [] = true -> k = [].
Proof. destruct k; [reflexivity | discriminate]. Qed.

Lemma find_app_first {A} (f : A -> bool) (l l' : list A) :
  find f (l ++ l') = match find f l with
                     | Some x => Some x
                     | None => find f l'
                     end.
Proof.
  induction l as [|a l IH]; simpl; [reflexivity|]. destruct (f a); [reflexivity | exact IH].
Qed.

Section RoleMore.

Context {L : Lib}.

Lemma first_match_nonempty (keywords cols : list Py.str) (name : Py.str) :
  lower [] = [] -> Forall (fun k => k <> []) keywords ->
  first_match keywords cols = Some name -> name <> [].
Proof.
  intros Hlower Hk Hfind ->. unfold first_match in Hfind.
  apply find_some in Hfind as (_ & Hkw). unfold has_keyword in Hkw.
  apply existsb_exists in Hkw as (k & Hin & Hc). rewrite Hlower in Hc.
  apply contains_in_empty in Hc. now apply (proj1 (Forall_forall _ _) Hk k Hin).
Qed.

Lemma truthy_of_nonempty (o : option Py.str) :
  (forall name, o = Some name -> name <> []) -> Py.truthy o = o.
Proof.
  destruct o as [[|c s]|]; simpl; intros H; try reflexivity.
  exfalso. now apply (H []).
Qed.

(** X6. A column chosen for a role never has the empty name, lowering the
    empty string giving the empty string: so the tests [if value_col:],
    [if date_col and value_col:] and [if cat_col:] hold exactly when a
    column was found, and never skip a section because of the name of the
    column. *)
Theorem detected_roles_are_truthy (df : DataFrame) :
  lower [] = [] ->
  let '(value_col, date_col, cat_col) := detectar_colunas df in
  Py.truthy value_col = value_col
  /\ Py.truthy date_col = date_col
  /\ Py.truthy cat_col = cat_col.
Proof.
  intros Hlower. unfold detectar_colunas.
  repeat split; apply truthy_of_nonempty; intros name Hname;
    (eapply first_match_nonempty; [exact Hlower | | exact Hname]);
    repeat constructor; discriminate.
Qed.

(** X7. First match wins: when columns are added to the right of a table,
    a role that had a column keeps it, and a role that had none gets the
    first matching column among the added ones. *)
Theorem roles_stable_when_columns_are_appended (df df' : DataFrame) (extra : list Py.str) :
  columns df' = columns df ++ extra ->
  let '(value_col, date_col, cat_col) := detectar_colunas df in
  detectar_colunas df'
  = (match value_col with Some c => Some c | None => first_match value_keywords extra end,
     match date_col with Some c => Some c | None => first_match date_keywords extra end,
     match cat_col with Some c => Some c | None => first_match category_keywords extra end).
Proof.
  intros E. unfold detectar_colunas, first_match. rewrite E, !find_app_first. reflexivity.
Qed.

End RoleMore.

Lemma detected_roles_are_truthy_witness :
  Py.truthy (fst (fst (@detectar_colunas Ref.lib Sample.vendas)))
  = Some (Py.lit "Total").
Proof.
  pose proof (@detected_roles_are_truthy Ref.lib Sample.vendas eq_refl) as H.
  destruct (@detectar_colunas Ref.lib Sample.vendas) as ((v, d), c) eqn:E.
  destruct H as (Hv & _). cbn [fst]. rewrite Hv.
  vm_compute in E. now injection E as <- _ _.
Defined.

Lemma roles_stable_witness :
  @detectar_colunas Ref.lib
    (mkDF (columns Sample.loja ++ [Py.lit "Valor"; Py.lit "Produto"]) [] [])
  = (Some (Py.lit "Valor"), None, Some (Py.lit "Categoria")).
Proof.
  rewrite (@roles_stable_when_columns_are_appended Ref.lib Sample.loja
             (mkDF (columns Sample.loja ++ [Py.lit "Valor"; Py.lit "Produto"]) [] [])
             [Py.lit "Valor"; Py.lit "Produto"] eq_refl).
  reflexivity.
Defined.

(** ** What the cleaner keeps and what it removes *)

Lemma str_eqb_refl (s : Py.str) : Py.str_eqb s s = true.
Proof. unfold Py.str_eqb. destruct (list_eq_dec N.eq_dec s s); congruence. Qed.

Lemma value_eqb_refl (v : value) : value_eqb v v = true.
Proof.
  destruct v as [s|x|t|]; simpl.
  - apply str_eqb_refl.
  - apply Qeq_bool_iff. reflexivity.
  - unfold ts_eqb. now rewrite !Z.eqb_refl.
  - reflexivity.
Qed.

Lemma row_eqb_refl (r : row) : row_eqb r r = true.
Proof. induction r as [|v r IH]; simpl; [reflexivity|]. now rewrite value_eqb_refl. Qed.

Lemma value_eqb_isna (a b : value) : value_eqb a b = true -> isna a = isna b.
Proof. destruct a, b; simpl; congruence. Qed.

Lemma row_eqb_all_missing (r r' : row) :
  row_eqb r r' = true -> all_missing r = all_missing r'.
Proof.
  revert r'. induction r as [|a r IH]; intros [|b r']; simpl; try discriminate; [reflexivity|].
  intros H. apply andb_true_iff in H as (Hv & Hr).
  now rewrite (@value_eqb_isna _ _ Hv), (IH _ Hr).
Qed.

Lemma distinct_from_not_seen (seen l : list row) (r : row) :
  distinct_from seen l -> In r l -> existsb (row_eqb r) seen = false.
Proof.
  revert seen. induction l as [|x t IH]; intros seen; simpl; [intros _ []|].
  intros (E & H) [<-|Hin]; [exact E|].
  specialize (IH _ H Hin). simpl in IH. now apply orb_false_iff in IH.
Qed.

(** In a list of distinct rows a later row never equals an earlier one. *)
Lemma distinct_from_pairwise (seen l : list row) (i j : nat) (r r' : row) :
  distinct_from seen l -> i < j ->
  nth_error l i = Some r -> nth_error l j = Some r' -> row_eqb r' r = false.
Proof.
  revert seen i j. induction l as [|x t IH]; intros seen i j Hd Hij Hi Hj.
  - now destruct i.
  - destruct Hd as (_ & Hd). destruct j as [|j]; [lia|]. cbn [nth_error] in Hj.
    destruct i as [|i].
    + cbn [nth_error] in Hi. injection Hi as ->.
      apply nth_error_In in Hj.
      pose proof (@distinct_from_not_seen _ _ _ Hd Hj) as H. simpl in H.
      now apply orb_false_iff in H.
    + cbn [nth_error] in Hi. eapply (IH (x :: seen) i j); [exact Hd | lia | exact Hi | exact Hj].
Qed.

(** Every row is seen already or has an equal row among those kept. *)
Lemma drop_duplicates_covers (seen l : list row) (r : row) :
  In r l ->
  existsb (row_eqb r) seen = true
  \/ exists r', In r' (drop_duplicates_from seen l) /\ row_eqb r r' = true.
Proof.
  revert seen. induction l as [|x t IH]; intros seen; simpl; [intros []|].
  intros [<-|Hin].
  - destruct (existsb (row_eqb x) seen) eqn:E; [now left|].
    right. exists x. split; [now left | apply row_eqb_refl].
  - destruct (existsb (row_eqb x) seen) eqn:E.
    + now apply IH.
    + destruct (IH (x :: seen) Hin) as [H|(r' & Hr' & He)].
      * simpl in H. apply orb_true_iff in H as [H|H]; [|now left].
        right. exists x. split; [now left | exact H].
      * right. exists r'. split; [now right | exact He].
Qed.

(** X8. The cleaned table has the columns and dtypes of the table read; its
    rows are rows of that table in their order; none of them is entirely
    missing and no two of them are equal; and every row read that is not
    entirely missing has an equal row among them: nothing but repeats and
    empty rows is lost. *)
Theorem clean_rows_keeps_one_of_each (df : DataFrame) :
  let out := rows (clean_rows df) in
  (columns (clean_rows df) = columns df /\ dtypes (clean_rows df) = dtypes df)
  /\ subsequence out (rows df)
  /\ (forall r, In r out -> all_missing r = false)
  /\ (forall i j r r', i < j -> nth_error out i = Some r -> nth_error out j = Some r' ->
        row_eqb r' r = false)
  /\ (forall r, In r (rows df) -> all_missing r = false ->
        exists r', In r' out /\ row_eqb r r' = true).
Proof.
  intros out. split; [now split|]. split; [apply clean_rows_subsequence|].
  subst out. unfold clean_rows, reset_index, dropna_all, drop_duplicates, with_rows.
  cbn [rows]. split; [|split].
  - intros r Hin. apply filter_In in Hin as (_ & H). now apply negb_true_iff in H.
  - intros i j r r' Hij Hi Hj.
    eapply (@distinct_from_pairwise [] _ i j); [|exact Hij|exact Hi|exact Hj].
    apply distinct_filter, drop_duplicates_distinct.
  - intros r Hin Hr. destruct (@drop_duplicates_covers [] _ _ Hin) as [H|(r' & Hr' & He)];
      [discriminate|].
    exists r'. split; [|exact He]. apply filter_In. split; [exact Hr'|].
    now rewrite <- (@row_eqb_all_missing _ _ He), Hr.
Qed.

Lemma drop_duplicates_app (seen l e : list row) :
  drop_duplicates_from seen (l ++ e)
  = drop_duplicates_from seen l
    ++ drop_duplicates_from (rev (drop_duplicates_from seen l) ++ seen) e.
Proof.
  revert seen. induction l as [|x t IH]; intros seen; simpl; [reflexivity|].
  destruct (existsb (row_eqb x) seen); [apply IH|].
  simpl. rewrite IH, <- app_assoc. reflexivity.
Qed.

Lemma drop_duplicates_all_seen (seen e : list row) :
  Forall (fun r => existsb (row_eqb r) seen = true) e -> drop_duplicates_from seen e = [].
Proof.
  induction 1 as [|r e Hr _ IH]; simpl; [reflexivity|]. now rewrite Hr.
Qed.

Lemma existsb_incl {A} (f : A -> bool) (l l' : list A) :
  incl l l' -> existsb f l = true -> existsb f l' = true.
Proof.
  intros Hincl H. apply existsb_exists in H as (x & Hx & Hf).
  apply existsb_exists. exists x. auto.
Qed.

Lemma filter_all {A} (p : A -> bool) (l : list A) :
  (forall x, In x l -> p x = true) -> filter p l = l.
Proof.
  induction l as [|a l IH]; simpl; intros H; [reflexivity|].
  rewrite (H a (or_introl eq_refl)). f_equal. apply IH. auto.
Qed.

(** X9. Take a table without repeated and without empty rows and append
    rows that each equal a row of it, as the appended head of the generated
    test file: cleaning gives back exactly the rows of the table, so the
    rows removed are as many as were appended. *)
Theorem appended_copies_are_removed (df : DataFrame) (extra : list row) :
  rows (clean_rows df) = rows df ->
  Forall (fun r => existsb (row_eqb r) (rows df) = true) extra ->
  let doubled := with_rows df (rows df ++ extra) in
  rows (clean_rows doubled) = rows df
  /\ len doubled - len (clean_rows doubled) = List.length extra
  /\ forall k, rows (clean_rows (with_rows df (rows df ++ firstn k (rows df)))) = rows df.
Proof.
  intros Hclean Hextra.
  assert (Hd : distinct_from [] (rows df)).
  { rewrite <- Hclean. unfold clean_rows, reset_index, dropna_all, drop_duplicates, with_rows.
    cbn [rows]. apply distinct_filter, drop_duplicates_distinct. }
  assert (Hm : forall r, In r (rows df) -> negb (all_missing r) = true).
  { intros r Hin. rewrite <- Hclean in Hin.
    unfold clean_rows, reset_index, dropna_all, drop_duplicates, with_rows in Hin.
    cbn [rows] in Hin. now apply filter_In in Hin. }
  assert (Hgen : forall e, Forall (fun r => existsb (row_eqb r) (rows df) = true) e ->
                   rows (clean_rows (with_rows df (rows df ++ e))) = rows df).
  { intros e He. unfold clean_rows, reset_index, dropna_all, drop_duplicates, with_rows.
    cbn [rows]. rewrite drop_duplicates_app, (@distinct_is_fixed _ _ Hd).
    rewrite drop_duplicates_all_seen, app_nil_r; [now apply filter_all|].
    eapply Forall_impl; [|exact He]. cbn beta. intros r Hr.
    apply (@existsb_incl _ _ (rows df)); [|exact Hr].
    intros x Hx. apply in_or_app. left. now apply -> in_rev. }
  intros doubled. split; [now apply Hgen|]. split.
  - unfold len. subst doubled. rewrite (Hgen extra Hextra). cbn [rows with_rows].
    rewrite length_app. lia.
  - intros k. apply Hgen. apply Forall_forall. intros r Hr.
    apply existsb_exists. exists r. split; [|apply row_eqb_refl].
    rewrite <- (firstn_skipn k (rows df)). apply in_or_app. now left.
Qed.

Lemma appended_copies_witness :
  let df := clean_rows Sample.sujo in
  len (with_rows df (rows df ++ firstn 1 (rows df)))
  - len (clean_rows (with_rows df (rows df ++ firstn 1 (rows df))))
  = 1.
Proof.
  intros df.
  destruct (@appended_copies_are_removed df (firstn 1 (rows df))) as (_ & H & _).
  - reflexivity.
  - repeat constructor.
  - exact H.
Defined.

Section CleanerReport.

Context {L : Lib}.

(** X10. When [clean_csv] reports success, the input was read with
    semicolon, decimal comma and utf-8, the cleaned table was written at
    the absolute path of [outputs/<name>], which the report names, the rows
    after are no more than the rows before, and before = after + removed.
    When it reports a failure, the message is that of the read or of the
    write that failed; if it was the read, no write was attempted and the
    world is as it was. *)
Theorem clean_csv_report (w w' : World) (file_path output_name : Py.str) (s : text) :
  clean_csv w file_path output_name = inr (w', s) ->
  let utf8 := mkOptions (Some (Py.lit ";")) (Py.lit ",") (Py.lit "utf-8") false None in
  let out := abspath (Py.lit "outputs/" ++ output_name) in
  (exists df_raw,
     read_csv w file_path utf8 = inr df_raw
     /\ to_csv w out (clean_rows df_raw) = inr w'
     /\ s = [CsvLimpo out (len df_raw) (len (clean_rows df_raw))
                      (len df_raw - len (clean_rows df_raw))]
     /\ len (clean_rows df_raw) <= len df_raw
     /\ len df_raw = len (clean_rows df_raw) + (len df_raw - len (clean_rows df_raw)))
  \/ (exists e,
        s = [ErroLimpeza (exn_str e)]
        /\ ((read_csv w file_path utf8 = inl e /\ w' = w)
            \/ exists df_raw,
                 read_csv w file_path utf8 = inr df_raw
                 /\ to_csv w out (clean_rows df_raw) = inl e)).
Proof.
  intros Hrun utf8 out. revert Hrun.
  change utf8 with (semicolon_options (Py.lit "utf-8")).
  change out with (output_path output_name). clear utf8 out.
  unfold clean_csv, clean_body.
  destruct (read_csv w file_path (semicolon_options (Py.lit "utf-8"))) as [e|df_raw] eqn:R;
    cbn [bind try_except ret].
  - intros E. injection E as <- <-. right. exists e. auto.
  - destruct (to_csv w (output_path output_name) (clean_rows df_raw)) as [e|w1] eqn:W;
      cbn [bind try_except ret]; intros E; injection E as <- <-.
    + right. exists e. split; [reflexivity|]. right. now exists df_raw.
    + left. exists df_raw.
      pose proof (subsequence_length (clean_rows_subsequence df_raw)) as Hle.
      fold (len (clean_rows df_raw)) (len df_raw) in Hle.
      repeat split; auto. lia.
Qed.

End CleanerReport.

(** The table with a repeated and an empty row: four rows read, two
    written at /srv/outputs/cleaned.csv. *)
Lemma clean_csv_report_witness :
  let out := Py.lit "/srv/outputs/cleaned.csv" in
  exists df_raw,
    @read_csv Ref.lib Sample.sujo_store (Py.lit "sujo.csv")
              (mkOptions (Some (Py.lit ";")) (Py.lit ",") (Py.lit "utf-8") false None)
    = inr df_raw
    /\ @to_csv Ref.lib Sample.sujo_store out (clean_rows df_raw)
       = inr ((out, Ref.CsvFile (Py.lit "utf-8") (clean_rows Sample.sujo)) :: Sample.sujo_store)
    /\ len (clean_rows df_raw) <= len df_raw.
Proof.
  intros out.
  destruct (@clean_csv_report Ref.lib Sample.sujo_store
              ((out, Ref.CsvFile (Py.lit "utf-8") (clean_rows Sample.sujo)) :: Sample.sujo_store)
              (Py.lit "sujo.csv") (Py.lit "cleaned.csv")
              [CsvLimpo out 4 2 2] eq_refl)
    as [(df_raw & R & W & _ & Hle & _) | (e & E & _)].
  - exists df_raw. split; [exact R|]. split; [exact W | exact Hle].
  - discriminate E.
Defined.

(** ** The diagnosis *)

Lemma round_half_even_range (x : Q) (lo hi : Z) :
  (inject_Z lo <= x)%Q -> (x <= inject_Z hi)%Q ->
  (lo <= round_half_even x <= hi)%Z.
Proof.
  intros Hlo Hhi. unfold round_half_even.
  pose proof (Qfloor_le x) as Hf. pose proof (Qlt_floor x) as Hc.
  assert (H1 : (lo <= Qfloor x)%Z).
  { assert (H : (inject_Z lo < inject_Z (Qfloor x + 1))%Q)
      by (eapply Qle_lt_trans; eassumption).
    rewrite <- Zlt_Qlt in H. lia. }
  assert (H2 : (Qfloor x <= hi)%Z).
  { rewrite Zle_Qle. eapply Qle_trans; eassumption. }
  assert (H3 : Qfloor x = hi -> Qcompare (x - inject_Z (Qfloor x)) (1 # 2) = Lt).
  { intros E. apply Qlt_alt. rewrite E.
    apply Qle_lt_trans with (y := 0%Q); [|reflexivity].
    unfold Qminus. rewrite <- (Qplus_opp_r (inject_Z hi)).
    apply Qplus_le_compat; [exact Hhi | apply Qle_refl]. }
  destruct (Qcompare (x - inject_Z (Qfloor x)) (1 # 2)) eqn:E.
  - destruct (Z.even (Qfloor x)); [lia|].
    destruct (Z.eq_dec (Qfloor x) hi) as [Eh|Eh]; [specialize (H3 Eh); congruence | lia].
  - lia.
  - destruct (Z.eq_dec (Qfloor x) hi) as [Eh|Eh]; [specialize (H3 Eh); congruence | lia].
Qed.

Lemma round1_range (x : Q) :
  (0 <= x)%Q -> (x <= 100)%Q -> (0 <= round1 x)%Q /\ (round1 x <= 100)%Q.
Proof.
  intros H0 H100. unfold round1.
  destruct (@round_half_even_range (x * 10)%Q 0%Z 1000%Z) as (Hlo & Hhi).
  - change (inject_Z 0%Z) with (0 * 10)%Q. apply Qmult_le_compat_r; [exact H0 | discriminate].
  - change (inject_Z 1000%Z) with (100 * 10)%Q. apply Qmult_le_compat_r; [exact H100 | discriminate].
  - set (r := round_half_even (x * 10)%Q) in *.
    unfold Qdiv, Qle, Qmult, Qinv, inject_Z. simpl. split; lia.
Qed.

Lemma isna_count_le (df : DataFrame) (col : Py.str) :
  List.length (filter isna (s_values (getitem df col))) <= len df.
Proof. rewrite <- (getitem_length df col). apply filter_length_le. Qed.

Lemma pct_nulo_range (df : DataFrame) (col : Py.str) (p : Q) :
  pct_nulo df col = Some p -> (0 <= p)%Q /\ (p <= 100)%Q.
Proof.
  unfold pct_nulo. pose proof (isna_count_le df col) as Hle.
  set (k := List.length (filter isna (s_values (getitem df col)))) in *.
  destruct (len df) as [|n] eqn:En; [discriminate|].
  intros E. injection E as <-.
  assert (Hd : Zpos (Pos.of_nat (S n)) = Z.of_nat (S n))
    by (rewrite <- positive_nat_Z, Nat2Pos.id; lia).
  apply round1_range; unfold Qle, Qmult; cbn [Qnum Qden]; rewrite ?Pos.mul_1_r;
    change (match n with
            | O => 1%positive
            | S _ => Pos.succ (Pos.of_nat n)
            end) with (Pos.of_nat (S n));
    rewrite Hd; lia.
Qed.

Section InfoFacts.

Context {L : Lib}.

(** X11. When the sample is read, [csv_info] answers with the header and
    one line per column, in the order of the columns, and leaves the files
    as they were.  In each line the share of missing cells is a number
    between 0 and 100, and NaN exactly when the sample has no row; the
    example has at most 30 characters, and is the dash when the column has
    no cell that is not missing. *)
Theorem csv_info_lines (w : World) (file_path : Py.str) (df : DataFrame) :
  read_csv w (expanduser file_path) sample_options = inr df ->
  exists lines,
    csv_info w file_path
    = inr (w, Diagnostico (basename (expanduser file_path)) (List.length (columns df)) :: lines)
    /\ List.length lines = List.length (columns df)
    /\ forall i col, nth_error (columns df) i = Some col ->
         exists pct ex,
           nth_error lines i = Some (LinhaDiagnostico col (s_dtype (getitem df col)) pct ex)
           /\ List.length ex <= 30
           /\ (pct = None <-> len df = 0)
           /\ (forall p, pct = Some p -> (0 <= p)%Q /\ (p <= 100)%Q)
           /\ (Forall (fun v => isna v = true) (s_values (getitem df col)) ->
               ex = em_dash).
Proof.
  intros Hread. unfold csv_info, info_body. rewrite Hread. cbn [bind try_except ret app].
  eexists. split; [reflexivity|]. split; [apply length_map|].
  intros i col Hcol. exists (pct_nulo df col), (firstn 30 (exemplo df col)).
  split; [now rewrite nth_error_map, Hcol|]. split; [apply firstn_le_length|].
  split; [|split].
  - unfold pct_nulo. destruct (len df); split; congruence.
  - apply pct_nulo_range.
  - intros Hall. unfold exemplo.
    destruct (find (fun v => negb (isna v)) (s_values (getitem df col))) as [v|] eqn:E;
      [|reflexivity].
    apply find_some in E as (Hin & Hv).
    rewrite (proj1 (Forall_forall _ _) Hall v Hin) in Hv. discriminate.
Qed.

End InfoFacts.

Lemma csv_info_lines_witness :
  exists lines,
    @csv_info Ref.lib Sample.sujo_store (Py.lit "sujo.csv")
    = inr (Sample.sujo_store, Diagnostico (Py.lit "sujo.csv") 2 :: lines)
    /\ List.length lines = 2.
Proof.
  destruct (@csv_info_lines Ref.lib Sample.sujo_store (Py.lit "sujo.csv") Sample.sujo eq_refl)
    as (lines & E & Hlen & _).
  exists lines. split; [exact E | exact Hlen].
Defined.

(** ** The layout of the report *)

Section LayoutFacts.

Context {L : Lib}.

Lemma resumo_estatistico_layout (df nd : DataFrame) (t : text) :
  resumo_estatistico df = inr (nd, t) ->
  nd = select_dtypes number df
  /\ List.map heading_of t = when (negb (df_empty nd)) HResumo.
Proof.
  unfold resumo_estatistico.
  destruct (negb (df_empty (select_dtypes number df))) eqn:E.
  - destruct (describe _) as [e|d]; [discriminate|]. cbn [bind].
    destruct (to_markdown d) as [e|md]; [discriminate|]. cbn [bind].
    intros H. injection H as <- <-. now rewrite E.
  - intros H. injection H as <- <-. now rewrite E.
Qed.

Lemma financeiro_layout (df : DataFrame) (v : option Py.str) (t : text) :
  financeiro df v = inr t ->
  List.map heading_of t = when (notna (Py.truthy v)) HFinanceiro.
Proof.
  unfold financeiro. destruct (Py.truthy v) as [c|].
  - destruct (series_sum _) as [e|x]; [discriminate|]. cbn [bind].
    destruct (series_mean _) as [e|y]; [discriminate|]. cbn [bind].
    destruct (series_max _) as [e|z]; [discriminate|]. cbn [bind].
    intros H. now injection H as <-.
  - intros H. now injection H as <-.
Qed.

Lemma tendencia_mensal_layout (df df' : DataFrame) (v d : option Py.str)
      (vd : option (list bool)) (mo : option monthly_table) (t : text) :
  tendencia_mensal df v d = inr (df', vd, mo, t) ->
  List.map heading_of t
  = if notna (Py.truthy d) && notna (Py.truthy v)
    then HDatasInvalidas :: when (notna mo) HTendencia
    else [].
Proof.
  unfold tendencia_mensal.
  destruct (Py.truthy d) as [d'|]; [destruct (Py.truthy v) as [v'|]|].
  - destruct (to_datetime _) as [e|dates]; [discriminate|]. cbn [bind].
    destruct (Nat.ltb 0 _).
    + destruct (monthly_trend _ _) as [e|m]; [discriminate|]. cbn [bind].
      destruct (to_markdown m) as [e|md]; [discriminate|]. cbn [bind].
      intros H. now injection H as <- <- <- <-.
    + intros H. now injection H as <- <- <- <-.
  - intros H. now injection H as <- <- <- <-.
  - intros H. now injection H as <- <- <- <-.
Qed.

Lemma top_categorias_layout (df : DataFrame) (v c : option Py.str)
      (tp : option ranking) (t : text) :
  top_categorias df v c = inr (tp, t) ->
  List.map heading_of t = when (notna (Py.truthy c)) HTopDez.
Proof.
  unfold top_categorias. destruct (Py.truthy c) as [c'|]; [destruct (Py.truthy v) as [v'|]|].
  - destruct (top_by_sum _ _ _) as [e|x]; [discriminate|]. cbn [bind].
    destruct (to_markdown _) as [e|md]; [discriminate|]. cbn [bind].
    intros H. now injection H as <- <-.
  - destruct (top_by_count _) as [e|x]; [discriminate|]. cbn [bind].
    destruct (to_markdown _) as [e|md]; [discriminate|]. cbn [bind].
    intros H. now injection H as <- <-.
  - intros H. now injection H as <- <-.
Qed.

Lemma outliers_detectados_layout (df : DataFrame) (v : option Py.str) (t : text) :
  outliers_detectados df v = inr t ->
  List.map heading_of t = when (notna (Py.truthy v)) HOutliers.
Proof.
  unfold outliers_detectados. destruct (Py.truthy v) as [c|].
  - destruct (quantile _ _) as [e|q1]; [discriminate|]. cbn [bind].
    destruct (quantile _ _) as [e|q3]; [discriminate|]. cbn [bind].
    destruct (series_lt _ _) as [e|b]; [discriminate|]. cbn [bind].
    destruct (series_gt _ _) as [e|a]; [discriminate|]. cbn [bind].
    intros H. now injection H as <-.
  - intros H. now injection H as <-.
Qed.

(** X12. A report that is built has its sections in one fixed order, and
    which of them are there is decided by the table alone: the header
    first, with the rows and columns of the loaded table; the statistical
    summary when there are numeric columns and rows; the financial summary
    and the outliers when a value column was found; the count of invalid
    dates when a date and a value column were found, followed by the
    monthly table when there is one; the ranking when a category column was
    found; and last the question, as it was asked.  A role without a column
    only leaves its sections out. *)
Theorem report_layout (w : World) (file_path pergunta : Py.str) (a : analysis) :
  analyze_sections w file_path pergunta = inr a ->
  exists df,
    load_csv_robust w file_path = inr df
    /\ detectar_colunas df = (value_col a, date_col a, cat_col a)
    /\ num_df a = select_dtypes number df
    /\ hd_error (report a)
       = Some (Cabecalho (basename file_path) (strftime_now w (Py.lit "%d/%m/%Y %H:%M"))
                         (len df) (List.length (columns df)))
    /\ last (report a) (Pergunta []) = Pergunta pergunta
    /\ List.map heading_of (report a)
       = [HCabecalho]
         ++ when (negb (df_empty (num_df a))) HResumo
         ++ when (notna (Py.truthy (value_col a))) HFinanceiro
         ++ (if notna (Py.truthy (date_col a)) && notna (Py.truthy (value_col a))
             then HDatasInvalidas :: when (notna (monthly a)) HTendencia
             else [])
         ++ when (notna (Py.truthy (cat_col a))) HTopDez
         ++ when (notna (Py.truthy (value_col a))) HOutliers
         ++ [HPergunta].
Proof.
  unfold analyze_sections.
  destruct (load_csv_robust w file_path) as [e|df]; [discriminate|]. cbn [bind].
  destruct (detectar_colunas df) as ((v, d), c) eqn:Ed.
  destruct (resumo_estatistico df) as [e|(nd, resumo)] eqn:Er; [discriminate|]. cbn [bind].
  destruct (financeiro df v) as [e|fin] eqn:Ef; [discriminate|]. cbn [bind].
  destruct (tendencia_mensal df v d) as [e|(((df', vd), mo), t)] eqn:Et; [discriminate|].
  cbn [bind].
  destruct (top_categorias df' v c) as [e|(tp, r)] eqn:Etop; [discriminate|]. cbn [bind].
  destruct (outliers_detectados df' v) as [e|out] eqn:Eo; [discriminate|]. cbn [bind].
  intros E. injection E as <-. cbn [monthly top date_col value_col cat_col num_df report].
  apply resumo_estatistico_layout in Er as (-> & Hr).
  exists df. split; [reflexivity|]. split; [exact Ed|]. split; [reflexivity|].
  split; [reflexivity|]. split.
  - rewrite !app_assoc, app_comm_cons. apply last_last.
  - cbn [List.map heading_of app]. rewrite !map_app. cbn [List.map heading_of].
    rewrite Hr, (financeiro_layout _ _ Ef), (tendencia_mensal_layout _ _ _ Et),
      (top_categorias_layout _ _ _ Etop), (outliers_detectados_layout _ _ Eo).
    reflexivity.
Qed.

End LayoutFacts.

Lemma report_layout_witness :
  List.map heading_of (report Sample.vendas_analysis)
  = [HCabecalho; HResumo; HFinanceiro; HTopDez; HOutliers; HPergunta].
Proof.
  destruct (@report_layout Ref.lib Sample.vendas_store (Py.lit "vendas.csv") (Py.lit "?")
              Sample.vendas_analysis) as (df & _ & _ & _ & _ & _ & H).
  - vm_compute. reflexivity.
  - rewrite H. reflexivity.
Defined.

(** ** Outliers at the edges *)

Lemma ltb_nan_r (x : spec_float) : F64.ltb x S754_nan = false.
Proof. now destruct x. Qed.

Lemma ltb_nan_l (x : spec_float) : F64.ltb S754_nan x = false.
Proof. reflexivity. Qed.

Lemma one_and_a_half_finite : exists m e, F64.of_Q (3 # 2) = S754_finite false m e.
Proof. eexists. eexists. vm_compute. reflexivity. Qed.

(** A missing quartile makes both fences NaN. *)
Lemma fences_nan (q1 q3 : float) :
  q1 = None \/ q3 = None -> lower_fence q1 q3 = S754_nan /\ upper_fence q1 q3 = S754_nan.
Proof.
  destruct one_and_a_half_finite as (m & e & Hc).
  unfold lower_fence, upper_fence, iqr, one_and_a_half. rewrite Hc.
  intros [-> | ->]; cbn [F64.of_float].
  - split; [reflexivity|]. now destruct (F64.of_float q3).
  - split; now destruct (F64.of_float q1).
Qed.

(** Zeros compare alike whatever their sign. *)
Lemma ltb_zero_r (x : spec_float) (s s' : bool) :
  F64.ltb x (S754_zero s) = F64.ltb x (S754_zero s').
Proof. now destruct x. Qed.

Lemma ltb_zero_l (x : spec_float) (s s' : bool) :
  F64.ltb (S754_zero s) x = F64.ltb (S754_zero s') x.
Proof. now destruct x. Qed.

(** Equal finite quartiles: the interquartile range is zero and both fences
    are the quartile. *)
Lemma fences_collapse (a b : Q) (A x : spec_float) :
  F64.of_Q a = A -> F64.of_Q b = A ->
  (exists s m e, A = S754_finite s m e) \/ (exists s, A = S754_zero s) ->
  F64.ltb x (lower_fence (Some a) (Some b)) = F64.ltb x A
  /\ F64.ltb (upper_fence (Some a) (Some b)) x = F64.ltb A x.
Proof.
  destruct one_and_a_half_finite as (mc & ec & Hc).
  intros Ha Hb HA. unfold lower_fence, upper_fence, iqr, one_and_a_half.
  cbn [F64.of_float]. rewrite Ha, Hb, Hc.
  destruct HA as [(s & m & e & ->) | (s & ->)].
  - assert (E : F64.sub (S754_finite s m e) (S754_finite s m e) = S754_zero false).
    { unfold F64.sub, SFsub. now rewrite Z.sub_diag. }
    rewrite E. split; reflexivity.
  - destruct s; split; try reflexivity; apply ltb_zero_r || apply ltb_zero_l.
Qed.

Lemma filter_none {A} (l : list A) : filter (fun _ => false || false) l = [].
Proof. induction l; simpl; auto. Qed.

Section OutlierEdges.

Context {L : Lib}.

(** X13. On a value column of numbers the outlier section never fails once
    the quartiles are computed; it counts no more rows than the table has
    and names the two fences, computed in float64, exactly when it counts a
    row.  When a quartile is NaN, as over a column without a number, no row
    is counted.  When the two quartiles are the same finite double, the
    interquartile range is zero, both fences are that double, and every
    number strictly below or strictly above it is counted. *)
Theorem outliers_edge_cases (df : DataFrame) (v : Py.str) (q1 q3 : float) :
  v <> [] ->
  Forall numeric (s_values (getitem df v)) ->
  quantile (getitem df v) (1 # 4)%Q = inr q1 ->
  quantile (getitem df v) (3 # 4)%Q = inr q3 ->
  let Q1 := F64.of_float q1 in
  let Q3 := F64.of_float q3 in
  let lo := F64.sub Q1 (F64.mul (F64.of_Q (3 # 2)) (F64.sub Q3 Q1)) in
  let hi := F64.add Q3 (F64.mul (F64.of_Q (3 # 2)) (F64.sub Q3 Q1)) in
  exists n,
    outliers_detectados df (Some v)
    = inr [Outliers n (if Nat.ltb 0 n then Some (lo, hi) else None)]
    /\ n <= len df
    /\ (q1 = None \/ q3 = None -> n = 0)
    /\ (forall a b A, q1 = Some a -> q3 = Some b ->
          F64.of_Q a = A -> F64.of_Q b = A ->
          (exists s m e, A = S754_finite s m e) \/ (exists s, A = S754_zero s) ->
          n = List.length
                (filter (fun c => match c with
                                  | VNum x => F64.ltb (F64.of_Q x) A || F64.ltb A (F64.of_Q x)
                                  | _ => false
                                  end) (s_values (getitem df v)))).
Proof.
  intros Hv Hnum Hq1 Hq3 Q1 Q3 lo hi. unfold outliers_detectados.
  rewrite (truthy_nonempty Hv), Hq1, Hq3. cbn [bind].
  change (lower_fence q1 q3) with lo. change (upper_fence q1 q3) with hi.
  rewrite (series_lt_numeric _ lo Hnum), (series_gt_numeric _ hi Hnum). cbn [bind].
  rewrite count_true_mask_or.
  eexists. split; [reflexivity|]. split; [|split].
  - rewrite <- (getitem_length df v). apply filter_length_le.
  - intros Hnan. destruct (fences_nan Hnan) as (Hlo & Hhi).
    change (lower_fence q1 q3) with lo in Hlo. change (upper_fence q1 q3) with hi in Hhi.
    rewrite Hlo, Hhi.
    rewrite (filter_ext _ (fun _ => false || false)); [now rewrite filter_none|].
    intros c. destruct c; try reflexivity. now rewrite ltb_nan_r.
  - intros a b A Ea Eb HA HB Hfin. subst q1 q3. f_equal. apply filter_ext.
    intros c. destruct c; try reflexivity.
    destruct (@fences_collapse a b A (F64.of_Q x) HA HB Hfin) as (Hlo & Hhi).
    change (lower_fence (Some a) (Some b)) with lo in Hlo.
    change (upper_fence (Some a) (Some b)) with hi in Hhi.
    now rewrite Hlo, Hhi.
Qed.

End OutlierEdges.

(** Four sales of 1 and one of 50: both quartiles are 1, both fences are
    1 = 4503599627370496 * 2^-52, and the sale of 50 is the one outlier. *)
Lemma outliers_edge_witness :
  let df := mkDF [Py.lit "Total"] [number]
              (List.map (fun x => [VNum x]) [1; 1; 50; 1; 1]%Q) in
  @outliers_detectados Ref.lib df (Some (Py.lit "Total"))
  = inr [Outliers 1 (Some (S754_finite false 4503599627370496 (-52),
                           S754_finite false 4503599627370496 (-52)))].
Proof.
  intros df.
  destruct (@outliers_edge_cases Ref.lib df (Py.lit "Total") (Some 1%Q) (Some 1%Q))
    as (n & E & _ & _ & Hn).
  - discriminate.
  - repeat constructor.
  - reflexivity.
  - reflexivity.
  - assert (Hone : n = 1).
    { rewrite (Hn 1%Q 1%Q (F64.of_Q 1) eq_refl eq_refl eq_refl eq_refl).
      - reflexivity.
      - left. vm_compute. eauto. }
    rewrite E, Hone. reflexivity.
Defined.

(** ** The counts of the monthly table *)

Lemma sorted_lt_NoDup (l : list Z) : StronglySorted Z.lt l -> NoDup l.
Proof.
  induction 1 as [|x l _ IH Hall]; constructor; [|exact IH].
  intros Hin. apply (proj1 (Forall_forall _ _) Hall) in Hin. lia.
Qed.

Lemma list_sum_indicator (x : Z) (c : nat) (keys : list Z) :
  NoDup keys -> In x keys ->
  list_sum (List.map (fun k => if Z.eqb x k then c else 0) keys) = c.
Proof.
  induction 1 as [|k keys Hk _ IH]; [intros []|].
  intros Hin. cbn [List.map list_sum fold_right].
  change (fold_right Nat.add 0 ?l) with (list_sum l).
  destruct (Z.eqb_spec x k) as [->|Hne].
  - assert (Hz : list_sum (List.map (fun k0 => if Z.eqb k k0 then c else 0) keys) = 0).
    { clear IH Hin. induction keys as [|k' keys IH']; [reflexivity|].
      cbn [List.map list_sum fold_right]. change (fold_right Nat.add 0 ?l) with (list_sum l).
      destruct (Z.eqb_spec k k') as [->|_]; [exfalso; apply Hk; now left|].
      rewrite IH'; [reflexivity|]. intros H. apply Hk. now right. }
    rewrite Hz. lia.
  - destruct Hin as [->|Hin]; [congruence|]. now rewrite IH.
Qed.

Lemma list_sum_map_plus {A} (f g : A -> nat) (l : list A) :
  list_sum (List.map (fun a => f a + g a) l)
  = list_sum (List.map f l) + list_sum (List.map g l).
Proof.
  induction l as [|a l IH]; [reflexivity|].
  cbn [List.map list_sum fold_right]. change (fold_right Nat.add 0 ?l) with (list_sum l) in *.
  rewrite IH. lia.
Qed.

Lemma group_counts_add_up (keys : list period) (rs : list (period * value)) :
  NoDup keys -> (forall r, In r rs -> In (fst r) keys) ->
  list_sum (List.map (fun k => agg_count (group k rs)) keys) = agg_count (List.map snd rs).
Proof.
  intros Hn. induction rs as [|r rs IH]; intros Hin.
  - unfold group, agg_count. simpl. induction keys as [|k keys IHk]; [reflexivity|].
    inversion Hn; subst. simpl. now apply IHk.
  - assert (Hstep : forall k,
               agg_count (group k (r :: rs))
               = (if Z.eqb (fst r) k then (if negb (isna (snd r)) then 1 else 0) else 0)
                 + agg_count (group k rs)).
    { intros k. unfold group, agg_count, period in *. cbn [filter].
      destruct (Z.eqb (fst r) k); [|reflexivity].
      cbn [List.map filter]. destruct (negb (isna (snd r))); reflexivity. }
    rewrite (map_ext _ _ Hstep), list_sum_map_plus, IH by (intros x Hx; apply Hin; now right).
    rewrite list_sum_indicator; [| exact Hn | apply Hin; now left].
    unfold agg_count. cbn [List.map filter]. destruct (negb (isna (snd r))); reflexivity.
Qed.

Section MonthlyCounts.

Context {L : Lib}.

Lemma month_table_counts (rs : list (period * value)) :
  list_sum (List.map (fun e : period * (float * nat) => snd (snd e)) (month_table rs))
  = agg_count (List.map snd rs).
Proof.
  unfold month_table. rewrite List.map_map. cbn [snd].
  apply group_counts_add_up.
  - apply sorted_lt_NoDup, group_keys_sorted.
  - intros r Hr. apply group_keys_In. now apply in_map.
Qed.

(** X14. On value cells that are numbers the monthly table is always
    built.  Its counts never add up to more than the rows that have a valid
    date and a value, and they add up to exactly that number when the dated
    rows span at most 12 months: every such row is counted in one month and
    in one only. *)
Theorem monthly_counts_add_up (dates : list (option Timestamp)) (vals : list value) :
  Forall numeric vals ->
  let rs := valid_rows dates vals in
  let dated_with_value := agg_count (List.map snd rs) in
  exists m,
    monthly_trend dates vals = inr m
    /\ list_sum (List.map (fun e : period * (float * nat) => snd (snd e)) m)
       <= dated_with_value
    /\ (List.length (group_keys (List.map fst rs)) <= 12 ->
        list_sum (List.map (fun e : period * (float * nat) => snd (snd e)) m)
        = dated_with_value)
    /\ dated_with_value <= List.length dates.
Proof.
  intros Hnum rs total_rows. exists (tail 12 (month_table rs)).
  split; [now apply monthly_trend_numeric|].
  pose proof (month_table_counts rs) as Hall. fold total_rows in Hall.
  split; [|split].
  - rewrite <- Hall. rewrite (tail_split 12 (month_table rs)) at 2.
    rewrite map_app, list_sum_app. lia.
  - intros Hk. rewrite <- Hall. f_equal. f_equal. unfold tail.
    replace (List.length (month_table rs) - 12) with 0; [reflexivity|].
    unfold month_table. rewrite length_map. lia.
  - subst total_rows. unfold agg_count.
    eapply Nat.le_trans; [apply filter_length_le|]. rewrite length_map. subst rs.
    unfold valid_rows. clear. revert vals.
    induction dates as [|d ds IH]; intros vals; [simpl; lia|].
    destruct vals as [|v vals]; [simpl; lia|].
    cbn [combine flat_map]. rewrite length_app. specialize (IH vals).
    destruct d; cbn [fst List.length]; simpl; lia.
Qed.

End MonthlyCounts.

Lemma monthly_counts_witness :
  let dates := [Some (mkTimestamp 2024 1 5 0); None; Some (mkTimestamp 2024 1 9 0);
                Some (mkTimestamp 2024 2 1 0)] in
  let vals := [VNum 10; VNum 20; VNaN; VNum 30] in
  exists m, @monthly_trend Ref.lib dates vals = inr m
            /\ list_sum (List.map (fun e : period * (float * nat) => snd (snd e)) m) = 2.
Proof.
  intros dates vals.
  destruct (@monthly_counts_add_up Ref.lib dates vals) as (m & E & _ & H & _).
  - repeat constructor.
  - exists m. split; [exact E|]. apply H. vm_compute. lia.
Defined.

(** ** What the caller sees when the file cannot be loaded *)

Section LoadFailure.

Context {L : Lib} {P : Plot L}.

(** X15. A failure of [load_csv_robust] is what [analyze_csv] answers: the
    error line carries the text of that failure, no section of the report
    is built, no chart is drawn and the world is as it was.  For a path
    that does not exist the line reads "Arquivo não encontrado: " and the
    expanded path; for a file that none of the four reads can parse it
    reads "Não foi possível ler o arquivo: " and the text of the failure of
    the last, delimiter-sniffing read. *)
Theorem analyze_csv_reports_load_failure (w : World) (file_path pergunta : Py.str) :
  let p := expanduser file_path in
  let semicolon := fun enc => mkOptions (Some (Py.lit ";")) (Py.lit ",") enc false None in
  let sniffing := mkOptions None (Py.lit ".") (Py.lit "utf-8") true None in
  (forall e, load_csv_robust w file_path = inl e ->
     analyze_csv w file_path pergunta = inr (w, [ErroAnalise (exn_str e)]))
  /\ (path_exists w p = false ->
      analyze_csv w file_path pergunta
      = inr (w, [ErroAnalise (Py.lit "Arquivo n" ++ [227%N] ++ Py.lit "o encontrado: " ++ p)]))
  /\ (forall e1 e2 e3 e4, path_exists w p = true ->
        read_csv w p (semicolon (Py.lit "utf-8")) = inl e1 ->
        read_csv w p (semicolon (Py.lit "latin-1")) = inl e2 ->
        read_csv w p (semicolon (Py.lit "cp1252")) = inl e3 ->
        read_csv w p sniffing = inl e4 ->
        analyze_csv w file_path pergunta
        = inr (w, [ErroAnalise (Py.lit "N" ++ [227%N] ++ Py.lit "o foi poss" ++ [237%N]
                                 ++ Py.lit "vel ler o arquivo: " ++ exn_str e4)])).
Proof.
  intros p semicolon sniffing.
  assert (Hfail : forall e, load_csv_robust w file_path = inl e ->
            analyze_csv w file_path pergunta = inr (w, [ErroAnalise (exn_str e)])).
  { intros e He. unfold analyze_csv, analyze_body, analyze_sections. now rewrite He. }
  split; [exact Hfail|]. split.
  - intros Hex. rewrite (Hfail (Exn FileNotFoundError (not_found_message p))); [reflexivity|].
    unfold load_csv_robust, load_csv_robust_run. fold p. now rewrite Hex.
  - intros e1 e2 e3 e4 Hex R1 R2 R3 R4.
    rewrite (Hfail (Exn ValueError (unreadable_message e4))); [reflexivity|].
    unfold load_csv_robust, load_csv_robust_run. fold p. rewrite Hex. cbn [negb].
    unfold encodings. cbn [try_encodings].
    change (semicolon_options (Py.lit "utf-8")) with (semicolon (Py.lit "utf-8")).
    change (semicolon_options (Py.lit "latin-1")) with (semicolon (Py.lit "latin-1")).
    change (semicolon_options (Py.lit "cp1252")) with (semicolon (Py.lit "cp1252")).
    change sniffing_options with sniffing.
    now rewrite R1, R2, R3, R4.
Qed.

End LoadFailure.

(** A file that is no table at all: the four reads fail and the answer
    carries the text of the last failure. *)
Lemma analyze_csv_reports_load_failure_witness :
  @analyze_csv Ref.lib Ref.plot [(Py.lit "vendas.csv", Ref.Garbage)] (Py.lit "vendas.csv") []
  = inr ([(Py.lit "vendas.csv", Ref.Garbage)],
         [ErroAnalise (Py.lit "N" ++ [227%N] ++ Py.lit "o foi poss" ++ [237%N]
                       ++ Py.lit "vel ler o arquivo: " ++ Py.lit "Error tokenizing data")]).
Proof.
  pose (e := Exn LibraryError (Py.lit "Error tokenizing data")).
  exact (proj2 (proj2 (@analyze_csv_reports_load_failure Ref.lib Ref.plot
                         [(Py.lit "vendas.csv", Ref.Garbage)] (Py.lit "vendas.csv") []))
               e e e e eq_refl eq_refl eq_refl eq_refl eq_refl).
Defined.

(** ** The generated test file *)

Lemma combine_seq_map {A} (f : nat -> A) (a m : nat) :
  combine (seq a m) (List.map f (seq a m)) = List.map (fun i => (i, f i)) (seq a m).
Proof.
  revert a. induction m as [|m IH]; intros a; simpl; [reflexivity|]. now rewrite IH.
Qed.

Lemma loc_assign_rows (sel : nat -> bool) (col : Py.str) (v : value) (df : DataFrame)
      (f : nat -> row) (m : nat) :
  rows df = List.map f (seq 0 m) ->
  rows (Gen.loc_assign sel col v df)
  = List.map (fun i => if sel i then set_nth (index_of col (columns df)) v (f i) else f i)
             (seq 0 m).
Proof.
  intros H. unfold Gen.loc_assign, len. cbn [rows]. rewrite H.
  rewrite length_map, length_seq, combine_seq_map, map_map. reflexivity.
Qed.

Lemma head_rows_le : 500 <= Gen.n.
Proof. apply Nat.leb_le. vm_compute. reflexivity. Qed.

Lemma map_seq_from {A} (f : nat -> A) (a s m : nat) :
  List.map (fun j => f (j - a)) (seq (s + a) m) = List.map f (seq s m).
Proof.
  revert s. induction m as [|m IH]; intros s; simpl; [reflexivity|].
  rewrite Nat.add_sub. f_equal. apply (IH (S s)).
Qed.

Lemma firstn_seq_le (k a m : nat) : k <= m -> firstn k (seq a m) = seq a k.
Proof.
  revert a m. induction k as [|k IH]; intros a m H; [reflexivity|].
  destruct m as [|m]; [lia|]. simpl. f_equal. apply IH. lia.
Qed.

Lemma source_below (j : nat) : j < Gen.n -> source j = j.
Proof. intros H. unfold source. apply Nat.ltb_lt in H. now rewrite H. Qed.

Lemma source_appended (j : nat) : Gen.n <= j -> source j = j - Gen.n.
Proof. intros H. unfold source. apply Nat.ltb_ge in H. now rewrite H. Qed.

Lemma concat_head_rows (df : DataFrame) (f : nat -> row) (k : nat) :
  k <= Gen.n ->
  rows df = List.map f (seq 0 Gen.n) ->
  rows (Gen.concat df (Gen.head k df)) = List.map (fun j => f (source j)) (seq 0 (Gen.n + k)).
Proof.
  intros Hk H. unfold Gen.concat, Gen.head, with_rows. cbn [rows]. rewrite H.
  rewrite seq_app, map_app, firstn_map, firstn_seq_le by exact Hk.
  rewrite <- (map_seq_from f Gen.n 0 k).
  rewrite (@map_ext_in _ _ (fun j => f (source j)) f (seq 0 Gen.n)).
  - rewrite (@map_ext_in _ _ (fun j => f (source j)) (fun j => f (j - Gen.n)) (seq (0 + Gen.n) k));
      [reflexivity|].
    intros j Hj. apply in_seq in Hj. rewrite source_appended; [reflexivity|lia].
  - intros j Hj. apply in_seq in Hj. rewrite source_below; [reflexivity|lia].
Qed.

Lemma generate_columns (d : Gen.draws) : columns (Gen.generate d) = Gen.column_names.
Proof. reflexivity. Qed.

Lemma generate_rows (d : Gen.draws) :
  rows (Gen.generate d) = List.map (generated_row d) (seq 0 (Gen.n + 500)).
Proof.
  unfold Gen.generate. cbv zeta.
  erewrite loc_assign_rows; cycle 1.
  { erewrite loc_assign_rows; cycle 1.
    { erewrite loc_assign_rows; cycle 1.
      { apply concat_head_rows; [exact head_rows_le|].
        erewrite loc_assign_rows; cycle 1.
        { erewrite loc_assign_rows; [reflexivity|]. unfold Gen.frame. cbn [rows]. reflexivity. }
        reflexivity. }
      reflexivity. }
    reflexivity. }
  apply map_ext. intros j.
  change (columns _) with Gen.column_names.
  change (index_of (Py.lit "Status") Gen.column_names) with 9.
  change (index_of (Py.lit "Cidade") Gen.column_names) with 10.
  change (index_of (Py.lit "Quantidade") Gen.column_names) with 6.
  change (index_of (Py.lit "Valor_Unitario") Gen.column_names) with 5.
  change (index_of (Py.lit "Data") Gen.column_names) with 1.
  unfold generated_row, Gen.base_row. cbv zeta.
  destruct (Gen.every 31 j), (Gen.between 500 550 j), (Gen.every 19 j),
    (Gen.every 13 (source j)), (Gen.every 7 (source j)); reflexivity.
Qed.


Lemma column_names_NoDup : NoDup Gen.column_names.
Proof.
  rewrite <- (eq_refl : nodup (list_eq_dec N.eq_dec) Gen.column_names = Gen.column_names).
  apply NoDup_nodup.
Qed.

(** X16. Whatever the random draws, the table the generator writes has the
    twelve columns of the source, one cell per column in every row and
    [n + 500 = 20500] rows, the number the script prints.  Row [j] is built
    from the draws of row [j] for [j < n] and of row [j - n] for the 500
    appended rows; the marks set before the copy (the invalid date on every
    7th row, the missing unit value on every 13th) follow the row copied,
    while those set after it ("dez" on every 19th row, the empty status on
    every 31st, the lower-case city on rows 500 to 550, both included)
    follow the position [j] in the final table. *)
Theorem generated_table (d : Gen.draws) :
  columns (Gen.generate d) = Gen.column_names
  /\ well_formed (Gen.generate d)
  /\ len (Gen.generate d) = Gen.n + 500
  /\ Z.of_nat (len (Gen.generate d)) = 20500%Z
  /\ forall j, j < Gen.n + 500 ->
       nth_error (rows (Gen.generate d)) j = Some (generated_row d j).
Proof.
  assert (Hlen : len (Gen.generate d) = Gen.n + 500).
  { unfold len. now rewrite generate_rows, length_map, length_seq. }
  split; [reflexivity|]. split; [|split; [exact Hlen|split]].
  - split; [exact column_names_NoDup|]. split; [reflexivity|].
    rewrite generate_rows. apply Forall_forall. intros r Hr.
    apply in_map_iff in Hr as (j & <- & _). reflexivity.
  - rewrite Hlen. vm_compute. reflexivity.
  - intros j Hj. rewrite generate_rows.
    rewrite (nth_error_map (generated_row d)), nth_error_seq.
    apply Nat.ltb_lt in Hj. rewrite Hj. reflexivity.
Qed.

Lemma id_differs (i i' : nat) :
  value_eqb (VNum (inject_Z (Z.of_nat (i + 1)))) (VNum (inject_Z (Z.of_nat (i' + 1)))) = true ->
  i = i'.
Proof.
  cbn [value_eqb]. intros H. apply Qeq_bool_iff in H. unfold Qeq in H. cbn in H. lia.
Qed.

Lemma generated_row_source (d : Gen.draws) (j j' : nat) :
  row_eqb (generated_row d j) (generated_row d j') = true -> source j = source j'.
Proof.
  unfold generated_row. cbv zeta. cbn [row_eqb]. intros H.
  apply andb_true_iff in H as (H & _). now apply id_differs.
Qed.

Lemma generated_row_not_missing (d : Gen.draws) (j : nat) :
  all_missing (generated_row d j) = false.
Proof. reflexivity. Qed.

Lemma distinct_map_seq (F : nat -> row) (lo hi : nat) :
  (forall j j', lo <= j < hi -> lo <= j' < hi -> row_eqb (F j) (F j') = true -> j = j') ->
  forall m a idx, lo <= a -> a + m <= hi -> (forall x, In x idx -> lo <= x < a) ->
  distinct_from (List.map F idx) (List.map F (seq a m)).
Proof.
  intros Hinj. induction m as [|m IH]; intros a idx Hlo Hhi Hidx; simpl; [exact I|]. split.
  - destruct (existsb (row_eqb (F a)) (List.map F idx)) eqn:E; [|reflexivity].
    apply existsb_exists in E as (r & Hr & E). apply in_map_iff in Hr as (x & <- & Hx).
    apply Hinj in E; [|lia|specialize (Hidx x Hx); lia].
    specialize (Hidx x Hx). lia.
  - apply (IH (S a) (a :: idx)); [lia|lia|].
    intros x [<-|Hx]; [lia|]. specialize (Hidx x Hx). lia.
Qed.

Lemma drop_duplicates_filter (l seen kept : list row) :
  distinct_from kept l ->
  drop_duplicates_from (kept ++ seen) l
  = filter (fun r => negb (existsb (row_eqb r) seen)) l.
Proof.
  revert kept. induction l as [|r t IH]; intros kept; simpl; [reflexivity|].
  intros (E & H). rewrite existsb_app, E. cbn [orb].
  destruct (existsb (row_eqb r) seen); cbn [negb].
  - apply IH. apply (distinct_weaken (r :: kept)); [|exact H].
    intros x Hx. simpl. now rewrite Hx, orb_true_r.
  - f_equal. apply (IH (r :: kept)). exact H.
Qed.

Lemma drop_duplicates_unseen (l seen : list row) :
  distinct_from [] l ->
  drop_duplicates_from seen l = filter (fun r => negb (existsb (row_eqb r) seen)) l.
Proof. intros H. exact (@drop_duplicates_filter l seen [] H). Qed.

Lemma seq_from (a m : nat) : seq a m = List.map (fun i => a + i) (seq 0 m).
Proof.
  revert a. induction m as [|m IH]; intros a; [reflexivity|].
  cbn [seq List.map]. rewrite Nat.add_0_r. f_equal.
  rewrite (IH (S a)), <- seq_shift, map_map. apply map_ext. intros i. lia.
Qed.

Lemma filter_length_mono {A} (p q : A -> bool) (l : list A) :
  (forall x, In x l -> p x = true -> q x = true) ->
  List.length (filter p l) <= List.length (filter q l).
Proof.
  induction l as [|a l IH]; intros H; simpl; [lia|].
  assert (IH' := IH (fun x Hx => H x (or_intror Hx))).
  destruct (p a) eqn:Ep.
  - rewrite (H a (or_introl eq_refl) Ep). simpl. lia.
  - destruct (q a); simpl; lia.
Qed.

Lemma str_eqb_sym (a b : Py.str) : Py.str_eqb a b = Py.str_eqb b a.
Proof.
  unfold Py.str_eqb. destruct (list_eq_dec N.eq_dec a b), (list_eq_dec N.eq_dec b a); congruence.
Qed.

Lemma far_rows_le : 550 < Gen.n.
Proof. apply Nat.ltb_lt. vm_compute. reflexivity. Qed.

Lemma nth_map_seq {A} (F : nat -> A) (m j : nat) (dflt : A) :
  j < m -> nth j (List.map F (seq 0 m)) dflt = F j.
Proof.
  intros H. rewrite (nth_indep _ dflt (F 0)) by now rewrite length_map, length_seq.
  rewrite map_nth, seq_nth by exact H. reflexivity.
Qed.

Lemma still_a_copy_rows (d : Gen.draws) (i : nat) :
  i < 500 ->
  still_a_copy d i = row_eqb (generated_row d (Gen.n + i)) (generated_row d i).
Proof.
  intros Hi. unfold still_a_copy. cbv zeta. rewrite generate_rows.
  assert (Hn := head_rows_le).
  rewrite !nth_map_seq by lia. reflexivity.
Qed.

(** How an appended row compares with the row it copies. *)
Lemma still_a_copy_spec (d : Gen.draws) (i : nat) :
  i < 500 ->
  still_a_copy d i
  = Bool.eqb (Gen.every 19 (Gen.n + i)) (Gen.every 19 i)
    && (Bool.eqb (Gen.every 31 (Gen.n + i)) (Gen.every 31 i)
        || Py.str_eqb (Gen.status d i) []).
Proof.
  intros Hi. rewrite still_a_copy_rows by exact Hi.
  assert (Hn := head_rows_le). assert (Hf := far_rows_le).
  unfold generated_row. cbv zeta.
  rewrite (source_appended (j := Gen.n + i)) by lia.
  rewrite (source_below (j := i)) by lia.
  replace (Gen.n + i - Gen.n) with i by lia.
  assert (Hb1 : Gen.between 500 550 (Gen.n + i) = false).
  { unfold Gen.between. apply andb_false_iff. right. apply Nat.leb_gt. lia. }
  assert (Hb2 : Gen.between 500 550 i = false).
  { unfold Gen.between. apply andb_false_iff. left. apply Nat.leb_gt. lia. }
  rewrite Hb1, Hb2. cbn [row_eqb].
  rewrite !value_eqb_refl. cbn [andb].
  destruct (Gen.every 7 i), (Gen.every 13 i); rewrite ?value_eqb_refl; cbn [andb];
    destruct (Gen.every 19 (Gen.n + i)), (Gen.every 19 i); cbn [value_eqb Bool.eqb andb];
      rewrite ?str_eqb_refl, ?Qeq_bool_refl; cbn [andb]; try reflexivity;
        destruct (Gen.every 31 (Gen.n + i)), (Gen.every 31 i); cbn [value_eqb Bool.eqb orb];
          rewrite ?str_eqb_refl, ?andb_true_r; try reflexivity; apply str_eqb_sym.
Qed.

Lemma source_injective_below (d : Gen.draws) (j j' : nat) :
  0 <= j < Gen.n -> 0 <= j' < Gen.n ->
  row_eqb (generated_row d j) (generated_row d j') = true -> j = j'.
Proof.
  intros Hj Hj' H. apply generated_row_source in H.
  rewrite !source_below in H by lia. exact H.
Qed.

Lemma source_injective_appended (d : Gen.draws) (j j' : nat) :
  Gen.n <= j < Gen.n + 500 -> Gen.n <= j' < Gen.n + 500 ->
  row_eqb (generated_row d j) (generated_row d j') = true -> j = j'.
Proof.
  intros Hj Hj' H. apply generated_row_source in H.
  rewrite !source_appended in H by lia. lia.
Qed.

(** An appended row can only repeat the row it was copied from. *)
Lemma seen_before (d : Gen.draws) (i : nat) :
  i < 500 ->
  existsb (row_eqb (generated_row d (Gen.n + i))) (List.map (generated_row d) (seq 0 Gen.n))
  = still_a_copy d i.
Proof.
  intros Hi. rewrite still_a_copy_rows by exact Hi. assert (Hn := head_rows_le).
  destruct (row_eqb (generated_row d (Gen.n + i)) (generated_row d i)) eqn:E.
  - apply existsb_exists. exists (generated_row d i). split; [|exact E].
    apply in_map. apply in_seq. lia.
  - destruct (existsb _ _) eqn:E'; [|reflexivity].
    apply existsb_exists in E' as (r & Hr & Hx).
    apply in_map_iff in Hr as (j & <- & Hj). apply in_seq in Hj.
    assert (Hs := generated_row_source _ _ _ Hx).
    rewrite source_appended, source_below in Hs by lia.
    replace j with i in Hx by lia. congruence.
Qed.

Lemma existsb_rev_nil {A} (f : A -> bool) (l : list A) :
  existsb f (rev l ++ []) = existsb f l.
Proof.
  rewrite app_nil_r. destruct (existsb f l) eqn:E.
  - apply existsb_exists in E as (x & Hx & Hf). apply existsb_exists. exists x.
    split; [now apply -> in_rev | exact Hf].
  - destruct (existsb f (rev l)) eqn:E'; [|reflexivity].
    apply existsb_exists in E' as (x & Hx & Hf). apply in_rev in Hx.
    rewrite <- E. symmetry. apply existsb_exists. now exists x.
Qed.

(** Cleaning [a ++ b] when neither part repeats a row of its own and no row
    is empty: [a] stays, and of [b] the rows that repeat none of [a]. *)
Lemma clean_two_parts (cols : list Py.str) (dts : list dtype) (a b : list row) :
  distinct_from [] a -> distinct_from [] b ->
  (forall r, In r (a ++ b) -> all_missing r = false) ->
  rows (clean_rows (mkDF cols dts (a ++ b)))
  = a ++ filter (fun r => negb (existsb (row_eqb r) a)) b.
Proof.
  intros Ha Hb Hm.
  unfold clean_rows, reset_index, dropna_all, drop_duplicates, with_rows. cbn [rows].
  rewrite drop_duplicates_app, (distinct_is_fixed _ _ Ha), (@drop_duplicates_unseen _ _ Hb).
  rewrite filter_all.
  - f_equal. apply filter_ext. intros r. now rewrite existsb_rev_nil.
  - intros r Hr. rewrite Hm; [reflexivity|].
    apply in_app_or in Hr as [Hr|Hr]; apply in_or_app; [now left|right].
    now apply filter_In in Hr.
Qed.

Lemma clean_generated_rows (d : Gen.draws) :
  rows (clean_rows (Gen.generate d))
  = List.map (generated_row d) (seq 0 Gen.n)
    ++ List.map (fun i => generated_row d (Gen.n + i))
                (filter (fun i => negb (still_a_copy d i)) (seq 0 500)).
Proof.
  assert (HA : distinct_from [] (List.map (generated_row d) (seq 0 Gen.n))).
  { apply (@distinct_map_seq (generated_row d) 0 Gen.n (@source_injective_below d)
             Gen.n 0 []); [lia|lia|intros x []]. }
  assert (HB : distinct_from [] (List.map (generated_row d) (seq (0 + Gen.n) 500))).
  { apply (@distinct_map_seq (generated_row d) Gen.n (Gen.n + 500)
             (@source_injective_appended d) 500 (0 + Gen.n) []); [lia|lia|intros x []]. }
  assert (Hm : forall r, In r (List.map (generated_row d) (seq 0 Gen.n)
                               ++ List.map (generated_row d) (seq (0 + Gen.n) 500)) ->
                         all_missing r = false).
  { intros r Hr. apply in_app_or in Hr as [Hr|Hr];
      apply in_map_iff in Hr as (j & <- & _); apply generated_row_not_missing. }
  assert (E : rows (clean_rows (Gen.generate d))
              = rows (clean_rows (mkDF (columns (Gen.generate d)) (dtypes (Gen.generate d))
                        (List.map (generated_row d) (seq 0 Gen.n)
                         ++ List.map (generated_row d) (seq (0 + Gen.n) 500))))).
  { unfold clean_rows, reset_index, dropna_all, drop_duplicates, with_rows. cbn [rows].
    now rewrite generate_rows, seq_app, map_app. }
  rewrite E. clear E.
  refine (eq_trans (@clean_two_parts _ _ _ _ HA HB Hm) _).
  apply f_equal. change (0 + Gen.n) with Gen.n.
  rewrite (seq_from Gen.n 500), <- (map_map (fun i => Gen.n + i) (generated_row d)).
  rewrite filter_map_swap, filter_map_swap, !map_map.
  apply f_equal. apply filter_ext_in. intros i Hi. apply in_seq in Hi.
  now rewrite seen_before by lia.
Qed.

Lemma copies_at_most :
  List.length (filter (fun i => Bool.eqb (Gen.every 19 (Gen.n + i)) (Gen.every 19 i))
                      (seq 0 500)) = 447.
Proof. vm_compute. reflexivity. Qed.

Lemma copies_at_least :
  List.length
    (filter (fun i => Bool.eqb (Gen.every 19 (Gen.n + i)) (Gen.every 19 i)
                      && Bool.eqb (Gen.every 31 (Gen.n + i)) (Gen.every 31 i))
            (seq 0 500)) = 417.
Proof. vm_compute. reflexivity. Qed.

(** X17. Whatever the random draws, cleaning the generated table keeps its
    first [n] rows as they are and removes exactly the appended rows that
    still equal the row they were copied from.  An appended row [n + i]
    still equals row [i] exactly when the "dez" edit reached both rows or
    neither, and the empty-status edit reached both or neither or the status
    drawn was empty already.  So of the 500 rows appended as duplicates,
    between 417 and 447 are removed, never all 500. *)
Theorem generated_duplicates (d : Gen.draws) :
  let df := Gen.generate d in
  let removed := len df - len (clean_rows df) in
  firstn Gen.n (rows (clean_rows df)) = firstn Gen.n (rows df)
  /\ removed = List.length (filter (still_a_copy d) (seq 0 500))
  /\ (forall i, i < 500 ->
        still_a_copy d i
        = Bool.eqb (Gen.every 19 (Gen.n + i)) (Gen.every 19 i)
          && (Bool.eqb (Gen.every 31 (Gen.n + i)) (Gen.every 31 i)
              || Py.str_eqb (Gen.status d i) []))
  /\ 417 <= removed <= 447.
Proof.
  intros df removed.
  assert (Hrem : removed = List.length (filter (still_a_copy d) (seq 0 500))).
  { subst removed df. unfold len. rewrite clean_generated_rows, generate_rows.
    rewrite length_app, !length_map, !length_seq.
    assert (H := filter_length (still_a_copy d) (seq 0 500)).
    rewrite length_seq in H. lia. }
  split; [|split; [exact Hrem|split; [exact (@still_a_copy_spec d)|]]].
  - subst df. rewrite clean_generated_rows, generate_rows, seq_app, map_app.
    rewrite !firstn_app, !length_map, !length_seq, Nat.sub_diag.
    cbn [firstn]. reflexivity.
  - rewrite Hrem. split.
    + assert (H : List.length
                    (filter (fun i => Bool.eqb (Gen.every 19 (Gen.n + i)) (Gen.every 19 i)
                                      && Bool.eqb (Gen.every 31 (Gen.n + i)) (Gen.every 31 i))
                            (seq 0 500))
                  <= List.length (filter (still_a_copy d) (seq 0 500))).
      { apply filter_length_mono. intros i Hi H. apply in_seq in Hi.
        rewrite still_a_copy_spec by lia.
        apply andb_true_iff in H as (H1 & H2). now rewrite H1, H2. }
      rewrite copies_at_least in H. exact H.
    + assert (H : List.length (filter (still_a_copy d) (seq 0 500))
                  <= List.length
                       (filter (fun i => Bool.eqb (Gen.every 19 (Gen.n + i)) (Gen.every 19 i))
                               (seq 0 500))).
      { apply filter_length_mono. intros i Hi H. apply in_seq in Hi.
        rewrite still_a_copy_spec in H by lia.
        now apply andb_true_iff in H as (H1 & _). }
      rewrite copies_at_most in H. exact H.
Qed.
